(** * ESG-Analytics: record normalisation and aggregation pipeline

    A shallow embedding of the TypeScript analytics modules
    (numeric coercion, spreadsheet header discovery, row filtering,
    Map-based grouping, top-N ranking) together with the properties
    their specification states.

    Number model.  The modules are embedded twice.  In the first part a
    JavaScript number is an exact rational ([Q]); [NaN] and the
    infinities only occur as results of [parseFloat] and live in the
    separate type [Num].  This part carries the properties of keys,
    counts, order and parsing, which do not depend on how numbers round.
    In the last part ([Computed]) the analytics are given over an
    arithmetic that is a parameter, of which the IEEE 754 doubles
    ([doubles]) and the rationals ([rationals]) are instances; it carries
    the properties of the sums, whose value depends on the order of the
    additions. *)

From Stdlib Require Import List Bool Arith ZArith QArith Qfield Lia String Ascii.
From Stdlib Require Import Permutation Sorted SetoidList Morphisms.
From Stdlib Require PrimFloat Uint63.
Import ListNotations.

Set Implicit Arguments.
Open Scope Q_scope.

(* ================================================================== *)
(** * JavaScript values *)
(* ================================================================== *)

Module JS.

(** A string is a sequence of UTF-16 code units. *)
Definition jchar := N.
Definition jstring := list jchar.

Definition js (s : string) : jstring :=
  List.map N_of_ascii (list_ascii_of_string s).

Definition jstring_eqb (a b : jstring) : bool :=
  if list_eq_dec N.eq_dec a b then true else false.

(** Number values produced by [parseFloat]. *)
Inductive Num :=
| NaN
| Inf (negative : bool)
| Fin (q : Q).

Inductive JsVal :=
| VUndefined
| VNull
| VBool (b : bool)
| VNum (q : Q)
| VStr (s : jstring).

(** ToBoolean *)
Definition truthy (v : JsVal) : bool :=
  match v with
  | VUndefined | VNull => false
  | VBool b => b
  | VNum q => negb (Qeq_bool q 0)
  | VStr s => match s with [] => false | _ => true end
  end.

(** [a || b] *)
Definition orElse (a b : JsVal) : JsVal := if truthy a then a else b.

(** SameValueZero, the equality of [Map] keys and [Array.prototype.includes]. *)
Definition sameValueZero (a b : JsVal) : bool :=
  match a, b with
  | VUndefined, VUndefined => true
  | VNull, VNull => true
  | VBool x, VBool y => Bool.eqb x y
  | VNum x, VNum y => Qeq_bool x y
  | VStr x, VStr y => jstring_eqb x y
  | _, _ => false
  end.

(** [arr.includes(x)] *)
Definition includes (arr : list JsVal) (x : JsVal) : bool :=
  existsb (fun c => sameValueZero c x) arr.

(** [arr[idx]]: reading past the end gives [undefined]. *)
Definition at_index (arr : list JsVal) (idx : nat) : JsVal :=
  nth idx arr VUndefined.

(** ** Characters *)

Definition ch_tab : jchar := 9%N.
Definition ch_space : jchar := 32%N.
Definition ch_dollar : jchar := 36%N.
Definition ch_percent : jchar := 37%N.
Definition ch_plus : jchar := 43%N.
Definition ch_comma : jchar := 44%N.
Definition ch_minus : jchar := 45%N.
Definition ch_dot : jchar := 46%N.
Definition ch_E : jchar := 69%N.
Definition ch_e : jchar := 101%N.
Definition ch_pound : jchar := 163%N.      (* U+00A3 *)
Definition ch_yen : jchar := 165%N.        (* U+00A5 *)
Definition ch_euro : jchar := 8364%N.      (* U+20AC *)
Definition ch_rupee : jchar := 8377%N.     (* U+20B9 *)
(* the three characters a UTF-8 rupee sign turns into when read as cp1252 *)
Definition ch_a_circumflex : jchar := 226%N.  (* U+00E2 *)
Definition ch_low_quote : jchar := 8218%N.    (* U+201A *)
Definition ch_superscript1 : jchar := 185%N.  (* U+00B9 *)

Definition isDigit (c : jchar) : bool := (48 <=? c)%N && (c <=? 57)%N.

Definition digitVal (c : jchar) : Z := Z.of_N (c - 48)%N.

(** WhiteSpace and LineTerminator of ECMAScript: what [\s] matches and
    what [trim] and [parseFloat] skip. *)
Definition isWhite (c : jchar) : bool :=
  ((9 <=? c)%N && (c <=? 13)%N)
  || (c =? 32)%N || (c =? 160)%N || (c =? 5760)%N
  || ((8192 <=? c)%N && (c <=? 8202)%N)
  || (c =? 8232)%N || (c =? 8233)%N || (c =? 8239)%N
  || (c =? 8287)%N || (c =? 12288)%N || (c =? 65279)%N.

(** ** String operations *)

(** [s.replace(/[class]/g, '')] for a character class given as a predicate *)
Definition removeAll (cls : jchar -> bool) (s : jstring) : jstring :=
  filter (fun c => negb (cls c)) s.

Fixpoint trimStart (s : jstring) : jstring :=
  match s with
  | c :: r => if isWhite c then trimStart r else s
  | [] => []
  end.

Fixpoint trimEnd (s : jstring) : jstring :=
  match s with
  | [] => []
  | c :: r =>
      match trimEnd r with
      | [] => if isWhite c then [] else [c]
      | r' => c :: r'
      end
  end.

Definition trim (s : jstring) : jstring := trimEnd (trimStart s).

Fixpoint startsWith (p s : jstring) : bool :=
  match p, s with
  | [], _ => true
  | a :: p', b :: s' => (a =? b)%N && startsWith p' s'
  | _ :: _, [] => false
  end.

(** longest prefix of decimal digits, and the rest *)
Fixpoint spanDigits (s : jstring) : jstring * jstring :=
  match s with
  | c :: r =>
      if isDigit c then let (d, t) := spanDigits r in (c :: d, t) else ([], s)
  | [] => ([], [])
  end.

Definition digitsZ (ds : jstring) : Z :=
  fold_left (fun acc c => (10 * acc + digitVal c)%Z) ds 0%Z.

(** [m * 10^e] as a rational *)
Definition scale10 (m e : Z) : Q :=
  if (0 <=? e)%Z then inject_Z (m * 10 ^ e)
  else Qmake m (Z.to_pos (10 ^ (- e))).

(** ** parseFloat

    Skips leading white space, then reads the longest prefix that is a
    StrDecimalLiteral: an optional sign followed by [Infinity], or by
    digits with an optional fraction and an optional exponent.  Anything
    after that prefix is ignored; no such prefix gives [NaN]. *)

Definition readSign (s : jstring) : bool * jstring :=
  match s with
  | c :: r =>
      if (c =? ch_minus)%N then (true, r)
      else if (c =? ch_plus)%N then (false, r)
      else (false, s)
  | [] => (false, [])
  end.

(** the exponent part [e[+-]ddd], read only when at least one digit follows *)
Definition readExponent (s : jstring) : Z :=
  match s with
  | c :: r =>
      if (c =? ch_e)%N || (c =? ch_E)%N then
        let (neg, r') := readSign r in
        let (ds, _) := spanDigits r' in
        match ds with
        | [] => 0%Z
        | _ => if neg then (- digitsZ ds)%Z else digitsZ ds
        end
      else 0%Z
  | [] => 0%Z
  end.

Definition parseFloat (input : jstring) : Num :=
  let (neg, body) := readSign (trimStart input) in
  if startsWith (js "Infinity") body then Inf neg
  else
    let (ip, r1) := spanDigits body in
    let (fp, r2) :=
      match r1 with
      | c :: r => if (c =? ch_dot)%N then spanDigits r else ([], r1)
      | [] => ([], r1)
      end in
    match ip ++ fp with
    | [] => NaN
    | ds =>
        let m := digitsZ ds in
        let e := (readExponent r2 - Z.of_nat (List.length fp))%Z in
        Fin (scale10 (if neg then - m else m) e)
    end.

Definition isNaN (n : Num) : bool :=
  match n with NaN => true | _ => false end.

(** ** Map: keys in insertion order, compared with SameValueZero *)

Section MapOps.
Variable V : Type.

Definition Map := list (JsVal * V).

Fixpoint has (m : Map) (k : JsVal) : bool :=
  match m with
  | [] => false
  | (k', _) :: m' => sameValueZero k' k || has m' k
  end.

Fixpoint get (m : Map) (k : JsVal) : option V :=
  match m with
  | [] => None
  | (k', v) :: m' => if sameValueZero k' k then Some v else get m' k
  end.

(** [m.set(k, v)]: an existing key keeps its place, a new one goes last *)
Fixpoint set (m : Map) (k : JsVal) (v : V) : Map :=
  match m with
  | [] => [(k, v)]
  | (k', v') :: m' =>
      if sameValueZero k' k then (k', v) :: m' else (k', v') :: set m' k v
  end.

(** [const g = m.get(k); g.x += ...]: the entry is an object that is
    updated in place *)
Fixpoint mutate (m : Map) (k : JsVal) (f : V -> V) : Map :=
  match m with
  | [] => []
  | (k', v) :: m' =>
      if sameValueZero k' k then (k', f v) :: m' else (k', v) :: mutate m' k f
  end.

Definition keys (m : Map) : list JsVal := List.map fst m.
Definition values (m : Map) : list V := List.map snd m.
Definition entries (m : Map) : list (JsVal * V) := m.

(** [if (!m.has(k)) m.set(k, init); const g = m.get(k); g... ] *)
Definition upsert (m : Map) (k : JsVal) (init : V) (f : V -> V) : Map :=
  mutate (if negb (has m k) then set m k init else m) k f.
End MapOps.

(** ** Array.prototype.sort with a numeric comparator

  The sort is stable; [cmp a b < 0] puts [a] first, [cmp a b > 0] puts
  [b] first.  For a consistent comparator the result of a stable sort
  is unique, and insertion from the right computes it. *)

Section Sort.
Variable A : Type.
Variable cmp : A -> A -> Q.

Fixpoint insert (x : A) (l : list A) : list A :=
  match l with
  | [] => [x]
  | y :: l' => if Qle_bool (cmp x y) 0 then x :: l else y :: insert x l'
  end.

Fixpoint sort (l : list A) : list A :=
  match l with
  | [] => []
  | x :: l' => insert x (sort l')
  end.
End Sort.

(** [arr.slice(0, n)] *)
Definition slice0 (A : Type) (n : nat) (l : list A) : list A := firstn n l.

(** ** Conversion to string

    [Number.prototype.toString] is a built-in of the host; the loaders
    only pass its result on, so it stays a parameter. *)

Section ToString.
Variable numberToString : Q -> jstring.

(** [String(v)]; [v.toString()] agrees with it wherever it is called *)
Definition toString (v : JsVal) : jstring :=
  match v with
  | VUndefined => js "undefined"
  | VNull => js "null"
  | VBool true => js "true"
  | VBool false => js "false"
  | VNum q => numberToString q
  | VStr s => s
  end.
End ToString.

(** ** Records

    A record handed to an aggregation is an object whose measure
    properties hold (finite) numbers and whose other properties hold any
    value; a property that is not there reads as [undefined]. *)

Record Item := mkItem {
  props : list (string * JsVal);
  nums : list (string * Q)
}.

Fixpoint lookup (A : Type) (l : list (string * A)) (k : string) : option A :=
  match l with
  | [] => None
  | (k', v) :: l' => if String.eqb k' k then Some v else lookup l' k
  end.

(** [d[k]] for a grouping or text property *)
Definition prop (d : Item) (k : string) : JsVal :=
  match lookup (props d) k with Some v => v | None => VUndefined end.

(** [d[k]] for a measure property, [None] being [undefined] *)
Definition num (d : Item) (k : string) : option Q := lookup (nums d) k.

(** [d[k]] for a measure property, as a value *)
Definition numVal (d : Item) (k : string) : JsVal :=
  match num d k with Some q => VNum q | None => VUndefined end.

(** [x || 0] on a measure property *)
Definition orZero (x : option Q) : Q :=
  match x with
  | Some q => if Qeq_bool q 0 then 0 else q
  | None => 0
  end.

(** [obj[k] = v] on an object under construction: an existing property
    keeps its place, a new one goes last *)
Fixpoint assign (A : Type) (obj : list (string * A)) (k : string) (v : A)
  : list (string * A) :=
  match obj with
  | [] => [(k, v)]
  | (k', v') :: o' =>
      if String.eqb k' k then (k', v) :: o' else (k', v') :: assign o' k v
  end.

(** ** Outcome of a file upload *)

Inductive UploadStatus := idle | success | error.

(** the conditions raised inside the [try] block of a loader *)
Inductive UploadError :=
| EmptyFileContent
| TooFewRows            (* 'Excel must contain header and data rows', 'Excel must contain headers and rows' *)
| HeaderRowNotFound     (* 'Header row not found with expected columns' *)
| NoValidDataFound      (* 'No valid data found' / 'No data found' *)
| TypeError.            (* a property read on [undefined] *)

Inductive Outcome (A : Type) :=
| Loaded (data : list A)
| Failed (e : UploadError).
Arguments Failed {A} e.

(** the [catch] block: every condition becomes the [error] status *)
Definition statusOf (A : Type) (o : Outcome A) : UploadStatus :=
  match o with Loaded _ => success | Failed _ => error end.

(** a row of [sheet_to_json(ws, {header: 1})]; [None] is a row that is
    not an array *)
Definition SheetRow := option (list JsVal).

(** a value of a record built from a sheet row: a parsed number or a
    trimmed string *)
Inductive Field :=
| FNum (n : Num)
| FStr (s : jstring).

Definition Mapped := list (string * Field).

(** [cell !== null && cell !== undefined && cell !== ''] *)
Definition nonEmptyCell (cell : JsVal) : bool :=
  match cell with
  | VNull | VUndefined => false
  | VStr [] => false
  | _ => true
  end.

Definition Unknown : JsVal := VStr (js "Unknown").

End JS.

Import JS.
Open Scope string_scope.

(* ================================================================== *)
(** * Scope3Analytics.tsx *)
(* ================================================================== *)

Module Scope3Analytics.

Definition fieldMapping : list (string * string) :=
  [ ("Sr.No.", "srNo");
    ("BRSR ID", "brsrId");
    ("Financial Year", "financialYear");
    ("Business Code", "businessCode");
    ("Plant", "plant");
    ("Department", "department");
    ("Attribute", "attribute");
    ("Parameter", "parameter");
    ("Sub Category", "subCategory");
    ("Total Quantity", "totalQuantity");
    ("Total EFFuel", "totalEFFuel");
    ("Total Value", "totalValue");
    ("Doc Status", "docStatus");
    ("Pending With", "pendingWith") ].

Definition numericFields : list string :=
  ["totalQuantity"; "totalEFFuel"; "totalValue"].

(** the class [[,₹$€£¥]] *)
Definition stripped (c : jchar) : bool :=
  (c =? ch_comma)%N || (c =? ch_rupee)%N || (c =? ch_dollar)%N
  || (c =? ch_euro)%N || (c =? ch_pound)%N || (c =? ch_yen)%N.

Definition parseNumeric (val : JsVal) : Num :=
  match val with
  | VNull | VUndefined => Fin 0
  | VStr [] => Fin 0
  | VNum q => Fin q
  | VStr s =>
      let cleaned := trim (removeAll stripped s) in
      let parsed := parseFloat cleaned in
      if isNaN parsed then Fin 0 else parsed
  | VBool _ => Fin 0
  end.

(** [Object.keys(fieldMapping).every(col => row.includes(col))] *)
Definition hasAllCols (row : list JsVal) : bool :=
  forallb (fun col => includes row (VStr (js col))) (List.map fst fieldMapping).

(** the loop [for (i = 0; i < Math.min(10, rows.length); i++)], started at
    index [i] on the rows still to visit *)
Fixpoint scanHeader (i : nat) (window : list SheetRow)
  : option (nat * list JsVal) :=
  match window with
  | [] => None
  | Some row :: rest =>
      if hasAllCols row then Some (i, row) else scanHeader (S i) rest
  | None :: rest => scanHeader (S i) rest
  end.

Definition findHeader (rows : list SheetRow) : option (nat * list JsVal) :=
  scanHeader 0 (firstn (Nat.min 10 (List.length rows)) rows).

(** [r && Array.isArray(r) && r.some(cell => ...)] *)
Definition keepRow (r : SheetRow) : bool :=
  match r with
  | Some cells => existsb nonEmptyCell cells
  | None => false
  end.

Definition cellsOf (r : SheetRow) : list JsVal :=
  match r with Some cells => cells | None => [] end.

Section Scope3Upload.
Variable numberToString : Q -> jstring.

(** one turn of [headers.forEach((h, idx) => ...)].  Only the labels of
    [fieldMapping] itself are looked up; properties inherited from
    [Object.prototype] are left out. *)
Definition mapCell (row : list JsVal) (mapped : Mapped) (h : JsVal) (idx : nat)
  : Mapped :=
  match h with
  | VStr ((_ :: _) as label) =>
      match List.find (fun e => jstring_eqb (js (fst e)) label) fieldMapping with
      | Some (_, key) =>
          let val := at_index row idx in
          if existsb (String.eqb key) numericFields
          then assign mapped key (FNum (parseNumeric val))
          else assign mapped key
                 (FStr (if truthy val then trim (toString numberToString val)
                        else []))
      | None => mapped
      end
  | _ => mapped
  end.

Fixpoint mapCells (row : list JsVal) (mapped : Mapped) (headers : list JsVal)
  (idx : nat) : Mapped :=
  match headers with
  | [] => mapped
  | h :: hs => mapCells row (mapCell row mapped h idx) hs (S idx)
  end.

Definition mapRow (headers : list JsVal) (row : list JsVal) : Mapped :=
  mapCells row [] headers 0.

(** the body of [reader.onload] after the sheet has been read into [rows] *)
Definition processRows (rows : list SheetRow) : Outcome Mapped :=
  if (List.length rows <? 2)%nat then Failed TooFewRows
  else
    match findHeader rows with
    | None => Failed HeaderRowNotFound
    | Some (headerIndex, headers) =>
        let dataRows := skipn (headerIndex + 1) rows in
        let processedData :=
          List.map (fun r => mapRow headers (cellsOf r)) (filter keepRow dataRows) in
        if (List.length processedData =? 0)%nat then Failed NoValidDataFound
        else Loaded processedData
    end.

Definition uploadStatus (rows : list SheetRow) : UploadStatus :=
  statusOf (processRows rows).
End Scope3Upload.

(** an entry of [mapSub], [mapYear] or [mapDept]; its first property is
    called [subCategory], [financialYear] or [department] *)
Record Group := mkGroup {
  category : JsVal;
  totalQuantity : Q;
  totalEFFuel : Q;
  totalValue : Q
}.

Record Totals := mkTotals {
  sumQuantity : Q;   (* totals.totalQuantity *)
  sumEFFuel : Q;     (* totals.totalEFFuel *)
  sumValue : Q       (* totals.totalValue *)
}.

Record State := mkState {
  mapSub : Map Group;
  mapYear : Map Group;
  mapDept : Map Group;
  totals : Totals
}.

Definition addTo (d : Item) (agg : Group) : Group :=
  {| category := category agg;
     totalQuantity := totalQuantity agg + orZero (num d "totalQuantity");
     totalEFFuel := totalEFFuel agg + orZero (num d "totalEFFuel");
     totalValue := totalValue agg + orZero (num d "totalValue") |}.

(** [if (!m.has(k)) m.set(k, {.., 0, 0, 0}); const agg = m.get(k); agg... += ...] *)
Definition accumulate (m : Map Group) (k : JsVal) (d : Item) : Map Group :=
  let m1 := if negb (has m k) then set m k (mkGroup k 0 0 0) else m in
  mutate m1 k (addTo d).

(** the body of [data.forEach(d => ...)] *)
Definition step (st : State) (d : Item) : State :=
  let cat := orElse (prop d "subCategory") Unknown in
  let year := orElse (prop d "financialYear") (VStr (js "NA")) in
  let dept := orElse (prop d "department") (VStr (js "NA")) in
  {| mapSub := accumulate (mapSub st) cat d;
     mapYear := accumulate (mapYear st) year d;
     mapDept := accumulate (mapDept st) dept d;
     totals :=
       {| sumQuantity := sumQuantity (totals st) + orZero (num d "totalQuantity");
          sumEFFuel := sumEFFuel (totals st) + orZero (num d "totalEFFuel");
          sumValue := sumValue (totals st) + orZero (num d "totalValue") |} |}.

Definition initial : State := mkState [] [] [] (mkTotals 0 0 0).

Definition run (data : list Item) : State := fold_left step data initial.

(** [(a, b) => b.totalValue - a.totalValue] *)
Definition byValueDesc (a b : Group) : Q := totalValue b - totalValue a.

Record Efficiency := mkEfficiency {
  eff_subCategory : JsVal;
  valuePerEFFuel : Q;
  effuelPerQuantity : Q
}.

Record Analytics := mkAnalytics {
  bySubCategory : list Group;
  byYear : list Group;
  byDept : list Group;
  a_totals : Totals;
  efficiency : list Efficiency;
  topContributors : list Group
}.

Definition analytics (data : list Item) : Analytics :=
  match data with
  | [] => mkAnalytics [] [] [] (mkTotals 0 0 0) [] []
  | _ =>
      let st := run data in
      {| bySubCategory := values (mapSub st);
         byYear := values (mapYear st);
         byDept := values (mapDept st);
         a_totals := totals st;
         efficiency :=
           List.map (fun s =>
             {| eff_subCategory := category s;
                valuePerEFFuel :=
                  if Qlt_le_dec 0 (totalEFFuel s)
                  then totalValue s / totalEFFuel s else 0;
                effuelPerQuantity :=
                  if Qlt_le_dec 0 (totalQuantity s)
                  then totalEFFuel s / totalQuantity s else 0 |})
             (values (mapSub st));
         topContributors := slice0 5 (sort byValueDesc (values (mapSub st))) |}
  end.

End Scope3Analytics.

(* ================================================================== *)
(** * WaterAnalytics.tsx *)
(* ================================================================== *)

Module WaterAnalytics.

Record ParameterGroup := mkGroup {
  parameter : JsVal;
  totalQuantity : Q;
  totalValue : Q;
  count : nat
}.

(** [waterData.reduce((sum, item) => sum + (item.quantity || 0), 0)] *)
Definition sumQuantity (waterData : list Item) : Q :=
  fold_left (fun sum item => sum + orZero (num item "quantity")) waterData 0.

Definition sumValue (waterData : list Item) : Q :=
  fold_left (fun sum item => sum + orZero (num item "value")) waterData 0.

(** the body of the first [waterData.forEach(item => ...)] *)
Definition parameterStep (parameterMap : Map ParameterGroup) (item : Item)
  : Map ParameterGroup :=
  let param := orElse (prop item "parameter") Unknown in
  let m1 :=
    if negb (has parameterMap param)
    then set parameterMap param (mkGroup param 0 0 0)
    else parameterMap in
  mutate m1 param (fun group =>
    {| parameter := parameter group;
       totalQuantity := totalQuantity group + orZero (num item "quantity");
       totalValue := totalValue group + orZero (num item "value");
       count := count group + 1 |}).

Definition parameterMap (waterData : list Item) : Map ParameterGroup :=
  fold_left parameterStep waterData [].

Record Analytics := mkAnalytics {
  a_totalQuantity : Q;
  a_totalValue : Q;
  byParameter : list ParameterGroup
}.

Definition analytics (waterData : list Item) : Analytics :=
  match waterData with
  | [] => mkAnalytics 0 0 []
  | _ =>
      {| a_totalQuantity := sumQuantity waterData;
         a_totalValue := sumValue waterData;
         byParameter := values (parameterMap waterData) |}
  end.

End WaterAnalytics.

(* ================================================================== *)
(** * FugitiveAnalytics (src/unnamed/part_002) *)
(* ================================================================== *)

Module FugitiveAnalytics.

(** an entry of the [map] inside [aggregate] *)
Record Acc := mkAcc {
  acc_category : JsVal;
  acc_totalQuantity : Q;
  acc_totalValue : Q;
  convFactorSum : Q;
  rIntensitySum : Q;
  pppIntensitySum : Q;
  count : nat
}.

(** a row of the array [aggregate] returns *)
Record Summary := mkSummary {
  category : JsVal;
  totalQuantity : Q;
  totalValue : Q;
  avgConvFactor : Q;
  avgRIntensity : Q;
  avgPPPIntensity : Q
}.

Definition groupKey (key : string) (d : Item) : JsVal :=
  orElse (prop d key) Unknown.

Definition aggregateStep (key : string) (map : Map Acc) (d : Item) : Map Acc :=
  let cat := groupKey key d in
  let m1 := if negb (has map cat) then set map cat (mkAcc cat 0 0 0 0 0 0) else map in
  mutate m1 cat (fun agg =>
    {| acc_category := acc_category agg;
       acc_totalQuantity := acc_totalQuantity agg + orZero (num d "quantity");
       acc_totalValue := acc_totalValue agg + orZero (num d "value");
       convFactorSum := convFactorSum agg + orZero (num d "convFactor");
       rIntensitySum := rIntensitySum agg + orZero (num d "rIntensity");
       pppIntensitySum := pppIntensitySum agg + orZero (num d "pppIntensity");
       count := count agg + 1 |}).

(** the [map] once [data.forEach] is done *)
Definition aggregateMap (key : string) (data : list Item) : Map Acc :=
  fold_left (aggregateStep key) data [].

(** [v.count ? sum / v.count : 0] *)
Definition average (sum : Q) (count : nat) : Q :=
  match count with
  | O => 0
  | _ => sum / inject_Z (Z.of_nat count)
  end.

Definition summarise (v : Acc) : Summary :=
  {| category := acc_category v;
     totalQuantity := acc_totalQuantity v;
     totalValue := acc_totalValue v;
     avgConvFactor := average (convFactorSum v) (count v);
     avgRIntensity := average (rIntensitySum v) (count v);
     avgPPPIntensity := average (pppIntensitySum v) (count v) |}.

Definition aggregate (key : string) (data : list Item) : list Summary :=
  List.map summarise (values (aggregateMap key data)).

End FugitiveAnalytics.

(* ================================================================== *)
(** * ElectricityDataAnalytics (src/unnamed/part_003) *)
(* ================================================================== *)

Module ElectricityDataAnalytics.

(** [{...d, co2Emissions: (d.quantity || 0) * (d.convFactor || 0)}] *)
Definition enrich (d : Item) : Item :=
  {| props := props d;
     nums := ("co2Emissions",
              orZero (num d "quantity") * orZero (num d "convFactor")) :: nums d |}.

Definition enrichedData (data : list Item) : list Item := List.map enrich data.

Record Group := mkGroup {
  category : JsVal;
  totalQuantity : Q;
  totalCO2 : Q;
  count : nat
}.

Definition groupKey (key : string) (d : Item) : JsVal :=
  orElse (prop d key) Unknown.

Definition aggregateStep (key : string) (map : Map Group) (d : Item) : Map Group :=
  let k := groupKey key d in
  let m1 := if negb (has map k) then set map k (mkGroup k 0 0 0) else map in
  mutate m1 k (fun agg =>
    {| category := category agg;
       totalQuantity := totalQuantity agg + orZero (num d "quantity");
       totalCO2 := totalCO2 agg + orZero (num d "co2Emissions");
       count := count agg + 1 |}).

(** [aggregateBy(key)], applied to the enriched records *)
Definition aggregateBy (key : string) (enriched : list Item) : list Group :=
  values (fold_left (aggregateStep key) enriched []).

Record ByCategory := mkByCategory {
  plant : list Group;
  department : list Group;
  subCategory : list Group;
  type : list Group
}.

Definition byCategory (data : list Item) : ByCategory :=
  match data with
  | [] => mkByCategory [] [] [] []
  | _ =>
      let e := enrichedData data in
      {| plant := aggregateBy "plant" e;
         department := aggregateBy "department" e;
         subCategory := aggregateBy "subCategory" e;
         type := aggregateBy "type" e |}
  end.

End ElectricityDataAnalytics.

(* ================================================================== *)
(** * FossilFuelAnalytics (src/unnamed/part_000, first component) *)
(* ================================================================== *)

Module FossilFuelAnalytics.

(** an entry of [typeMap]; [avgConv] holds a running sum *)
Record TypeEntry := mkTypeEntry {
  e_type : JsVal;
  e_totalQty : Q;
  e_totalValue : Q;
  e_avgConv : Q
}.

Record TypeSummary := mkTypeSummary {
  type : JsVal;
  totalQty : Q;
  totalValue : Q;
  avgConvFactor : Q
}.

Definition typeStep (typeMap : Map TypeEntry) (item : Item) : Map TypeEntry :=
  let qty := orZero (num item "quantity") in
  let val := orZero (num item "value") in
  let conv := orZero (num item "convFactor") in
  let t := orElse (prop item "type") Unknown in
  let m1 :=
    if negb (has typeMap t) then set typeMap t (mkTypeEntry t 0 0 0) else typeMap in
  mutate m1 t (fun typeEntry =>
    {| e_type := e_type typeEntry;
       e_totalQty := e_totalQty typeEntry + qty;
       e_totalValue := e_totalValue typeEntry + val;
       e_avgConv := e_avgConv typeEntry + conv |}).

Definition typeMap (data : list Item) : Map TypeEntry :=
  fold_left typeStep data [].

(** [Array.from(typeMap.values()).map(t => ...)] *)
Definition byType (data : list Item) : list TypeSummary :=
  match data with
  | [] => []
  | _ =>
      List.map (fun t =>
        {| type := e_type t;
           totalQty := e_totalQty t;
           totalValue := e_totalValue t;
           avgConvFactor :=
             if Qlt_le_dec 0 (e_totalQty t)
             then e_avgConv t / inject_Z (Z.of_nat (List.length data))
             else 0 |})
        (values (typeMap data))
  end.

End FossilFuelAnalytics.

(* ================================================================== *)
(** * DiversityDataAnalytics (src/unnamed/part_000, second component) *)
(* ================================================================== *)

Module DiversityDataAnalytics.

Definition fieldMapping : list (string * string) :=
  [ ("Sr.No.", "srNo");
    ("Sr No", "srNoAlt");
    ("Objective Code", "objectiveCode");
    ("Financial Year", "financialYear");
    ("Month", "month");
    ("Attribute", "attribute");
    ("Dim1", "dim1");
    ("Dim2", "dim2");
    ("Emission Source", "emissionSource");
    ("Start Date", "startDate");
    ("End Date", "endDate");
    ("Wages Paid To Females", "wagesFemales");
    ("Wages Paid To Male", "wagesMales");
    ("Total Complaints", "totalComplaints");
    ("Complaints By Female Employee", "complaintsByFemale");
    ("Complaints on POSH upheld", "poshUpheld");
    ("Actual Compliance Ind", "complianceInd") ].

Definition numericFields : list string :=
  ["wagesFemales"; "wagesMales"; "totalComplaints"; "complaintsByFemale";
   "poshUpheld"].

(** the class [[,₹$€£¥]] *)
Definition stripped (c : jchar) : bool :=
  (c =? ch_comma)%N || (c =? ch_rupee)%N || (c =? ch_dollar)%N
  || (c =? ch_euro)%N || (c =? ch_pound)%N || (c =? ch_yen)%N.

Section DiversityUpload.
Variable numberToString : Q -> jstring.

Definition parseNumeric (val : JsVal) : Num :=
  match val with
  | VNull | VUndefined => Fin 0
  | VStr [] => Fin 0
  | VNum q => Fin q
  | _ =>
      let cleaned := trim (removeAll stripped (toString numberToString val)) in
      let parsed := parseFloat cleaned in
      if isNaN parsed then Fin 0 else parsed
  end.

(** [Object.keys(fieldMapping).every(h => row.includes(h))] *)
Definition isHeaderRow (row : list JsVal) : bool :=
  forallb (fun h => includes row (VStr (js h))) (List.map fst fieldMapping).

Fixpoint scanHeader (i : nat) (window : list SheetRow)
  : option (nat * list JsVal) :=
  match window with
  | [] => None
  | Some row :: rest =>
      if isHeaderRow row then Some (i, row) else scanHeader (S i) rest
  | None :: rest => scanHeader (S i) rest
  end.

Definition findHeader (rows : list SheetRow) : option (nat * list JsVal) :=
  scanHeader 0 (firstn (Nat.min 10 (List.length rows)) rows).

Definition keepRow (r : SheetRow) : bool :=
  match r with
  | Some cells => existsb nonEmptyCell cells
  | None => false
  end.

Definition cellsOf (r : SheetRow) : list JsVal :=
  match r with Some cells => cells | None => [] end.

(** [fieldMapping[header]]; a header that is not a string makes a
    property key that is none of the labels *)
Definition mappedKey (header : JsVal) : option string :=
  match header with
  | VStr label =>
      match List.find (fun e => jstring_eqb (js (fst e)) label) fieldMapping with
      | Some (_, key) => Some key
      | None => None
      end
  | _ => None
  end.

Definition mapCell (row : list JsVal) (mapped : Mapped) (header : JsVal)
  (idx : nat) : Mapped :=
  match mappedKey header with
  | None => mapped
  | Some key =>
      let value := at_index row idx in
      if existsb (String.eqb key) numericFields
      then assign mapped key (FNum (parseNumeric value))
      else assign mapped key
             (FStr (if truthy value then trim (toString numberToString value)
                    else []))
  end.

Fixpoint mapCells (row : list JsVal) (mapped : Mapped) (headers : list JsVal)
  (idx : nat) : Mapped :=
  match headers with
  | [] => mapped
  | h :: hs => mapCells row (mapCell row mapped h idx) hs (S idx)
  end.

Definition mapRow (headers : list JsVal) (row : list JsVal) : Mapped :=
  mapCells row [] headers 0.

Definition processRows (rows : list SheetRow) : Outcome Mapped :=
  if (List.length rows <? 2)%nat then Failed TooFewRows
  else
    match findHeader rows with
    | None => Failed HeaderRowNotFound
    | Some (headerRowIndex, headers) =>
        let dataRows := skipn (headerRowIndex + 1) rows in
        let processed :=
          List.map (fun r => mapRow headers (cellsOf r)) (filter keepRow dataRows) in
        match processed with
        | [] => Failed NoValidDataFound
        | _ => Loaded processed
        end
    end.

Definition uploadStatus (rows : list SheetRow) : UploadStatus :=
  statusOf (processRows rows).
End DiversityUpload.

(** a numeric field of a record; [handleFileUpload] stores every
    numeric field in every record it builds *)
Definition numField (d : Item) (k : string) : Q :=
  match num d k with Some q => q | None => 0 end.

(** [if (d.dim1) complaintsByDim1.set(d.dim1,
       (complaintsByDim1.get(d.dim1) || 0) + d.totalComplaints)] *)
Definition dimStep (dim : string) (m : Map Q) (d : Item) : Map Q :=
  if truthy (prop d dim)
  then set m (prop d dim) (orZero (get m (prop d dim)) + numField d "totalComplaints")
  else m.

Definition complaintsByDim1 (data : list Item) : Map Q :=
  fold_left (dimStep "dim1") data [].

Definition complaintsByDim2 (data : list Item) : Map Q :=
  fold_left (dimStep "dim2") data [].

Record Breakdown := mkBreakdown {
  category : JsVal;
  totalComplaints : Q
}.

Definition complaintsBreakdown (data : list Item) : list Breakdown :=
  List.map (fun e => mkBreakdown (fst e) (snd e)) (entries (complaintsByDim1 data)).

End DiversityDataAnalytics.

(* ================================================================== *)
(** * OpennessAnalytics (src/unnamed/part_001) *)
(* ================================================================== *)

Module OpennessAnalytics.

Definition fieldMapping : list (string * string) :=
  [ ("Sr.No.", "srNo");
    ("Sr No", "srNoAlt");
    ("Objective Code", "objectiveCode");
    ("Financial Year", "financialYear");
    ("Month", "month");
    ("Dim1", "dim1");
    ("Dim2", "dim2");
    ("Attribute", "attribute");
    ("Emission Source", "emissionSource");
    ("Start Date", "startDate");
    ("End Date", "endDate");
    ("No of Trading Houses", "noTradingHouses");
    ("% of Total Purchases", "percentTotalPurchases");
    ("Top 10 % to TH", "top10PercentTH");
    ("No of Dealers", "noDealers");
    ("% of Total Salers", "percentTotalSalers");
    ("Top 10 % to TH Sales", "top10PercentTHSales");
    ("RPT Purchases", "rptPurchases");
    ("RPT Sales", "rptSales");
    ("RPT L & A", "rptLA");
    ("RPT Investments", "rptInvestments");
    ("Actual Compliance Ind", "actualCompliance") ].

Definition numericFields : list string :=
  ["noTradingHouses"; "percentTotalPurchases"; "top10PercentTH"; "noDealers";
   "percentTotalSalers"; "top10PercentTHSales"; "rptPurchases"; "rptSales";
   "rptLA"; "rptInvestments"].

(** the class as the file has it: comma, the three characters U+00E2,
    U+201A, U+00B9, dollar and percent *)
Definition stripped (c : jchar) : bool :=
  (c =? ch_comma)%N || (c =? ch_a_circumflex)%N || (c =? ch_low_quote)%N
  || (c =? ch_superscript1)%N || (c =? ch_dollar)%N || (c =? ch_percent)%N.

Section OpennessUpload.
Variable numberToString : Q -> jstring.

Definition parseNumeric (val : JsVal) : Num :=
  match val with
  | VNull | VUndefined => Fin 0
  | VStr [] => Fin 0
  | VNum q => Fin q
  | _ =>
      let parsed :=
        parseFloat (trim (removeAll stripped (toString numberToString val))) in
      if isNaN parsed then Fin 0 else parsed
  end.

Definition mappedKey (h : JsVal) : option string :=
  match h with
  | VStr label =>
      match List.find (fun e => jstring_eqb (js (fst e)) label) fieldMapping with
      | Some (_, key) => Some key
      | None => None
      end
  | _ => None
  end.

(** [headerRow.forEach((h, idx) => { if (fieldMapping[h])
       colIndexMap[fieldMapping[h]] = idx })] *)
Fixpoint buildColIndexMap (colIndexMap : list (string * nat))
  (headerRow : list JsVal) (idx : nat) : list (string * nat) :=
  match headerRow with
  | [] => colIndexMap
  | h :: hs =>
      buildColIndexMap
        (match mappedKey h with
         | Some key => assign colIndexMap key idx
         | None => colIndexMap
         end) hs (S idx)
  end.

(** [Array.isArray(r) && r.some(c => c != null && c !== '')] *)
Definition keepRow (r : SheetRow) : bool :=
  match r with
  | Some cells => existsb nonEmptyCell cells
  | None => false
  end.

Definition cellsOf (r : SheetRow) : list JsVal :=
  match r with Some cells => cells | None => [] end.

(** a text property read back for concatenation *)
Definition textOf (rowObj : Mapped) (k : string) : jstring :=
  match lookup rowObj k with
  | Some (FStr s) => s
  | _ => js "undefined"
  end.

Definition buildRow (colIndexMap : list (string * nat)) (row : list JsVal)
  : Mapped :=
  let rowObj :=
    fold_left (fun rowObj e =>
      let key := fst e in
      let cell := at_index row (snd e) in
      assign rowObj key
        (if existsb (String.eqb key) numericFields then FNum (parseNumeric cell)
         else match cell with
              | VNull | VUndefined => FStr []
              | _ => FStr (trim (toString numberToString cell))
              end))
      colIndexMap [] in
  assign rowObj "monthYear"
    (FStr (textOf rowObj "month" ++ js " " ++ textOf rowObj "financialYear")%list).

(** the body of [reader.onload] after the sheet has been read *)
Definition processRows (rawRows : list SheetRow) : Outcome Mapped :=
  match nth_error rawRows 4 with
  | Some (Some headerRow) =>
      let dataRows := skipn 5 rawRows in
      let colIndexMap := buildColIndexMap [] headerRow 0 in
      let parsed :=
        List.map (fun r => buildRow colIndexMap (cellsOf r)) (filter keepRow dataRows) in
      match parsed with
      | [] => Failed NoValidDataFound
      | _ => Loaded parsed
      end
  | _ => Failed TypeError
  end.

Definition uploadStatus (rawRows : list SheetRow) : UploadStatus :=
  statusOf (processRows rawRows).
End OpennessUpload.

(** the number a call of [parseNumeric] on a measure property gives *)
Definition measure (d : Item) (k : string) : Q :=
  match num d k with Some q => q | None => 0 end.

(** [const val = parseNumeric(d.rptPurchases);
     if (!dim1Map.has(d.dim1)) dim1Map.set(d.dim1, 0);
     dim1Map.set(d.dim1, dim1Map.get(d.dim1)! + val)] *)
Definition dimStep (dim field : string) (m : Map Q) (d : Item) : Map Q :=
  let val := measure d field in
  let m1 := if negb (has m (prop d dim)) then set m (prop d dim) 0 else m in
  set m1 (prop d dim)
    (match get m1 (prop d dim) with Some x => x | None => 0 end + val).

Definition dim1Map (data : list Item) : Map Q :=
  fold_left (dimStep "dim1" "rptPurchases") data [].

Record Breakdown := mkBreakdown {
  category : JsVal;
  value : Q
}.

(** [(a, b) => b.value - a.value] *)
Definition byValueDesc (a b : Breakdown) : Q := value b - value a.

Definition dim1Breakdown (data : list Item) : list Breakdown :=
  slice0 20
    (sort byValueDesc
       (List.map (fun e => mkBreakdown (fst e) (snd e)) (entries (dim1Map data)))).

End OpennessAnalytics.


(* ================================================================== *)
(** * Vocabulary of the properties *)
(* ================================================================== *)

Unset Implicit Arguments.
Open Scope list_scope.

(** two values are the same [Map] key *)
Definition eqK (a b : JsVal) : Prop := sameValueZero a b = true.

Definition memK (k : JsVal) (ks : list JsVal) : bool :=
  existsb (fun k' => sameValueZero k' k) ks.

(** the place of the first occurrence of a key in a sequence (its length
    when the key does not occur) *)
Fixpoint firstIndex (k : JsVal) (ks : list JsVal) : nat :=
  match ks with
  | [] => 0
  | x :: r => if sameValueZero x k then 0 else S (firstIndex k r)
  end.

(** the distinct values of a sequence, each at the place of its first
    occurrence *)
Fixpoint firstSeen (ks : list JsVal) : list JsVal :=
  match ks with
  | [] => []
  | k :: r => k :: filter (fun x => negb (sameValueZero k x)) (firstSeen r)
  end.

(** the shape all grouping loops share: create the group of the record's
    key when it is not there, then update it *)
Definition gstep (V : Type) (keyOf : Item -> JsVal) (init : JsVal -> V)
  (upd : Item -> V -> V) (m : Map V) (d : Item) : Map V :=
  upsert m (keyOf d) (init (keyOf d)) (upd d).

(** sums in a monoid *)
Definition sumOf (M : Type) (zero : M) (add : M -> M -> M) (l : list M) : M :=
  fold_right add zero l.

Definition total (M : Type) (zero : M) (add : M -> M -> M) (V : Type)
  (w : V -> M) (m : Map V) : M :=
  sumOf M zero add (List.map w (values m)).

(** the weight found under a key, [zero] when the key is not there *)
Definition weightAt (M : Type) (zero : M) (V : Type) (w : V -> M)
  (k : JsVal) (m : Map V) : M :=
  match get m k with Some v => w v | None => zero end.

Definition sumQ (l : list Q) : Q := fold_right Qplus 0 l.
Definition sumN (l : list nat) : nat := fold_right Nat.add 0%nat l.

(** the grouping key of the parameter breakdown of WaterAnalytics *)
Definition waterKey (item : Item) : JsVal := orElse (prop item "parameter") Unknown.

(** the grouping keys of Scope3Analytics *)
Definition scope3SubKey (d : Item) : JsVal := orElse (prop d "subCategory") Unknown.
Definition scope3YearKey (d : Item) : JsVal :=
  orElse (prop d "financialYear") (VStr (js "NA")).
Definition scope3DeptKey (d : Item) : JsVal :=
  orElse (prop d "department") (VStr (js "NA")).

(** [d.k || 0] as a function of the record *)
Definition measureOf (k : string) (d : Item) : Q := orZero (num d k).

(** the counts of a list of group records of ElectricityDataAnalytics *)
Definition electricityStepInit (k : JsVal) : ElectricityDataAnalytics.Group :=
  ElectricityDataAnalytics.mkGroup k 0 0 0.

Definition electricityStepUpd (d : Item) (agg : ElectricityDataAnalytics.Group)
  : ElectricityDataAnalytics.Group :=
  ElectricityDataAnalytics.mkGroup
    (ElectricityDataAnalytics.category agg)
    (ElectricityDataAnalytics.totalQuantity agg + orZero (num d "quantity"))
    (ElectricityDataAnalytics.totalCO2 agg + orZero (num d "co2Emissions"))
    (ElectricityDataAnalytics.count agg + 1).

(** ** Ranking *)

(** [a] may stand before [b] in a list sorted descending by [val] *)
Definition descBy (A : Type) (val : A -> Q) (a b : A) : Prop := val b <= val a.

(** the measure of [x] is [v] *)
Definition tiedAt (A : Type) (val : A -> Q) (v : Q) (x : A) : bool := Qeq_bool (val x) v.

(** [top] is the result of sorting [groups] descending by [val], stably,
    and keeping the first [n]:
    - its length is [min n (length groups)];
    - with some [rest] it is a rearrangement of [groups], and nothing in
      [rest] has a larger measure than anything in [top];
    - it is sorted descending;
    - for each measure [v], the groups of [top] with that measure are the
      first ones of [groups] with that measure, in the order of [groups]. *)
Definition isTopN (A : Type) (val : A -> Q) (n : nat) (groups top : list A) : Prop :=
  List.length top = Nat.min n (List.length groups)
  /\ (exists rest,
        Permutation (top ++ rest) groups
        /\ forall a b, In a top -> In b rest -> val b <= val a)
  /\ incl top groups
  /\ StronglySorted (descBy A val) top
  /\ forall v, exists k,
       filter (tiedAt A val v) top = firstn k (filter (tiedAt A val v) groups).

(** the breakdown of OpennessAnalytics before it is sorted and cut *)
Definition opennessDim1Groups (data : list Item) : list OpennessAnalytics.Breakdown :=
  List.map (fun e => OpennessAnalytics.mkBreakdown (fst e) (snd e))
    (entries (OpennessAnalytics.dim1Map data)).

(** ** Averages *)

(** [(v || 'Unknown') === 'Unknown']: the field is falsy or holds
    "Unknown" *)
Definition defaulted (v : JsVal) : bool :=
  negb (truthy v) || sameValueZero v Unknown.

(** records whose parameter is a name, the empty string, the number 0,
    [null], absent, and the string "Unknown" *)
Definition unknownSample : list Item :=
  [ mkItem [("parameter", VStr (js "pH"))] [("quantity", 1)];
    mkItem [("parameter", VStr [])] [("quantity", 2)];
    mkItem [("parameter", VNum 0)] [("quantity", 4)];
    mkItem [("parameter", VNull)] [("quantity", 8)];
    mkItem [] [("quantity", 16)];
    mkItem [("parameter", Unknown)] [("quantity", 4)] ].

(** the records of one group *)
Definition membersOf (keyOf : Item -> JsVal) (k : JsVal) (data : list Item) : list Item :=
  filter (fun d => sameValueZero (keyOf d) k) data.

(** the mean of a measure over a list of records *)
Definition meanOf (field : string) (members : list Item) : Q :=
  sumQ (List.map (measureOf field) members) / inject_Z (Z.of_nat (List.length members)).

(** two fossil-fuel records of different types *)
Definition fossilSample : list Item :=
  [ mkItem [("type", VStr (js "Coal"))] [("quantity", 1); ("value", 10); ("convFactor", 4)];
    mkItem [("type", VStr (js "Gas"))] [("quantity", 1); ("value", 20); ("convFactor", 6)] ].

(** a fossil-fuel record with no quantity *)
Definition fossilNoQuantity : list Item :=
  [ mkItem [("type", VStr (js "Coal"))] [("quantity", 0); ("value", 10); ("convFactor", 4)] ].

(** the entry [aggregate] of FugitiveAnalytics creates for a key, and its
    update by a record *)
Definition fugitiveInit (k : JsVal) : FugitiveAnalytics.Acc :=
  FugitiveAnalytics.mkAcc k 0 0 0 0 0 0.

Definition fugitiveUpd (d : Item) (agg : FugitiveAnalytics.Acc) : FugitiveAnalytics.Acc :=
  FugitiveAnalytics.mkAcc (FugitiveAnalytics.acc_category agg)
    (FugitiveAnalytics.acc_totalQuantity agg + orZero (num d "quantity"))
    (FugitiveAnalytics.acc_totalValue agg + orZero (num d "value"))
    (FugitiveAnalytics.convFactorSum agg + orZero (num d "convFactor"))
    (FugitiveAnalytics.rIntensitySum agg + orZero (num d "rIntensity"))
    (FugitiveAnalytics.pppIntensitySum agg + orZero (num d "pppIntensity"))
    (FugitiveAnalytics.count agg + 1).

(** ** Currency-formatted numerals *)

(** the class [[,₹$€£¥%\s]] of the pattern
    [^[,₹$€£¥%\s]*-?\d+(\.\d+)?[,₹$€£¥%\s]*$] *)
Definition specSymbol (c : jchar) : bool :=
  (c =? ch_comma)%N || (c =? ch_rupee)%N || (c =? ch_dollar)%N
  || (c =? ch_euro)%N || (c =? ch_pound)%N || (c =? ch_yen)%N
  || (c =? ch_percent)%N || isWhite c.

(** [-?\d+(\.\d+)?] with integer digits [ip] and fraction digits [fp]
    ([fp] empty: no fraction) *)
Definition numeral (neg : bool) (ip fp : jstring) : jstring :=
  (if neg then [ch_minus] else [])
  ++ ip ++ match fp with [] => [] | _ => ch_dot :: fp end.

(** the number a numeral denotes *)
Definition numeralValue (neg : bool) (ip fp : jstring) : Q :=
  let m := digitsZ (ip ++ fp) in
  scale10 (if neg then (- m)%Z else m) (- Z.of_nat (List.length fp)).

Definition allDigits (ds : jstring) : bool := forallb isDigit ds.

(** a string the pattern matches, cut into its five parts *)
Definition currencyFormatted (pre : jstring) (neg : bool) (ip fp suf : jstring)
  : jstring :=
  pre ++ numeral neg ip fp ++ suf.

Definition wellFormedParts (pre ip fp suf : jstring) : Prop :=
  forallb specSymbol pre = true
  /\ ip <> [] /\ allDigits ip = true /\ allDigits fp = true
  /\ forallb specSymbol suf = true.

(** what may stand before the numeral for the parse to reach it: the
    symbols the module strips, and white space *)
Definition scope3Leading (c : jchar) : bool :=
  Scope3Analytics.stripped c || isWhite c.

Definition opennessLeading (c : jchar) : bool :=
  (c =? ch_comma)%N || (c =? ch_dollar)%N || (c =? ch_percent)%N || isWhite c.

Definition ch_I : jchar := 73%N.

(** a character that ends the reading of a number *)
Definition stops (c : jchar) : bool :=
  negb (isDigit c) && negb (c =? ch_dot)%N && negb (c =? ch_e)%N && negb (c =? ch_E)%N.

(** a text that begins with a number, as [parseFloat] reads one: an
    optional sign, then [Infinity], a digit, or a dot and a digit *)
Definition beginsNumber (s : jstring) : bool :=
  let body := snd (readSign s) in
  startsWith (js "Infinity") body
  || match body with
     | c :: r =>
         isDigit c
         || ((c =? ch_dot)%N && match r with d :: _ => isDigit d | [] => false end)
     | [] => false
     end.

(** what is left of a string for [parseFloat] once the class is stripped
    and the ends are trimmed *)
Definition cleaned (cls : jchar -> bool) (s : jstring) : jstring :=
  trim (removeAll cls s).

(** ** Header discovery *)

(** the scan loop of the loaders, for any test of a row *)
Fixpoint scanWith (p : list JsVal -> bool) (i : nat) (window : list SheetRow)
  : option (nat * list JsVal) :=
  match window with
  | [] => None
  | Some row :: rest => if p row then Some (i, row) else scanWith p (S i) rest
  | None :: rest => scanWith p (S i) rest
  end.

(** the row is an array that passes the test *)
Definition qualifies (p : list JsVal -> bool) (r : SheetRow) : bool :=
  match r with Some row => p row | None => false end.

(** the number of rows the scan looks at: rows [0 .. scanned - 1] *)
Definition scanned (rows : list SheetRow) : nat := Nat.min 10 (List.length rows).

(** row [i] is the first row of the scanned window that qualifies *)
Definition isFirstMatch (p : list JsVal -> bool) (rows : list SheetRow) (i : nat)
  (headers : list JsVal) : Prop :=
  (i < scanned rows)%nat
  /\ nth_error rows i = Some (Some headers)
  /\ p headers = true
  /\ forall k, (k < i)%nat -> qualifies p (nth k rows None) = false.

(** no row of the scanned window qualifies *)
Definition noMatch (p : list JsVal -> bool) (rows : list SheetRow) : Prop :=
  forall k, (k < scanned rows)%nat -> qualifies p (nth k rows None) = false.

(** every label of a mapping is a cell of the row *)
Definition hasEveryLabel (mapping : list (string * string)) (row : list JsVal) : Prop :=
  forall label, In label (List.map fst mapping) -> In (VStr (js label)) row.

(** what a loader returns once the header row is known: the records of
    the data rows that are kept, or the failure when none is kept *)
Definition loadedFrom (mapRow : list JsVal -> list JsVal -> Mapped)
  (keep : SheetRow -> bool) (cells : SheetRow -> list JsVal)
  (headers : list JsVal) (dataRows : list SheetRow) : Outcome Mapped :=
  match filter keep dataRows with
  | [] => Failed NoValidDataFound
  | kept => Loaded (List.map (fun r => mapRow headers (cells r)) kept)
  end.

(** every cell is [null], [undefined] or the empty string *)
Definition blankCells (cells : list JsVal) : Prop :=
  Forall (fun c => c = VNull \/ c = VUndefined \/ c = VStr []) cells.

(** a header row that carries every label of a mapping, in its order *)
Definition headerOf (mapping : list (string * string)) : list JsVal :=
  List.map (fun e => VStr (js (fst e))) mapping.

(** a sheet for Scope3Analytics: three rows of titles, the header on row 3,
    a data row, a blank row and another data row *)
Definition scope3Sheet : list SheetRow :=
  [ Some [VStr (js "Scope 3 report")];
    Some [];
    Some [VStr (js "Sr.No."); VStr (js "Plant")];
    Some (headerOf Scope3Analytics.fieldMapping);
    Some [VNum 1; VStr (js "B1"); VStr (js "2024"); VStr (js "BC"); VStr (js "P1");
          VStr (js "Ops"); VStr (js "Travel"); VStr (js "km"); VStr (js "Air");
          VStr (ch_rupee :: js "1,234.50"); VNum 2; VStr (js " 12 "); VStr (js "Open");
          VNull];
    Some [VNull; VStr []; VUndefined];
    Some [VNum 2; VStr (js "B2"); VStr (js "2024"); VStr (js "BC"); VStr (js "P1");
          VStr []; VStr (js "Freight"); VStr (js "t"); VStr (js "Road");
          VNum 10; VStr (js "n/a"); VNum 7; VStr (js "Open"); VNull] ].

(** a sheet for DiversityDataAnalytics whose header row lacks the
    alternate spelling "Sr No" and nothing else *)
Definition diversitySheetWithoutSrNo : list SheetRow :=
  [ Some (headerOf (("Sr.No.", "srNo") :: List.tl (List.tl DiversityDataAnalytics.fieldMapping)));
    Some [VNum 1; VStr (js "OBJ"); VStr (js "2024"); VStr (js "January")] ].

(* ================================================================== *)
(** * Further parts of the modules *)
(* ================================================================== *)

Open Scope string_scope.
Open Scope list_scope.

(** the grouping key [d[field] || dflt] *)
Definition keyOr (field : string) (dflt : JsVal) (d : Item) : JsVal :=
  orElse (prop d field) dflt.

(** ** Records built from sheet rows *)

(** what both scan-for-match loaders do with one header cell, for a
    mapping, a set of numeric keys and a coercion *)
Definition mapCellWith (mapping : list (string * string)) (numericFields : list string)
  (parse : JsVal -> Num) (numberToString : Q -> jstring)
  (row : list JsVal) (mapped : Mapped) (h : JsVal) (idx : nat) : Mapped :=
  match h with
  | VStr label =>
      match List.find (fun e => jstring_eqb (js (fst e)) label) mapping with
      | Some (_, key) =>
          let val := at_index row idx in
          if existsb (String.eqb key) numericFields
          then assign mapped key (FNum (parse val))
          else assign mapped key
                 (FStr (if truthy val then trim (toString numberToString val) else []))
      | None => mapped
      end
  | _ => mapped
  end.

Fixpoint mapCellsWith (mapping : list (string * string)) (numericFields : list string)
  (parse : JsVal -> Num) (numberToString : Q -> jstring)
  (row : list JsVal) (mapped : Mapped) (headers : list JsVal) (idx : nat) : Mapped :=
  match headers with
  | [] => mapped
  | h :: hs =>
      mapCellsWith mapping numericFields parse numberToString row
        (mapCellWith mapping numericFields parse numberToString row mapped h idx)
        hs (S idx)
  end.

(** a number that is not [NaN] *)
Definition isNumberField (v : Field) : Prop := exists n, v = FNum n /\ n <> NaN.

(** a string without white space at either end *)
Definition isTextField (v : Field) : Prop := exists s, v = FStr s /\ trim s = s.

(** a record that holds every canonical key of the mapping: its numeric
    fields hold numbers, the others trimmed strings *)
Definition canonicalRecord (mapping : list (string * string))
  (numericFields : list string) (rec : Mapped) : Prop :=
  forall key, In key (List.map snd mapping) ->
    exists v, lookup rec key = Some v
              /\ if existsb (String.eqb key) numericFields
                 then isNumberField v else isTextField v.

(** a record under construction: its keys are distinct canonical keys
    and its fields are typed *)
Definition partialRecord (mapping : list (string * string))
  (numericFields : list string) (rec : Mapped) : Prop :=
  NoDup (List.map fst rec)
  /\ (forall key, In key (List.map fst rec) -> In key (List.map snd mapping))
  /\ forall key v, lookup rec key = Some v ->
       if existsb (String.eqb key) numericFields then isNumberField v else isTextField v.

(** a sheet for DiversityDataAnalytics: a title row, the header row with
    two more columns in front, a data row and a blank row *)
Definition diversitySheet : list SheetRow :=
  [ Some [VStr (js "Diversity")];
    Some (VStr (js "Remarks") :: VNull :: headerOf DiversityDataAnalytics.fieldMapping);
    Some [VStr (js "ok"); VNull; VNum 1; VNum 1; VStr (js "OBJ"); VStr (js "2024");
          VStr (js " January "); VStr (js "A"); VStr (js "North"); VStr [];
          VStr (js "HR"); VNull; VNull; VStr (ch_rupee :: js "1,200"); VStr (js "n/a");
          VNum 3; VBool true; VUndefined; VStr (js "Y")];
    Some [VNull; VStr []] ].

(** ** FugitiveAnalytics (part_002): the upload *)

Module FugitiveUpload.

Definition fieldMapping : list (string * string) :=
  [ ("Sr.No.", "srNo");
    ("Attribute Id", "attributeId");
    ("Sr No", "srNoAlt");
    ("Financial Year", "financialYear");
    ("Month", "month");
    ("Business Code", "businessCode");
    ("Plant", "plant");
    ("Department", "department");
    ("Objective Code", "objectiveCode");
    ("Attribute", "attribute");
    ("Parameter", "parameter");
    ("Sub Category", "subCategory");
    ("Type", "type");
    ("Quantity", "quantity");
    ("Conv Factor", "convFactor");
    ("Value", "value");
    ("RIntensity", "rIntensity");
    ("PPPIntensity", "pppIntensity");
    ("Conv Standards", "convStandards");
    ("Doc Status", "docStatus");
    ("Pending With", "pendingWith") ].

Definition numericFields : list string :=
  ["quantity"; "convFactor"; "value"; "rIntensity"; "pppIntensity"].

(** the class [[,₹$€£¥]] *)
Definition stripped (c : jchar) : bool :=
  (c =? ch_comma)%N || (c =? ch_rupee)%N || (c =? ch_dollar)%N
  || (c =? ch_euro)%N || (c =? ch_pound)%N || (c =? ch_yen)%N.

Definition parseNumeric (val : JsVal) : Num :=
  match val with
  | VNull | VUndefined => Fin 0
  | VStr [] => Fin 0
  | VNum q => Fin q
  | VStr s =>
      let cleanVal := trim (removeAll stripped s) in
      let parsed := parseFloat cleanVal in
      if isNaN parsed then Fin 0 else parsed
  | VBool _ => Fin 0
  end.

(** [row && row.some(cell => cell !== null && cell !== undefined && cell !== '')] *)
Definition keepRow (r : SheetRow) : bool :=
  match r with
  | Some cells => existsb nonEmptyCell cells
  | None => false
  end.

Definition cellsOf (r : SheetRow) : list JsVal :=
  match r with Some cells => cells | None => [] end.

Section FugitiveRows.
Variable numberToString : Q -> jstring.

(** one turn of [headers.forEach((header, idx) => ...)]; as in
    Scope3Analytics only the labels of [fieldMapping] itself are looked up *)
Definition mapCell (row : list JsVal) (mappedRow : Mapped) (header : JsVal)
  (idx : nat) : Mapped :=
  match header with
  | VStr ((_ :: _) as label) =>
      match List.find (fun e => jstring_eqb (js (fst e)) label) fieldMapping with
      | Some (_, key) =>
          let val := at_index row idx in
          assign mappedRow key
            (if existsb (String.eqb key) numericFields then FNum (parseNumeric val)
             else FStr (if truthy val then trim (toString numberToString val) else []))
      | None => mappedRow
      end
  | _ => mappedRow
  end.

Fixpoint mapCells (row : list JsVal) (mappedRow : Mapped) (headers : list JsVal)
  (idx : nat) : Mapped :=
  match headers with
  | [] => mappedRow
  | h :: hs => mapCells row (mapCell row mappedRow h idx) hs (S idx)
  end.

Definition mapRow (headers : list JsVal) (row : list JsVal) : Mapped :=
  mapCells row [] headers 0.

(** the body of [reader.onload] after the sheet has been read into
    [jsonData]: the header is row 4 whatever it holds, the data rows
    follow it.  [headers.forEach] is reached only when a data row is
    kept; it throws when row 4 is not an array. *)
Definition processRows (jsonData : list SheetRow) : Outcome Mapped :=
  if (List.length jsonData <? 6)%nat then Failed TooFewRows
  else
    let headers := nth 4 jsonData None in
    let dataRows := skipn 5 jsonData in
    match filter keepRow dataRows with
    | [] => Failed NoValidDataFound
    | kept =>
        match headers with
        | Some headers => Loaded (List.map (fun row => mapRow headers (cellsOf row)) kept)
        | None => Failed TypeError
        end
    end.

Definition uploadStatus (jsonData : list SheetRow) : UploadStatus :=
  statusOf (processRows jsonData).
End FugitiveRows.

End FugitiveUpload.

(** *** Vocabulary: records under a header row *)

(** the typing of a field under a canonical key *)
Definition typedField (numericFields : list string) (key : string) (v : Field) : Prop :=
  if existsb (String.eqb key) numericFields then isNumberField v else isTextField v.

(** a record built under a header row: it holds a canonical key exactly
    when the header row holds the label of that key, and the fields it
    holds are typed *)
Definition recordUnder (mapping : list (string * string)) (numericFields : list string)
  (headers : list JsVal) (rec : Mapped) : Prop :=
  forall e, In e mapping ->
    (lookup rec (snd e) <> None <-> In (VStr (js (fst e))) headers)
    /\ forall v, lookup rec (snd e) = Some v -> typedField numericFields (snd e) v.

(** a sheet for FugitiveAnalytics: four rows of titles, a header row
    that names three columns, one of them unknown, then a blank row and
    two data rows *)
Definition fugitiveSheet : list SheetRow :=
  [ Some [VStr (js "Fugitive emissions")]; None; Some []; Some [VStr (js "FY 2024")];
    Some [VStr (js "Type"); VStr (js "Notes"); VStr (js "Quantity")];
    Some [VNull; VStr []];
    Some [VStr (js " R22 "); VStr (js "x"); VStr (js "1,250.5")];
    Some [VNum 0; VNull; VStr (js "n/a")] ].

(** the [monthYear] of a record is its month and its financial year with
    a space between, a field the record lacks reading "undefined" *)
Definition monthYearOf (rec : Mapped) : Prop :=
  lookup rec "monthYear"
  = Some (FStr (OpennessAnalytics.textOf rec "month" ++ js " "
                ++ OpennessAnalytics.textOf rec "financialYear")%list).

(** a sheet for OpennessAnalytics: four rows above the header, a header
    row without the month column, a data row *)
Definition opennessSheet : list SheetRow :=
  [ Some []; Some []; Some []; Some [];
    Some [VStr (js "Financial Year"); VStr (js "RPT Purchases"); VStr (js "Dim1")];
    Some [VStr (js " 2024-25"); VStr (js "1,500"); VNum 0] ].

(* ================================================================== *)
(** * The analytics over the arithmetic of the numbers *)
(* ================================================================== *)

(** JavaScript numbers are IEEE 754 doubles and their operations round,
    so the order of the additions matters to a sum.  The analytics are
    given here over an arithmetic that is a parameter: a type of numbers
    with the operations the modules use, of which no law is assumed, and
    the numbers the records hold.  The doubles are one such arithmetic,
    the rationals another. *)
Record Numbers := mkNumbers {
  number : Type;
  ofNat : nat -> number;              (* a literal ([0], [100]) or a length ([data.length]) *)
  add : number -> number -> number;   (* [x + y] *)
  sub : number -> number -> number;   (* [x - y] *)
  mul : number -> number -> number;   (* [x * y] *)
  div : number -> number -> number;   (* [x / y] *)
  isFalsy : number -> bool;           (* [!x]: [x] is a zero or NaN *)
  gtb : number -> number -> bool;     (* [x > y] *)
  nan : number;                       (* what [undefined] is as an operand *)
  read : Item -> string -> option number  (* [d[k]], [None] being [undefined] *)
}.

Definition zero (N : Numbers) : number N := ofNat N 0.
Definition hundred (N : Numbers) : number N := ofNat N 100.

(** [x || 0] for a number [x] *)
Definition orZeroOf (N : Numbers) (x : number N) : number N :=
  if isFalsy N x then zero N else x.

(** [d[field] || 0] *)
Definition measureIn (N : Numbers) (field : string) (d : Item) : number N :=
  match read N d field with
  | Some x => orZeroOf N x
  | None => zero N
  end.

(** [d[field]] as an operand of an arithmetic operation *)
Definition operandIn (N : Numbers) (field : string) (d : Item) : number N :=
  match read N d field with
  | Some x => x
  | None => nan N
  end.

(** ** The doubles *)

(** the double nearest to an integer (below 2^63 in absolute value) *)
Definition doubleOfZ (z : Z) : PrimFloat.float :=
  match z with
  | Z0 => PrimFloat.zero
  | Zpos p => PrimFloat.of_uint63 (Uint63.of_Z (Zpos p))
  | Zneg p => PrimFloat.opp (PrimFloat.of_uint63 (Uint63.of_Z (Zpos p)))
  end.

(** the double a decimal numeral denotes: numerator and denominator are
    doubles when they are below 2^53, and the division rounds once *)
Definition doubleOfQ (q : Q) : PrimFloat.float :=
  PrimFloat.div (doubleOfZ (Qnum q)) (doubleOfZ (Zpos (Qden q))).

(** IEEE 754 binary64 with round to nearest, ties to even; a record
    holds the double nearest to each of its figures *)
Definition doubles : Numbers :=
  {| number := PrimFloat.float;
     ofNat := fun n => doubleOfZ (Z.of_nat n);
     add := PrimFloat.add;
     sub := PrimFloat.sub;
     mul := PrimFloat.mul;
     div := PrimFloat.div;
     isFalsy := fun x => PrimFloat.eqb x PrimFloat.zero || PrimFloat.is_nan x;
     gtb := fun x y => PrimFloat.ltb y x;
     nan := PrimFloat.nan;
     read := fun d k => option_map doubleOfQ (num d k) |}.

(** ** The rationals *)

(** the rationals with a NaN ([None]), for the division by zero and for
    [undefined] operands; no operation rounds *)
Definition liftQ (f : Q -> Q -> Q) (a b : option Q) : option Q :=
  match a, b with
  | Some x, Some y => Some (f x y)
  | _, _ => None
  end.

Definition rationals : Numbers :=
  {| number := option Q;
     ofNat := fun n => Some (inject_Z (Z.of_nat n));
     add := liftQ Qplus;
     sub := liftQ Qminus;
     mul := liftQ Qmult;
     div := fun a b =>
       match b with
       | Some y => if Qeq_bool y 0 then None else liftQ Qdiv a b
       | None => None
       end;
     isFalsy := fun a => match a with Some x => Qeq_bool x 0 | None => true end;
     gtb := fun a b =>
       match a, b with
       | Some x, Some y => negb (Qle_bool x y)
       | _, _ => false
       end;
     nan := None;
     read := fun d k => option_map Some (num d k) |}.

(** ** Vocabulary: sums in the order of the records, groups *)

(** [l.reduce((sum, d) => sum + c(d), 0)]: the figures of the records
    added one after the other, from the left, starting from 0 *)
Definition sumIn (N : Numbers) (c : Item -> number N) (l : list Item) : number N :=
  fold_left (fun sum d => add N sum (c d)) l (zero N).

(** numbers added one after the other, from the left, starting from 0 *)
Definition sumOfNumbers (N : Numbers) (l : list (number N)) : number N :=
  fold_left (add N) l (zero N).

(** addition without rounding: it is associative and commutative, and
    adding to 0 changes nothing *)
Definition exactAddition (N : Numbers) : Prop :=
  (forall a b c, add N a (add N b c) = add N (add N a b) c)
  /\ (forall a b, add N a b = add N b a)
  /\ (forall a, add N (zero N) a = a).

(** the get-or-create-then-update loop whose new entry is made from the
    record that creates it *)
Definition gstepFrom (V : Type) (keyOf : Item -> JsVal) (initOf : Item -> V)
  (upd : Item -> V -> V) (m : Map V) (d : Item) : Map V :=
  upsert m (keyOf d) (initOf d) (upd d).

(** one group for each distinct key, in the order the keys are first
    seen, each built from its key and its records in their order *)
Definition groupedBy (G : Type) (keyOf : Item -> JsVal)
  (build : JsVal -> list Item -> G) (data : list Item) : list G :=
  List.map (fun k => build k (membersOf keyOf k data)) (firstSeen (List.map keyOf data)).

(** [den > 0 ? num / den : 0] *)
Definition ratioOrZero (N : Numbers) (num den : number N) : number N :=
  if gtb N den (zero N) then div N num den else zero N.

(** [n > 0 ? total / n : 0] for a count [n] *)
Definition meanOrZero (N : Numbers) (total : number N) (n : nat) : number N :=
  if (0 <? n)%nat then div N total (ofNat N n) else zero N.

(** [total ? (count / total) * 100 : 0] for two counts *)
Definition percentOf (N : Numbers) (count total : nat) : number N :=
  if (0 <? total)%nat
  then mul N (div N (ofNat N count) (ofNat N total)) (hundred N)
  else zero N.

Module Computed.

(** ** WaterAnalytics.tsx *)

Module WaterAnalytics.
Section Over.
Variable N : Numbers.

(** an entry of [parameterMap], [subCategoryMap] or [plantMap]; its first
    property is called [parameter], [subCategory] or [plant] *)
Record Group := mkGroup {
  key : JsVal;
  totalQuantity : number N;
  totalValue : number N;
  count : nat
}.

(** an entry of [monthlyMap] *)
Record MonthGroup := mkMonthGroup {
  month : JsVal;
  m_totalQuantity : number N;
  m_totalValue : number N
}.

(** [waterData.reduce((sum, item) => sum + (item.quantity || 0), 0)] *)
Definition sumField (field : string) (waterData : list Item) : number N :=
  fold_left (fun sum item => add N sum (measureIn N field item)) waterData (zero N).

Definition emptyGroup (k : JsVal) : Group := mkGroup k (zero N) (zero N) 0.

(** [group.totalQuantity += item.quantity || 0;
     group.totalValue += item.value || 0; group.count += 1] *)
Definition addTo (item : Item) (group : Group) : Group :=
  mkGroup (key group)
    (add N (totalQuantity group) (measureIn N "quantity" item))
    (add N (totalValue group) (measureIn N "value" item))
    (count group + 1).

(** the body of the loops that group by [parameter], [subCategory] and
    [plant] *)
Definition groupStep (field : string) (m : Map Group) (item : Item) : Map Group :=
  let k := orElse (prop item field) Unknown in
  let m1 := if negb (has m k) then set m k (emptyGroup k) else m in
  mutate m1 k (addTo item).

Definition emptyMonth (k : JsVal) : MonthGroup := mkMonthGroup k (zero N) (zero N).

Definition addToMonth (item : Item) (group : MonthGroup) : MonthGroup :=
  mkMonthGroup (month group)
    (add N (m_totalQuantity group) (measureIn N "quantity" item))
    (add N (m_totalValue group) (measureIn N "value" item)).

Definition monthlyStep (m : Map MonthGroup) (item : Item) : Map MonthGroup :=
  let k := orElse (prop item "month") Unknown in
  let m1 := if negb (has m k) then set m k (emptyMonth k) else m in
  mutate m1 k (addToMonth item).

Record Overview := mkOverview {
  o_totalQuantity : number N;
  o_totalValue : number N;
  avgQuantity : number N;
  avgValue : number N
}.

Record Analytics := mkAnalytics {
  a_totalQuantity : number N;
  a_totalValue : number N;
  byParameter : list Group;
  bySubCategory : list Group;
  byPlant : list Group;
  monthlyTrend : list MonthGroup;
  overview : Overview
}.

Definition analytics (waterData : list Item) : Analytics :=
  match waterData with
  | [] =>
      mkAnalytics (zero N) (zero N) [] [] [] []
        (mkOverview (zero N) (zero N) (zero N) (zero N))
  | _ =>
      let totalQuantity := sumField "quantity" waterData in
      let totalValue := sumField "value" waterData in
      {| a_totalQuantity := totalQuantity;
         a_totalValue := totalValue;
         byParameter := values (fold_left (groupStep "parameter") waterData []);
         bySubCategory := values (fold_left (groupStep "subCategory") waterData []);
         byPlant := values (fold_left (groupStep "plant") waterData []);
         monthlyTrend := values (fold_left monthlyStep waterData []);
         overview :=
           {| o_totalQuantity := totalQuantity;
              o_totalValue := totalValue;
              avgQuantity :=
                if (0 <? List.length waterData)%nat
                then div N totalQuantity (ofNat N (List.length waterData)) else zero N;
              avgValue :=
                if (0 <? List.length waterData)%nat
                then div N totalValue (ofNat N (List.length waterData)) else zero N |} |}
  end.

End Over.

Arguments key {N} _.
Arguments totalQuantity {N} _.
Arguments totalValue {N} _.
Arguments count {N} _.
Arguments month {N} _.
Arguments m_totalQuantity {N} _.
Arguments m_totalValue {N} _.
Arguments o_totalQuantity {N} _.
Arguments o_totalValue {N} _.
Arguments avgQuantity {N} _.
Arguments avgValue {N} _.
Arguments a_totalQuantity {N} _.
Arguments a_totalValue {N} _.
Arguments byParameter {N} _.
Arguments bySubCategory {N} _.
Arguments byPlant {N} _.
Arguments monthlyTrend {N} _.
Arguments overview {N} _.
End WaterAnalytics.

(** ** Scope3Analytics.tsx *)

Module Scope3Analytics.
Section Over.
Variable N : Numbers.

(** an entry of [mapSub], [mapYear] or [mapDept]; its first property is
    called [subCategory], [financialYear] or [department] *)
Record Group := mkGroup {
  category : JsVal;
  totalQuantity : number N;
  totalEFFuel : number N;
  totalValue : number N
}.

Record Totals := mkTotals {
  sumQuantity : number N;   (* totals.totalQuantity *)
  sumEFFuel : number N;     (* totals.totalEFFuel *)
  sumValue : number N       (* totals.totalValue *)
}.

Record State := mkState {
  mapSub : Map Group;
  mapYear : Map Group;
  mapDept : Map Group;
  totals : Totals
}.

Definition addTo (d : Item) (agg : Group) : Group :=
  {| category := category agg;
     totalQuantity := add N (totalQuantity agg) (measureIn N "totalQuantity" d);
     totalEFFuel := add N (totalEFFuel agg) (measureIn N "totalEFFuel" d);
     totalValue := add N (totalValue agg) (measureIn N "totalValue" d) |}.

Definition emptyGroup (k : JsVal) : Group := mkGroup k (zero N) (zero N) (zero N).

(** [if (!m.has(k)) m.set(k, {.., 0, 0, 0}); const agg = m.get(k); agg... += ...] *)
Definition accumulate (m : Map Group) (k : JsVal) (d : Item) : Map Group :=
  let m1 := if negb (has m k) then set m k (emptyGroup k) else m in
  mutate m1 k (addTo d).

(** the body of [data.forEach(d => ...)] *)
Definition step (st : State) (d : Item) : State :=
  let cat := orElse (prop d "subCategory") Unknown in
  let year := orElse (prop d "financialYear") (VStr (js "NA")) in
  let dept := orElse (prop d "department") (VStr (js "NA")) in
  {| mapSub := accumulate (mapSub st) cat d;
     mapYear := accumulate (mapYear st) year d;
     mapDept := accumulate (mapDept st) dept d;
     totals :=
       {| sumQuantity := add N (sumQuantity (totals st)) (measureIn N "totalQuantity" d);
          sumEFFuel := add N (sumEFFuel (totals st)) (measureIn N "totalEFFuel" d);
          sumValue := add N (sumValue (totals st)) (measureIn N "totalValue" d) |} |}.

Definition initial : State := mkState [] [] [] (mkTotals (zero N) (zero N) (zero N)).

Definition run (data : list Item) : State := fold_left step data initial.

Record Efficiency := mkEfficiency {
  eff_subCategory : JsVal;
  valuePerEFFuel : number N;
  effuelPerQuantity : number N
}.

(** the object [analytics] returns, but for [topContributors] *)
Record Analytics := mkAnalytics {
  bySubCategory : list Group;
  byYear : list Group;
  byDept : list Group;
  a_totals : Totals;
  efficiency : list Efficiency
}.

Definition analytics (data : list Item) : Analytics :=
  match data with
  | [] => mkAnalytics [] [] [] (mkTotals (zero N) (zero N) (zero N)) []
  | _ =>
      let st := run data in
      {| bySubCategory := values (mapSub st);
         byYear := values (mapYear st);
         byDept := values (mapDept st);
         a_totals := totals st;
         efficiency :=
           List.map (fun s =>
             {| eff_subCategory := category s;
                valuePerEFFuel :=
                  if gtb N (totalEFFuel s) (zero N)
                  then div N (totalValue s) (totalEFFuel s) else zero N;
                effuelPerQuantity :=
                  if gtb N (totalQuantity s) (zero N)
                  then div N (totalEFFuel s) (totalQuantity s) else zero N |})
             (values (mapSub st)) |}
  end.

End Over.

Arguments category {N} _.
Arguments totalQuantity {N} _.
Arguments totalEFFuel {N} _.
Arguments totalValue {N} _.
Arguments sumQuantity {N} _.
Arguments sumEFFuel {N} _.
Arguments sumValue {N} _.
Arguments mapSub {N} _.
Arguments mapYear {N} _.
Arguments mapDept {N} _.
Arguments totals {N} _.
Arguments eff_subCategory {N} _.
Arguments valuePerEFFuel {N} _.
Arguments effuelPerQuantity {N} _.
Arguments bySubCategory {N} _.
Arguments byYear {N} _.
Arguments byDept {N} _.
Arguments a_totals {N} _.
Arguments efficiency {N} _.
End Scope3Analytics.

(** ** ElectricityDataAnalytics (part_003) *)

Module ElectricityDataAnalytics.
Section Over.
Variable N : Numbers.

(** [(d.quantity || 0) * (d.convFactor || 0)]: the property
    [co2Emissions] of the copy of [d] in [enrichedData], which has every
    other property of [d] as [d] has it *)
Definition co2Emissions (d : Item) : number N :=
  mul N (measureIn N "quantity" d) (measureIn N "convFactor" d).

(** [v.co2Emissions || 0] for the copy [v] of [d] *)
Definition co2OrZero (d : Item) : number N := orZeroOf N (co2Emissions d).

Record Totals := mkTotals {
  totalQuantity : number N;
  totalCO2 : number N;
  avgQuantity : number N;
  avgCO2 : number N
}.

(** [enrichedData.reduce((a, v) => a + (v.quantity || 0), 0)] *)
Definition sumQuantity (data : list Item) : number N :=
  fold_left (fun a v => add N a (measureIn N "quantity" v)) data (zero N).

(** [enrichedData.reduce((a, v) => a + (v.co2Emissions || 0), 0)] *)
Definition sumCO2 (data : list Item) : number N :=
  fold_left (fun a v => add N a (co2OrZero v)) data (zero N).

Record Group := mkGroup {
  category : JsVal;
  g_totalQuantity : number N;
  g_totalCO2 : number N;
  count : nat
}.

Definition emptyGroup (k : JsVal) : Group := mkGroup k (zero N) (zero N) 0.

Definition addTo (d : Item) (agg : Group) : Group :=
  mkGroup (category agg)
    (add N (g_totalQuantity agg) (measureIn N "quantity" d))
    (add N (g_totalCO2 agg) (co2OrZero d))
    (count agg + 1).

Definition aggregateStep (key : string) (map : Map Group) (d : Item) : Map Group :=
  let k := orElse (prop d key) Unknown in
  let m1 := if negb (has map k) then set map k (emptyGroup k) else map in
  mutate m1 k (addTo d).

Definition aggregateBy (key : string) (data : list Item) : list Group :=
  values (fold_left (aggregateStep key) data []).

Record MonthGroup := mkMonthGroup {
  month : JsVal;
  m_totalQuantity : number N;
  m_totalCO2 : number N
}.

Definition emptyMonth (k : JsVal) : MonthGroup := mkMonthGroup k (zero N) (zero N).

Definition addToMonth (d : Item) (agg : MonthGroup) : MonthGroup :=
  mkMonthGroup (month agg)
    (add N (m_totalQuantity agg) (measureIn N "quantity" d))
    (add N (m_totalCO2 agg) (co2OrZero d)).

Definition monthStep (map : Map MonthGroup) (d : Item) : Map MonthGroup :=
  let m := orElse (prop d "month") (VStr (js "N/A")) in
  let m1 := if negb (has map m) then set map m (emptyMonth m) else map in
  mutate m1 m (addToMonth d).

Record ByCategory := mkByCategory {
  plant : list Group;
  department : list Group;
  subCategory : list Group;
  type : list Group
}.

Record Analytics := mkAnalytics {
  totals : Totals;
  byCategory : ByCategory;
  byMonth : list MonthGroup
}.

Definition analytics (data : list Item) : Analytics :=
  match data with
  | [] =>
      mkAnalytics (mkTotals (zero N) (zero N) (zero N) (zero N))
        (mkByCategory [] [] [] []) []
  | _ =>
      let n := ofNat N (List.length data) in
      {| totals :=
           {| totalQuantity := sumQuantity data;
              totalCO2 := sumCO2 data;
              avgQuantity := div N (sumQuantity data) n;
              avgCO2 := div N (sumCO2 data) n |};
         byCategory :=
           {| plant := aggregateBy "plant" data;
              department := aggregateBy "department" data;
              subCategory := aggregateBy "subCategory" data;
              type := aggregateBy "type" data |};
         byMonth := values (fold_left monthStep data []) |}
  end.

End Over.

Arguments totalQuantity {N} _.
Arguments totalCO2 {N} _.
Arguments avgQuantity {N} _.
Arguments avgCO2 {N} _.
Arguments category {N} _.
Arguments g_totalQuantity {N} _.
Arguments g_totalCO2 {N} _.
Arguments count {N} _.
Arguments month {N} _.
Arguments m_totalQuantity {N} _.
Arguments m_totalCO2 {N} _.
Arguments plant {N} _.
Arguments department {N} _.
Arguments subCategory {N} _.
Arguments type {N} _.
Arguments totals {N} _.
Arguments byCategory {N} _.
Arguments byMonth {N} _.
End ElectricityDataAnalytics.

(** ** FossilFuelAnalytics (part_000) *)

Module FossilFuelAnalytics.
Section Over.
Variable N : Numbers.

Record TypeEntry := mkTypeEntry {
  e_type : JsVal;
  e_totalQty : number N;
  e_totalValue : number N;
  e_avgConv : number N
}.

Record DeptEntry := mkDeptEntry { department : JsVal; d_totalValue : number N }.
Record PlantEntry := mkPlantEntry { plant : JsVal; p_totalQty : number N }.

Record State := mkState {
  typeMap : Map TypeEntry;
  deptMap : Map DeptEntry;
  plantMap : Map PlantEntry;
  totalQty : number N;
  totalValue : number N;
  convSum : number N
}.

Definition emptyType (t : JsVal) : TypeEntry := mkTypeEntry t (zero N) (zero N) (zero N).

Definition addToType (item : Item) (typeEntry : TypeEntry) : TypeEntry :=
  mkTypeEntry (e_type typeEntry)
    (add N (e_totalQty typeEntry) (measureIn N "quantity" item))
    (add N (e_totalValue typeEntry) (measureIn N "value" item))
    (add N (e_avgConv typeEntry) (measureIn N "convFactor" item)).

Definition emptyDept (dept : JsVal) : DeptEntry := mkDeptEntry dept (zero N).

Definition addToDept (item : Item) (e : DeptEntry) : DeptEntry :=
  mkDeptEntry (department e) (add N (d_totalValue e) (measureIn N "value" item)).

Definition emptyPlant (p : JsVal) : PlantEntry := mkPlantEntry p (zero N).

Definition addToPlant (item : Item) (e : PlantEntry) : PlantEntry :=
  mkPlantEntry (plant e) (add N (p_totalQty e) (measureIn N "quantity" item)).

(** the body of [data.forEach((item) => ...)] *)
Definition step (st : State) (item : Item) : State :=
  let qty := measureIn N "quantity" item in
  let val := measureIn N "value" item in
  let conv := measureIn N "convFactor" item in
  let t := orElse (prop item "type") Unknown in
  let dept := orElse (prop item "department") Unknown in
  let plant := orElse (prop item "plant") Unknown in
  {| typeMap :=
       mutate (if negb (has (typeMap st) t) then set (typeMap st) t (emptyType t)
               else typeMap st) t (addToType item);
     deptMap :=
       mutate (if negb (has (deptMap st) dept) then set (deptMap st) dept (emptyDept dept)
               else deptMap st) dept (addToDept item);
     plantMap :=
       mutate (if negb (has (plantMap st) plant)
               then set (plantMap st) plant (emptyPlant plant)
               else plantMap st) plant (addToPlant item);
     totalQty := add N (totalQty st) qty;
     totalValue := add N (totalValue st) val;
     convSum := add N (convSum st) conv |}.

Definition run (data : list Item) : State :=
  fold_left step data (mkState [] [] [] (zero N) (zero N) (zero N)).

Record TypeSummary := mkTypeSummary {
  type : JsVal;
  s_totalQty : number N;
  s_totalValue : number N;
  avgConvFactor : number N
}.

Record Totals := mkTotals {
  t_totalQty : number N;
  t_totalValue : number N;
  avgConv : number N
}.

Record Analytics := mkAnalytics {
  byType : list TypeSummary;
  byDepartment : list DeptEntry;
  byPlant : list PlantEntry;
  totals : Totals
}.

Definition analytics (data : list Item) : Analytics :=
  match data with
  | [] => mkAnalytics [] [] [] (mkTotals (zero N) (zero N) (zero N))
  | _ =>
      let st := run data in
      {| byType :=
           List.map (fun t =>
             {| type := e_type t;
                s_totalQty := e_totalQty t;
                s_totalValue := e_totalValue t;
                avgConvFactor :=
                  if gtb N (e_totalQty t) (zero N)
                  then div N (e_avgConv t) (ofNat N (List.length data)) else zero N |})
             (values (typeMap st));
         byDepartment := values (deptMap st);
         byPlant := values (plantMap st);
         totals :=
           {| t_totalQty := totalQty st;
              t_totalValue := totalValue st;
              avgConv :=
                if (0 <? List.length data)%nat
                then div N (convSum st) (ofNat N (List.length data)) else zero N |} |}
  end.

End Over.

Arguments e_type {N} _.
Arguments e_totalQty {N} _.
Arguments e_totalValue {N} _.
Arguments e_avgConv {N} _.
Arguments department {N} _.
Arguments d_totalValue {N} _.
Arguments plant {N} _.
Arguments p_totalQty {N} _.
Arguments typeMap {N} _.
Arguments deptMap {N} _.
Arguments plantMap {N} _.
Arguments totalQty {N} _.
Arguments totalValue {N} _.
Arguments convSum {N} _.
Arguments type {N} _.
Arguments s_totalQty {N} _.
Arguments s_totalValue {N} _.
Arguments avgConvFactor {N} _.
Arguments t_totalQty {N} _.
Arguments t_totalValue {N} _.
Arguments avgConv {N} _.
Arguments byType {N} _.
Arguments byDepartment {N} _.
Arguments byPlant {N} _.
Arguments totals {N} _.
End FossilFuelAnalytics.

(** ** DiversityDataAnalytics (part_000, second component) *)

Module DiversityDataAnalytics.

(** [d.complianceInd?.toLowerCase() === 'y']; [None] when the call throws
    because the property is there and is not a string.  "Y" is the only
    other string whose lower case is "y". *)
Definition isCompliant (v : JsVal) : option bool :=
  match v with
  | VUndefined | VNull => Some false
  | VStr s => Some (jstring_eqb s (js "y") || jstring_eqb s (js "Y"))
  | VBool _ | VNum _ => None
  end.

Section Over.
Variable N : Numbers.
Variable numberToString : Q -> jstring.

Record Overview := mkOverview {
  totalWagesFemales : number N;
  totalWagesMales : number N;
  totalComplaints : number N;
  totalComplaintsByFemales : number N;
  totalPOSHUpheld : number N;
  complianceCount : nat;
  complianceTotal : nat
}.

Record MonthData := mkMonthData {
  monthYear : JsVal;
  wagesFemales : number N;
  wagesMales : number N;
  complaints : number N;
  complaintsByFemales : number N;
  poshUpheld : number N;
  recordCount : nat
}.

Record State := mkState {
  overviewMetrics : Overview;
  monthYearMap : Map MonthData;
  complaintsByDim1 : Map (number N);
  complaintsByDim2 : Map (number N)
}.

(** [`${d.month || 'Unknown'} ${d.financialYear || 'Unknown'}`] *)
Definition monthYearKey (d : Item) : JsVal :=
  VStr (toString numberToString (orElse (prop d "month") Unknown)
        ++ js " "
        ++ toString numberToString (orElse (prop d "financialYear") Unknown))%list.

Definition emptyMonth (key : JsVal) : MonthData :=
  mkMonthData key (zero N) (zero N) (zero N) (zero N) (zero N) 0.

(** [monthData.wagesFemales += d.wagesFemales; ...; monthData.recordCount++] *)
Definition addToMonth (d : Item) (monthData : MonthData) : MonthData :=
  {| monthYear := monthYear monthData;
     wagesFemales := add N (wagesFemales monthData) (operandIn N "wagesFemales" d);
     wagesMales := add N (wagesMales monthData) (operandIn N "wagesMales" d);
     complaints := add N (complaints monthData) (operandIn N "totalComplaints" d);
     complaintsByFemales :=
       add N (complaintsByFemales monthData) (operandIn N "complaintsByFemale" d);
     poshUpheld := add N (poshUpheld monthData) (operandIn N "poshUpheld" d);
     recordCount := S (recordCount monthData) |}.

(** [overviewMetrics.totalWagesFemales += d.wagesFemales; ...] with the
    outcome [yes] of the compliance test *)
Definition addToOverview (d : Item) (yes : bool) (o : Overview) : Overview :=
  {| totalWagesFemales := add N (totalWagesFemales o) (operandIn N "wagesFemales" d);
     totalWagesMales := add N (totalWagesMales o) (operandIn N "wagesMales" d);
     totalComplaints := add N (totalComplaints o) (operandIn N "totalComplaints" d);
     totalComplaintsByFemales :=
       add N (totalComplaintsByFemales o) (operandIn N "complaintsByFemale" d);
     totalPOSHUpheld := add N (totalPOSHUpheld o) (operandIn N "poshUpheld" d);
     complianceCount := if yes then S (complianceCount o) else complianceCount o;
     complianceTotal := S (complianceTotal o) |}.

(** [if (d.dim1) m.set(d.dim1, (m.get(d.dim1) || 0) + d.totalComplaints)] *)
Definition dimStep (dim : string) (m : Map (number N)) (d : Item) : Map (number N) :=
  if truthy (prop d dim)
  then set m (prop d dim)
         (add N (match get m (prop d dim) with
                 | Some x => orZeroOf N x
                 | None => zero N
                 end)
            (operandIn N "totalComplaints" d))
  else m.

(** the body of [data.forEach(d => ...)]; [None] when it throws *)
Definition step (st : State) (d : Item) : option State :=
  match isCompliant (prop d "complianceInd") with
  | None => None
  | Some yes =>
      let key := monthYearKey d in
      let m1 :=
        if negb (has (monthYearMap st) key)
        then set (monthYearMap st) key (emptyMonth key)
        else monthYearMap st in
      Some
        {| overviewMetrics := addToOverview d yes (overviewMetrics st);
           monthYearMap := mutate m1 key (addToMonth d);
           complaintsByDim1 := dimStep "dim1" (complaintsByDim1 st) d;
           complaintsByDim2 := dimStep "dim2" (complaintsByDim2 st) d |}
  end.

Definition initial : State :=
  mkState (mkOverview (zero N) (zero N) (zero N) (zero N) (zero N) 0 0) [] [] [].

(** the loop; [None] once a turn has thrown *)
Definition run (data : list Item) : option State :=
  fold_left (fun acc d => match acc with Some st => step st d | None => None end)
    data (Some initial).

Record WagesTrend := mkWagesTrend {
  w_monthYear : JsVal;
  w_wagesFemales : number N;
  w_wagesMales : number N
}.

Record PoshTrend := mkPoshTrend {
  p_monthYear : JsVal;
  p_poshUpheld : number N
}.

Record Breakdown := mkBreakdown {
  category : JsVal;
  b_totalComplaints : number N
}.

Record Analytics := mkAnalytics {
  a_overviewMetrics : option Overview;   (* [None] is [null] *)
  wagesTrends : list WagesTrend;
  complaintsBreakdown : list Breakdown;
  poshTrend : list PoshTrend;
  complianceSummary : number N
}.

Definition analytics (data : list Item) : option Analytics :=
  match data with
  | [] => Some (mkAnalytics None [] [] [] (zero N))
  | _ =>
      match run data with
      | None => None
      | Some st =>
          let o := overviewMetrics st in
          Some
            {| a_overviewMetrics := Some o;
               wagesTrends :=
                 List.map (fun m => mkWagesTrend (monthYear m) (wagesFemales m) (wagesMales m))
                   (values (monthYearMap st));
               complaintsBreakdown :=
                 List.map (fun e => mkBreakdown (fst e) (snd e))
                   (entries (complaintsByDim1 st));
               poshTrend :=
                 List.map (fun m => mkPoshTrend (monthYear m) (poshUpheld m))
                   (values (monthYearMap st));
               complianceSummary :=
                 if (0 <? complianceTotal o)%nat
                 then mul N (div N (ofNat N (complianceCount o))
                               (ofNat N (complianceTotal o))) (hundred N)
                 else zero N |}
      end
  end.

End Over.

Arguments totalWagesFemales {N} _.
Arguments totalWagesMales {N} _.
Arguments totalComplaints {N} _.
Arguments totalComplaintsByFemales {N} _.
Arguments totalPOSHUpheld {N} _.
Arguments complianceCount {N} _.
Arguments complianceTotal {N} _.
Arguments monthYear {N} _.
Arguments wagesFemales {N} _.
Arguments wagesMales {N} _.
Arguments complaints {N} _.
Arguments complaintsByFemales {N} _.
Arguments poshUpheld {N} _.
Arguments recordCount {N} _.
Arguments overviewMetrics {N} _.
Arguments monthYearMap {N} _.
Arguments complaintsByDim1 {N} _.
Arguments complaintsByDim2 {N} _.
Arguments w_monthYear {N} _.
Arguments w_wagesFemales {N} _.
Arguments w_wagesMales {N} _.
Arguments p_monthYear {N} _.
Arguments p_poshUpheld {N} _.
Arguments category {N} _.
Arguments b_totalComplaints {N} _.
Arguments a_overviewMetrics {N} _.
Arguments wagesTrends {N} _.
Arguments complaintsBreakdown {N} _.
Arguments poshTrend {N} _.
Arguments complianceSummary {N} _.
End DiversityDataAnalytics.

(** ** OpennessAnalytics (part_001) *)

Module OpennessAnalytics.

(** [d.actualCompliance === 'Y'] *)
Definition isY (v : JsVal) : bool :=
  match v with
  | VStr s => jstring_eqb s (js "Y")
  | _ => false
  end.

Section Over.
Variable N : Numbers.

(** [data.reduce((acc, d) => acc + d.rptPurchases, 0)], for any field *)
Definition totalOf (field : string) (data : list Item) : number N :=
  fold_left (fun acc d => add N acc (operandIn N field d)) data (zero N).

(** [data.length
       ? (data.filter(d => d.actualCompliance === 'Y').length / data.length) * 100
       : 0] *)
Definition complianceRate (data : list Item) : number N :=
  if (List.length data =? 0)%nat then zero N
  else mul N
         (div N (ofNat N (List.length
                            (filter (fun d => isY (prop d "actualCompliance")) data)))
            (ofNat N (List.length data)))
         (hundred N).

Record Month := mkMonth {
  monthYear : JsVal;
  rptPurchases : number N;
  rptSales : number N
}.

Definition emptyMonth (k : JsVal) : Month := mkMonth k (zero N) (zero N).

(** [m.rptPurchases += d.rptPurchases; m.rptSales += d.rptSales] *)
Definition addToMonth (d : Item) (m : Month) : Month :=
  mkMonth (monthYear m)
    (add N (rptPurchases m) (operandIn N "rptPurchases" d))
    (add N (rptSales m) (operandIn N "rptSales" d)).

Definition monthlyStep (monthlyMap : Map Month) (d : Item) : Map Month :=
  let k := prop d "monthYear" in
  let m1 := if negb (has monthlyMap k) then set monthlyMap k (emptyMonth k)
            else monthlyMap in
  mutate m1 k (addToMonth d).

Definition monthlyMap (data : list Item) : Map Month :=
  fold_left monthlyStep data [].

(** [prev ? ((cur - prev) / prev) * 100 : 0] *)
Definition growth (prev cur : number N) : number N :=
  if isFalsy N prev then zero N
  else mul N (div N (sub N cur prev) prev) (hundred N).

(** a month after [momPurchases] and [momSales] have been added *)
Record Trend := mkTrend {
  t_monthYear : JsVal;
  t_rptPurchases : number N;
  t_rptSales : number N;
  momPurchases : number N;
  momSales : number N
}.

(** one turn of [monthlyTrends.forEach((d, i) => ...)]; [prev] is
    [monthlyTrends[i - 1]], none when [i === 0] *)
Definition trendOf (prev : option Month) (d : Month) : Trend :=
  match prev with
  | None => mkTrend (monthYear d) (rptPurchases d) (rptSales d) (zero N) (zero N)
  | Some prev =>
      mkTrend (monthYear d) (rptPurchases d) (rptSales d)
        (growth (rptPurchases prev) (rptPurchases d))
        (growth (rptSales prev) (rptSales d))
  end.

Fixpoint withGrowth (prev : option Month) (months : list Month) : list Trend :=
  match months with
  | [] => []
  | d :: rest => trendOf prev d :: withGrowth (Some d) rest
  end.

Definition monthlyTrends (data : list Item) : list Trend :=
  withGrowth None (values (monthlyMap data)).

(** [parseNumeric(d[field])] for a field that holds a number or nothing:
    the number as it is, 0 for [undefined] *)
Definition parsed (field : string) (d : Item) : number N :=
  match read N d field with
  | Some x => x
  | None => zero N
  end.

(** [const val = parseNumeric(d.rptPurchases);
     if (!dim1Map.has(d.dim1)) dim1Map.set(d.dim1, 0);
     dim1Map.set(d.dim1, dim1Map.get(d.dim1)! + val)] *)
Definition dimStep (dim field : string) (m : Map (number N)) (d : Item)
  : Map (number N) :=
  let val := parsed field d in
  let m1 := if negb (has m (prop d dim)) then set m (prop d dim) (zero N) else m in
  set m1 (prop d dim)
    (add N (match get m1 (prop d dim) with Some x => x | None => nan N end) val).

Record Breakdown := mkBreakdown {
  category : JsVal;
  value : number N
}.

(** [Array.from(dim1Map.entries()).map(([category, value]) => ({ category, value }))],
    the groups of a breakdown before they are sorted and cut *)
Definition dimGroups (dim field : string) (data : list Item) : list Breakdown :=
  List.map (fun e => mkBreakdown (fst e) (snd e))
    (entries (fold_left (dimStep dim field) data [])).

End Over.

Arguments monthYear {N} _.
Arguments rptPurchases {N} _.
Arguments rptSales {N} _.
Arguments t_monthYear {N} _.
Arguments t_rptPurchases {N} _.
Arguments t_rptSales {N} _.
Arguments momPurchases {N} _.
Arguments momSales {N} _.
Arguments category {N} _.
Arguments value {N} _.
End OpennessAnalytics.

(** ** FugitiveAnalytics (part_002) *)

Module FugitiveAnalytics.
Section Over.
Variable N : Numbers.
Variable numberToString : Q -> jstring.

(** an entry of the map of [aggregate] *)
Record Entry := mkEntry {
  e_category : JsVal;
  e_totalQuantity : number N;
  e_totalValue : number N;
  convFactorSum : number N;
  rIntensitySum : number N;
  pppIntensitySum : number N;
  count : nat
}.

Definition emptyEntry (cat : JsVal) : Entry :=
  mkEntry cat (zero N) (zero N) (zero N) (zero N) (zero N) 0.

Definition addTo (d : Item) (agg : Entry) : Entry :=
  {| e_category := e_category agg;
     e_totalQuantity := add N (e_totalQuantity agg) (measureIn N "quantity" d);
     e_totalValue := add N (e_totalValue agg) (measureIn N "value" d);
     convFactorSum := add N (convFactorSum agg) (measureIn N "convFactor" d);
     rIntensitySum := add N (rIntensitySum agg) (measureIn N "rIntensity" d);
     pppIntensitySum := add N (pppIntensitySum agg) (measureIn N "pppIntensity" d);
     count := S (count agg) |}.

Definition aggregateStep (key : string) (map : Map Entry) (d : Item) : Map Entry :=
  let cat := orElse (prop d key) Unknown in
  let m1 := if negb (has map cat) then set map cat (emptyEntry cat) else map in
  mutate m1 cat (addTo d).

Record Summary := mkSummary {
  category : JsVal;
  totalQuantity : number N;
  totalValue : number N;
  avgConvFactor : number N;
  avgRIntensity : number N;
  avgPPPIntensity : number N
}.

(** [v.count ? v.convFactorSum / v.count : 0] *)
Definition average (sum : number N) (count : nat) : number N :=
  if (count =? 0)%nat then zero N else div N sum (ofNat N count).

Definition summary (v : Entry) : Summary :=
  {| category := e_category v;
     totalQuantity := e_totalQuantity v;
     totalValue := e_totalValue v;
     avgConvFactor := average (convFactorSum v) (count v);
     avgRIntensity := average (rIntensitySum v) (count v);
     avgPPPIntensity := average (pppIntensitySum v) (count v) |}.

Definition aggregate (key : string) (data : list Item) : list Summary :=
  List.map summary (values (fold_left (aggregateStep key) data [])).

Record Trend := mkTrend {
  monthYearType : JsVal;
  month : JsVal;
  year : JsVal;
  type : JsVal;
  t_totalQuantity : number N;
  t_totalValue : number N
}.

(** [`${d.month || 'Unknown'} ${d.financialYear || 'Unknown'} ${d.type || 'Unknown'}`] *)
Definition trendKey (d : Item) : JsVal :=
  VStr (toString numberToString (orElse (prop d "month") Unknown)
        ++ js " "
        ++ toString numberToString (orElse (prop d "financialYear") Unknown)
        ++ js " "
        ++ toString numberToString (orElse (prop d "type") Unknown))%list.

(** the entry made for a key holds the month, year and type of the
    record that makes it, as they are *)
Definition newTrend (d : Item) : Trend :=
  mkTrend (trendKey d) (prop d "month") (prop d "financialYear") (prop d "type")
    (zero N) (zero N).

Definition addToTrend (d : Item) (agg : Trend) : Trend :=
  mkTrend (monthYearType agg) (month agg) (year agg) (type agg)
    (add N (t_totalQuantity agg) (measureIn N "quantity" d))
    (add N (t_totalValue agg) (measureIn N "value" d)).

Definition monthlyStep (monthlyMap : Map Trend) (d : Item) : Map Trend :=
  let key := trendKey d in
  let m1 := if negb (has monthlyMap key) then set monthlyMap key (newTrend d)
            else monthlyMap in
  mutate m1 key (addToTrend d).

Record Analytics := mkAnalytics {
  byType : list Summary;
  byAttribute : list Summary;
  byParameter : list Summary;
  bySubCategory : list Summary;
  monthlyTrends : list Trend
}.

Definition analytics (data : list Item) : Analytics :=
  match data with
  | [] => mkAnalytics [] [] [] [] []
  | _ =>
      {| byType := aggregate "type" data;
         byAttribute := aggregate "attribute" data;
         byParameter := aggregate "parameter" data;
         bySubCategory := aggregate "subCategory" data;
         monthlyTrends := values (fold_left monthlyStep data []) |}
  end.

(** the totals of the overview cards:
    [data.reduce((a, v) => a + (v.quantity || 0), 0)] *)
Definition cardTotal (field : string) (data : list Item) : number N :=
  fold_left (fun a v => add N a (measureIn N field v)) data (zero N).

(** the averages of the overview cards:
    [data.reduce((a, v) => a + (v.convFactor || 0), 0) / data.length] *)
Definition cardAverage (field : string) (data : list Item) : number N :=
  div N (cardTotal field data) (ofNat N (List.length data)).

End Over.

Arguments e_category {N} _.
Arguments e_totalQuantity {N} _.
Arguments e_totalValue {N} _.
Arguments convFactorSum {N} _.
Arguments rIntensitySum {N} _.
Arguments pppIntensitySum {N} _.
Arguments count {N} _.
Arguments category {N} _.
Arguments totalQuantity {N} _.
Arguments totalValue {N} _.
Arguments avgConvFactor {N} _.
Arguments avgRIntensity {N} _.
Arguments avgPPPIntensity {N} _.
Arguments monthYearType {N} _.
Arguments month {N} _.
Arguments year {N} _.
Arguments type {N} _.
Arguments t_totalQuantity {N} _.
Arguments t_totalValue {N} _.
Arguments byType {N} _.
Arguments byAttribute {N} _.
Arguments byParameter {N} _.
Arguments bySubCategory {N} _.
Arguments monthlyTrends {N} _.
End FugitiveAnalytics.

End Computed.

(** ** Vocabulary: the groups of WaterAnalytics and Scope3Analytics *)

(** the group of a key of WaterAnalytics: the sums of the quantities and
    of the values of its records, and their number *)
Definition waterGroup (N : Numbers) (k : JsVal) (members : list Item)
  : Computed.WaterAnalytics.Group N :=
  Computed.WaterAnalytics.mkGroup N k
    (sumIn N (measureIn N "quantity") members)
    (sumIn N (measureIn N "value") members)
    (List.length members).

Definition waterMonthGroup (N : Numbers) (k : JsVal) (members : list Item)
  : Computed.WaterAnalytics.MonthGroup N :=
  Computed.WaterAnalytics.mkMonthGroup N k
    (sumIn N (measureIn N "quantity") members)
    (sumIn N (measureIn N "value") members).

Definition scope3Group (N : Numbers) (k : JsVal) (members : list Item)
  : Computed.Scope3Analytics.Group N :=
  Computed.Scope3Analytics.mkGroup N k
    (sumIn N (measureIn N "totalQuantity") members)
    (sumIn N (measureIn N "totalEFFuel") members)
    (sumIn N (measureIn N "totalValue") members).

(** the efficiency ratios of a sub-category, from its records *)
Definition scope3Efficiency (N : Numbers) (k : JsVal) (members : list Item)
  : Computed.Scope3Analytics.Efficiency N :=
  Computed.Scope3Analytics.mkEfficiency N k
    (ratioOrZero N (sumIn N (measureIn N "totalValue") members)
       (sumIn N (measureIn N "totalEFFuel") members))
    (ratioOrZero N (sumIn N (measureIn N "totalEFFuel") members)
       (sumIn N (measureIn N "totalQuantity") members)).

(** the overview totals of Scope3Analytics are the sums of the totals of
    a list of groups *)
Definition scope3TotalsAre (N : Numbers) (t : Computed.Scope3Analytics.Totals N)
  (groups : list (Computed.Scope3Analytics.Group N)) : Prop :=
  Computed.Scope3Analytics.sumQuantity t
    = sumOfNumbers N (List.map Computed.Scope3Analytics.totalQuantity groups)
  /\ Computed.Scope3Analytics.sumEFFuel t
     = sumOfNumbers N (List.map Computed.Scope3Analytics.totalEFFuel groups)
  /\ Computed.Scope3Analytics.sumValue t
     = sumOfNumbers N (List.map Computed.Scope3Analytics.totalValue groups).

(** three water records: 0.1 and 0.7 of parameter A, 0.3 of parameter B
    between them *)
Definition roundingSample : list Item :=
  [ mkItem [("parameter", VStr (js "A")); ("subCategory", VStr (js "A"))]
      [("quantity", 0.1); ("totalQuantity", 0.1)];
    mkItem [("parameter", VStr (js "B")); ("subCategory", VStr (js "B"))]
      [("quantity", 0.3); ("totalQuantity", 0.3)];
    mkItem [("parameter", VStr (js "A")); ("subCategory", VStr (js "A"))]
      [("quantity", 0.7); ("totalQuantity", 0.7)] ].

(** ** Vocabulary: the groups of the other modules *)

Definition electricityGroup (N : Numbers) (k : JsVal) (members : list Item)
  : Computed.ElectricityDataAnalytics.Group N :=
  Computed.ElectricityDataAnalytics.mkGroup N k
    (sumIn N (measureIn N "quantity") members)
    (sumIn N (Computed.ElectricityDataAnalytics.co2OrZero N) members)
    (List.length members).

Definition electricityMonth (N : Numbers) (k : JsVal) (members : list Item)
  : Computed.ElectricityDataAnalytics.MonthGroup N :=
  Computed.ElectricityDataAnalytics.mkMonthGroup N k
    (sumIn N (measureIn N "quantity") members)
    (sumIn N (Computed.ElectricityDataAnalytics.co2OrZero N) members).

Definition fossilType (N : Numbers) (k : JsVal) (members : list Item)
  : Computed.FossilFuelAnalytics.TypeEntry N :=
  Computed.FossilFuelAnalytics.mkTypeEntry N k
    (sumIn N (measureIn N "quantity") members)
    (sumIn N (measureIn N "value") members)
    (sumIn N (measureIn N "convFactor") members).

Definition fossilDept (N : Numbers) (k : JsVal) (members : list Item)
  : Computed.FossilFuelAnalytics.DeptEntry N :=
  Computed.FossilFuelAnalytics.mkDeptEntry N k (sumIn N (measureIn N "value") members).

Definition fossilPlant (N : Numbers) (k : JsVal) (members : list Item)
  : Computed.FossilFuelAnalytics.PlantEntry N :=
  Computed.FossilFuelAnalytics.mkPlantEntry N k (sumIn N (measureIn N "quantity") members).

(** the records the compliance count of DiversityDataAnalytics counts *)
Definition compliantRecord (d : Item) : bool :=
  match Computed.DiversityDataAnalytics.isCompliant (prop d "complianceInd") with
  | Some yes => yes
  | None => false
  end.

(** the compliance indicator of every record is a string or is missing *)
Definition indicatorsAreText (data : list Item) : Prop :=
  Forall (fun d =>
            Computed.DiversityDataAnalytics.isCompliant (prop d "complianceInd") <> None)
    data.

(** the month of DiversityDataAnalytics of a key: five sums over its
    records and their number *)
Definition diversityMonth (N : Numbers) (k : JsVal) (members : list Item)
  : Computed.DiversityDataAnalytics.MonthData N :=
  Computed.DiversityDataAnalytics.mkMonthData N k
    (sumIn N (operandIn N "wagesFemales") members)
    (sumIn N (operandIn N "wagesMales") members)
    (sumIn N (operandIn N "totalComplaints") members)
    (sumIn N (operandIn N "complaintsByFemale") members)
    (sumIn N (operandIn N "poshUpheld") members)
    (List.length members).

(** the overview of DiversityDataAnalytics over a list of records *)
Definition diversityOverview (N : Numbers) (data : list Item)
  : Computed.DiversityDataAnalytics.Overview N :=
  Computed.DiversityDataAnalytics.mkOverview N
    (sumIn N (operandIn N "wagesFemales") data)
    (sumIn N (operandIn N "wagesMales") data)
    (sumIn N (operandIn N "totalComplaints") data)
    (sumIn N (operandIn N "complaintsByFemale") data)
    (sumIn N (operandIn N "poshUpheld") data)
    (List.length (filter compliantRecord data))
    (List.length data).

Definition diversityWages (N : Numbers) (k : JsVal) (members : list Item)
  : Computed.DiversityDataAnalytics.WagesTrend N :=
  Computed.DiversityDataAnalytics.mkWagesTrend N k
    (sumIn N (operandIn N "wagesFemales") members)
    (sumIn N (operandIn N "wagesMales") members).

Definition diversityPosh (N : Numbers) (k : JsVal) (members : list Item)
  : Computed.DiversityDataAnalytics.PoshTrend N :=
  Computed.DiversityDataAnalytics.mkPoshTrend N k
    (sumIn N (operandIn N "poshUpheld") members).

(** the records a complaints breakdown by a dimension takes in *)
Definition hasDim (dim : string) (d : Item) : bool := truthy (prop d dim).

(** the complaints of the records of one value of a dimension:
    [(sum || 0) + d.totalComplaints], one record after the other *)
Definition complaintsOf (N : Numbers) (members : list Item) : number N :=
  fold_left (fun sum d => add N (orZeroOf N sum) (operandIn N "totalComplaints" d))
    members (zero N).

Definition diversityBreakdown (N : Numbers) (k : JsVal) (members : list Item)
  : Computed.DiversityDataAnalytics.Breakdown N :=
  Computed.DiversityDataAnalytics.mkBreakdown N k (complaintsOf N members).

(** three records as the diversity upload builds them *)
Definition diversitySample : list Item :=
  [ mkItem [("month", VStr (js "January")); ("financialYear", VStr (js "2024"));
            ("dim1", VStr (js "North")); ("dim2", VStr []);
            ("complianceInd", VStr (js "Y"))]
      [("wagesFemales", 100); ("wagesMales", 120); ("totalComplaints", 3);
       ("complaintsByFemale", 1); ("poshUpheld", 1)];
    mkItem [("month", VStr []); ("financialYear", VStr (js "2024"));
            ("dim1", VStr []); ("dim2", VStr (js "Plant"));
            ("complianceInd", VStr (js "n"))]
      [("wagesFemales", 50); ("wagesMales", 50); ("totalComplaints", 2);
       ("complaintsByFemale", 0); ("poshUpheld", 0)];
    mkItem [("month", VStr (js "January")); ("financialYear", VStr (js "2024"));
            ("dim1", VStr (js "North")); ("dim2", VStr (js "Plant"));
            ("complianceInd", VStr (js "y"))]
      [("wagesFemales", 10); ("wagesMales", 20); ("totalComplaints", 4);
       ("complaintsByFemale", 2); ("poshUpheld", 1)] ].

(** the records counted as compliant by OpennessAnalytics *)
Definition markedY (d : Item) : bool :=
  Computed.OpennessAnalytics.isY (prop d "actualCompliance").

Definition opennessMonth (N : Numbers) (k : JsVal) (members : list Item)
  : Computed.OpennessAnalytics.Month N :=
  Computed.OpennessAnalytics.mkMonth N k
    (sumIn N (operandIn N "rptPurchases") members)
    (sumIn N (operandIn N "rptSales") members).

Definition opennessBreakdown (N : Numbers) (field : string) (k : JsVal)
  (members : list Item) : Computed.OpennessAnalytics.Breakdown N :=
  Computed.OpennessAnalytics.mkBreakdown N k
    (sumIn N (Computed.OpennessAnalytics.parsed N field) members).

(** the number of distinct values of a dimension *)
Definition distinctDims (dim : string) (data : list Item) : nat :=
  List.length (firstSeen (List.map (fun d => prop d dim) data)).

(** the summary of FugitiveAnalytics of a key: two sums over its records
    and three averages, each a sum divided by the number of the records *)
Definition fugitiveSummary (N : Numbers) (k : JsVal) (members : list Item)
  : Computed.FugitiveAnalytics.Summary N :=
  let n := List.length members in
  Computed.FugitiveAnalytics.mkSummary N k
    (sumIn N (measureIn N "quantity") members)
    (sumIn N (measureIn N "value") members)
    (Computed.FugitiveAnalytics.average N (sumIn N (measureIn N "convFactor") members) n)
    (Computed.FugitiveAnalytics.average N (sumIn N (measureIn N "rIntensity") members) n)
    (Computed.FugitiveAnalytics.average N (sumIn N (measureIn N "pppIntensity") members) n).

(** a property of the first of a list of records *)
Definition firstProp (field : string) (members : list Item) : JsVal :=
  match members with
  | d0 :: _ => prop d0 field
  | [] => VUndefined
  end.

(** the trend entry of FugitiveAnalytics of a key: the month, year and
    type of the first of its records, and two sums over all of them *)
Definition fugitiveTrend (N : Numbers) (k : JsVal) (members : list Item)
  : Computed.FugitiveAnalytics.Trend N :=
  Computed.FugitiveAnalytics.mkTrend N k
    (firstProp "month" members) (firstProp "financialYear" members)
    (firstProp "type" members)
    (sumIn N (measureIn N "quantity") members)
    (sumIn N (measureIn N "value") members).

(** four records as the Openness upload builds them, in two months; the
    last has no sales figure *)
Definition opennessSample : list Item :=
  [ mkItem [("monthYear", VStr (js "April 2024")); ("actualCompliance", VStr (js "Y"));
            ("dim1", VStr (js "North"))]
      [("rptPurchases", 100); ("rptSales", 0.1)];
    mkItem [("monthYear", VStr (js "April 2024")); ("actualCompliance", VStr (js "y"))]
      [("rptPurchases", 100); ("rptSales", 0.2)];
    mkItem [("monthYear", VStr (js "May 2024")); ("actualCompliance", VStr (js "N"));
            ("dim1", VStr (js "North"))]
      [("rptPurchases", 250); ("rptSales", 0.3)];
    mkItem [("monthYear", VStr (js "May 2024")); ("actualCompliance", VStr (js "Y"))]
      [("rptPurchases", 50)] ].
(* ================================================================== *)
(** * Properties *)
(* ================================================================== *)

(** ** Keys: SameValueZero is an equivalence *)

Lemma jstring_eqb_eq (a b : jstring) : jstring_eqb a b = true <-> a = b.
Proof.
  unfold jstring_eqb. destruct (list_eq_dec N.eq_dec a b); split; congruence.
Qed.

Lemma sameValueZero_refl (a : JsVal) : sameValueZero a a = true.
Proof.
  destruct a; simpl; trivial.
  - apply eqb_reflx.
  - apply Qeq_bool_iff. reflexivity.
  - apply jstring_eqb_eq. reflexivity.
Qed.

Lemma sameValueZero_sym (a b : JsVal) : sameValueZero a b = sameValueZero b a.
Proof.
  destruct a, b; simpl; trivial.
  - destruct b0, b; reflexivity.
  - apply eq_true_iff_eq. rewrite !Qeq_bool_iff. split; intro H; symmetry; exact H.
  - apply eq_true_iff_eq. rewrite !jstring_eqb_eq. split; congruence.
Qed.

Lemma sameValueZero_trans (a b c : JsVal) :
  sameValueZero a b = true -> sameValueZero b c = true -> sameValueZero a c = true.
Proof.
  destruct a, b, c; simpl; trivial; try discriminate.
  - rewrite !eqb_true_iff. congruence.
  - rewrite !Qeq_bool_iff. intros H1 H2. rewrite H1. exact H2.
  - rewrite !jstring_eqb_eq. congruence.
Qed.

#[local] Instance eqK_equiv : Equivalence eqK.
Proof.
  split.
  - intro a. apply sameValueZero_refl.
  - intros a b H. unfold eqK in *. rewrite sameValueZero_sym. exact H.
  - intros a b c. apply sameValueZero_trans.
Qed.

(** equal keys cannot be told apart by later comparisons *)
Lemma sameValueZero_congr_l (a b c : JsVal) :
  sameValueZero a b = true -> sameValueZero a c = sameValueZero b c.
Proof.
  intro H. apply eq_true_iff_eq. split; intro H1.
  - apply sameValueZero_trans with a; trivial. rewrite sameValueZero_sym. trivial.
  - apply sameValueZero_trans with b; trivial.
Qed.

Lemma sameValueZero_congr_r (a b c : JsVal) :
  sameValueZero a b = true -> sameValueZero c a = sameValueZero c b.
Proof.
  intro H. rewrite (sameValueZero_sym c a), (sameValueZero_sym c b).
  apply sameValueZero_congr_l. exact H.
Qed.

(** ** Map operations *)

Section MapFacts.
Variable V : Type.
Implicit Types (m : Map V) (k : JsVal).

Lemma has_keys m k :
  has m k = existsb (fun k' => sameValueZero k' k) (keys m).
Proof.
  induction m as [|[k' v] m IH]; simpl; trivial. now rewrite IH.
Qed.

Lemma has_congr m k1 k2 : sameValueZero k1 k2 = true -> has m k1 = has m k2.
Proof.
  intro H. induction m as [|[k' v] m IH]; simpl; trivial.
  now rewrite IH, (sameValueZero_congr_r _ _ k' H).
Qed.

Lemma get_congr m k1 k2 : sameValueZero k1 k2 = true -> get m k1 = get m k2.
Proof.
  intro H. induction m as [|[k' v] m IH]; simpl; trivial.
  now rewrite IH, (sameValueZero_congr_r _ _ k' H).
Qed.

Lemma has_get m k : has m k = match get m k with Some _ => true | None => false end.
Proof.
  induction m as [|[k' v] m IH]; simpl; trivial.
  destruct (sameValueZero k' k); simpl; trivial.
Qed.

Lemma set_absent m k (v : V) : has m k = false -> set m k v = m ++ [(k, v)].
Proof.
  induction m as [|[k' v'] m IH]; simpl; trivial.
  destruct (sameValueZero k' k); simpl; try discriminate.
  intro H. now rewrite IH.
Qed.

Lemma keys_mutate m k (f : V -> V) : keys (mutate m k f) = keys m.
Proof.
  unfold keys. induction m as [|[k' v] m IH]; simpl; trivial.
  destruct (sameValueZero k' k); simpl; trivial. now rewrite IH.
Qed.

Lemma keys_set_present m k (v : V) : keys (set m k v) = if has m k then keys m else keys m ++ [k].
Proof.
  unfold keys. induction m as [|[k' v'] m IH]; simpl; trivial.
  destruct (sameValueZero k' k); simpl; trivial.
  rewrite IH. now destruct (has m k).
Qed.

Lemma keys_upsert m k (init : V) f :
  keys (upsert m k init f) = if has m k then keys m else keys m ++ [k].
Proof.
  unfold upsert. rewrite keys_mutate.
  destruct (has m k) eqn:E; simpl; trivial.
  rewrite keys_set_present, E. trivial.
Qed.

Lemma get_mutate m k k' (f : V -> V) :
  get (mutate m k f) k' =
  if sameValueZero k k' then option_map f (get m k) else get m k'.
Proof.
  induction m as [|[k0 v] m IH]; simpl.
  - now destruct (sameValueZero k k').
  - destruct (sameValueZero k0 k) eqn:E0; simpl.
    + rewrite (sameValueZero_congr_l _ _ k' E0).
      destruct (sameValueZero k k'); trivial.
    + destruct (sameValueZero k0 k') eqn:E1.
      * destruct (sameValueZero k k') eqn:E2; trivial.
        rewrite (sameValueZero_sym k k') in E2.
        rewrite (sameValueZero_trans _ _ _ E1 E2) in E0. discriminate.
      * apply IH.
Qed.

Lemma get_app_absent m k (e : JsVal * V) :
  get (m ++ [e]) k =
  match get m k with
  | Some v => Some v
  | None => if sameValueZero (fst e) k then Some (snd e) else None
  end.
Proof.
  induction m as [|[k0 v] m IH]; simpl.
  - destruct e; trivial.
  - destruct (sameValueZero k0 k); trivial.
Qed.

(** what [upsert] leaves under each key *)
Lemma get_upsert m k k' (init : V) f :
  get (upsert m k init f) k' =
  if sameValueZero k k'
  then Some (f (match get m k with Some v => v | None => init end))
  else get m k'.
Proof.
  unfold upsert. rewrite get_mutate.
  destruct (has m k) eqn:E; simpl.
  - rewrite has_get in E. destruct (get m k); try discriminate. trivial.
  - rewrite set_absent by trivial. rewrite !get_app_absent. simpl.
    rewrite has_get in E. destruct (get m k) eqn:G; try discriminate.
    rewrite sameValueZero_refl. simpl.
    destruct (sameValueZero k k') eqn:E1; trivial.
    destruct (get m k'); trivial.
Qed.

(** [set] on a key that is there is [mutate] with a constant *)
Lemma set_as_mutate m k (v : V) :
  has m k = true -> set m k v = mutate m k (fun _ => v).
Proof.
  induction m as [|[k0 v0] m IH]; simpl; try discriminate.
  destruct (sameValueZero k0 k); simpl; trivial.
  intro H. now rewrite IH.
Qed.

Lemma mutate_ext m k (f g : V -> V) :
  (forall v, get m k = Some v -> f v = g v) -> mutate m k f = mutate m k g.
Proof.
  induction m as [|[k0 v0] m IH]; simpl; trivial.
  destruct (sameValueZero k0 k); intro H.
  - now rewrite H.
  - now rewrite IH.
Qed.

Lemma mutate_mutate m k (f g : V -> V) :
  mutate (mutate m k f) k g = mutate m k (fun v => g (f v)).
Proof.
  induction m as [|[k0 v0] m IH]; simpl; trivial.
  destruct (sameValueZero k0 k) eqn:E; simpl; rewrite E; trivial.
  now rewrite IH.
Qed.

Lemma has_set m k (v : V) : has (set m k v) k = true.
Proof.
  induction m as [|[k0 v0] m IH]; simpl.
  - now rewrite sameValueZero_refl.
  - destruct (sameValueZero k0 k) eqn:E; simpl; rewrite E; trivial.
Qed.

End MapFacts.

(** ** Distinct keys in first-seen order *)

Lemma memK_congr (ks : list JsVal) (a b : JsVal) :
  sameValueZero a b = true -> memK a ks = memK b ks.
Proof.
  intro H. unfold memK. induction ks as [|k ks IH]; simpl; trivial.
  now rewrite IH, (sameValueZero_congr_r _ _ k H).
Qed.

Lemma memK_app (k : JsVal) (l1 l2 : list JsVal) :
  memK k (l1 ++ l2) = memK k l1 || memK k l2.
Proof. unfold memK. apply existsb_app. Qed.

Lemma memK_filter (k : JsVal) (p : JsVal -> bool) (ks : list JsVal) :
  (forall x, sameValueZero x k = true -> p x = p k) ->
  memK k (filter p ks) = p k && memK k ks.
Proof.
  intro Hp. unfold memK. induction ks as [|x ks IH]; simpl.
  - now rewrite andb_false_r.
  - destruct (p x) eqn:E; simpl; rewrite IH.
    + destruct (sameValueZero x k) eqn:E1; simpl; trivial.
      rewrite <- (Hp x E1), E. trivial.
    + destruct (sameValueZero x k) eqn:E1; simpl; trivial.
      rewrite <- (Hp x E1), E. trivial.
Qed.

Lemma memK_firstSeen (k : JsVal) (ks : list JsVal) :
  memK k (firstSeen ks) = memK k ks.
Proof.
  induction ks as [|x ks IH].
  - reflexivity.
  - change (firstSeen (x :: ks))
      with (x :: filter (fun y => negb (sameValueZero x y)) (firstSeen ks)).
    change (memK k (x :: ?l)) with (sameValueZero x k || memK k l).
    rewrite memK_filter.
    + rewrite IH. change (memK k (x :: ks)) with (sameValueZero x k || memK k ks).
      destruct (sameValueZero x k); reflexivity.
    + intros y Hy. f_equal. apply sameValueZero_congr_r. exact Hy.
Qed.

Lemma memK_InA (k : JsVal) (ks : list JsVal) :
  memK k ks = true <-> InA eqK k ks.
Proof.
  unfold memK. rewrite existsb_exists, InA_alt. split.
  - intros [x [Hin Hx]]. exists x. split; trivial.
    unfold eqK. rewrite sameValueZero_sym. exact Hx.
  - intros [x [Hx Hin]]. exists x. split; trivial.
    unfold eqK in Hx. rewrite sameValueZero_sym. exact Hx.
Qed.

Lemma firstSeen_InA (k : JsVal) (ks : list JsVal) :
  InA eqK k (firstSeen ks) <-> InA eqK k ks.
Proof. rewrite <- !memK_InA, memK_firstSeen. reflexivity. Qed.

Lemma NoDupA_filter (p : JsVal -> bool) (ks : list JsVal) :
  NoDupA eqK ks -> NoDupA eqK (filter p ks).
Proof.
  induction 1 as [|x l Hx Hl IH]; simpl.
  - constructor.
  - destruct (p x); trivial. constructor; trivial.
    intro H. apply Hx. rewrite InA_alt in *.
    destruct H as [y [Hy Hin]]. exists y. split; trivial.
    apply filter_In in Hin. tauto.
Qed.

Lemma firstSeen_NoDupA (ks : list JsVal) : NoDupA eqK (firstSeen ks).
Proof.
  induction ks as [|k ks IH]; simpl.
  - constructor.
  - constructor.
    + rewrite InA_alt. intros [y [Hy Hin]].
      apply filter_In in Hin. destruct Hin as [_ Hn].
      unfold eqK in Hy. rewrite Hy in Hn. discriminate.
    + apply NoDupA_filter. exact IH.
Qed.

Lemma firstSeen_length (ks : list JsVal) :
  (List.length (firstSeen ks) <= List.length ks)%nat.
Proof.
  induction ks as [|k ks IH]; simpl; trivial.
  apply le_n_S. etransitivity; [apply filter_length_le | exact IH].
Qed.

Lemma StronglySorted_map_filter {A : Type} (g : A -> nat) (p : A -> bool) (l : list A) :
  StronglySorted lt (List.map g l) -> StronglySorted lt (List.map g (filter p l)).
Proof.
  induction l as [|x l IH]; simpl; intro H; [constructor|].
  inversion H as [|y l' Hl Hx]; subst.
  destruct (p x); simpl; [|now apply IH].
  constructor; [now apply IH|].
  rewrite Forall_forall in *. intros n Hn. apply Hx.
  apply in_map_iff in Hn. destruct Hn as [z [<- Hz]].
  apply in_map. apply filter_In in Hz. tauto.
Qed.

Lemma StronglySorted_map_S (l : list nat) :
  StronglySorted lt l -> StronglySorted lt (List.map S l).
Proof.
  induction 1 as [|x l Hl IH Hx]; simpl; constructor; trivial.
  rewrite Forall_forall in *. intros n Hn.
  apply in_map_iff in Hn. destruct Hn as [z [<- Hz]]. apply -> Nat.succ_lt_mono. auto.
Qed.

(** the keys of [firstSeen] stand in the order of their first occurrences *)
Lemma firstSeen_order (ks : list JsVal) :
  StronglySorted lt (List.map (fun k => firstIndex k ks) (firstSeen ks)).
Proof.
  induction ks as [|k ks IH]; [constructor|].
  change (firstSeen (k :: ks))
    with (k :: filter (fun x => negb (sameValueZero k x)) (firstSeen ks)).
  rewrite map_cons.
  assert (E : List.map (fun x => firstIndex x (k :: ks))
                (filter (fun x => negb (sameValueZero k x)) (firstSeen ks))
              = List.map S (List.map (fun x => firstIndex x ks)
                  (filter (fun x => negb (sameValueZero k x)) (firstSeen ks)))).
  { rewrite map_map. apply map_ext_in. intros x Hx.
    apply filter_In in Hx. destruct Hx as [_ Hx]. apply negb_true_iff in Hx.
    simpl. now rewrite Hx. }
  rewrite E. constructor.
  - apply StronglySorted_map_S, StronglySorted_map_filter, IH.
  - rewrite Forall_forall. intros n Hn.
    apply in_map_iff in Hn. destruct Hn as [z [<- _]].
    simpl. rewrite sameValueZero_refl. lia.
Qed.

Lemma filter_filter_and {A : Type} (p q : A -> bool) (l : list A) :
  filter p (filter q l) = filter (fun x => q x && p x) l.
Proof.
  induction l as [|x l IH]; simpl; trivial.
  destruct (q x); simpl; rewrite <- IH; trivial.
Qed.

(** ** The get-or-create-then-update loop *)

Section GroupFold.
Variable V : Type.
Variable keyOf : Item -> JsVal.
Variable init : JsVal -> V.
Variable upd : Item -> V -> V.

Local Abbreviation gstep := (gstep V keyOf init upd).

Lemma keys_fold (data : list Item) (m : Map V) :
  keys (fold_left gstep data m) =
  keys m ++ filter (fun x => negb (memK x (keys m))) (firstSeen (List.map keyOf data)).
Proof.
  revert m. induction data as [|d data IH]; intro m.
  - simpl. now rewrite app_nil_r.
  - change (fold_left gstep (d :: data) m) with (fold_left gstep data (gstep m d)).
    rewrite IH. unfold gstep at 1 2. rewrite keys_upsert.
    change (firstSeen (List.map keyOf (d :: data)))
      with (keyOf d :: filter (fun x => negb (sameValueZero (keyOf d) x))
                         (firstSeen (List.map keyOf data))).
    set (F := firstSeen (List.map keyOf data)).
    rewrite has_keys. fold (memK (keyOf d) (keys m)).
    simpl filter at 2.
    destruct (memK (keyOf d) (keys m)) eqn:E; simpl negb; cbv iota.
    + f_equal. rewrite filter_filter_and. apply filter_ext_in. intros x _.
      destruct (sameValueZero (keyOf d) x) eqn:E1; simpl; trivial.
      rewrite <- (memK_congr (keys m) _ _ E1), E. trivial.
    + rewrite <- app_assoc. simpl. f_equal. f_equal.
      rewrite filter_filter_and. apply filter_ext. intro x.
      rewrite memK_app. unfold memK at 2. simpl.
      rewrite orb_false_r, negb_orb, andb_comm. trivial.
Qed.

(** one group per distinct key, in the order the keys first occur *)
Lemma keys_fold_firstSeen (data : list Item) :
  keys (fold_left gstep data []) = firstSeen (List.map keyOf data).
Proof.
  rewrite keys_fold. simpl.
  induction (firstSeen (List.map keyOf data)) as [|x l IH]; simpl; congruence.
Qed.

End GroupFold.

(** ** Sums carried by the groups

    The running totals of the groups are sums in a commutative monoid:
    the rationals for measures, the naturals for counts. *)

Section Weights.
Variable M : Type.
Variable zero : M.
Variable add : M -> M -> M.
Variable eqM : M -> M -> Prop.
Context {eqM_equiv : Equivalence eqM}.
Context {add_proper : Proper (eqM ==> eqM ==> eqM) add}.
Hypothesis add_assoc : forall a b c, eqM (add a (add b c)) (add (add a b) c).
Hypothesis add_comm : forall a b, eqM (add a b) (add b a).
Hypothesis add_zero_l : forall a, eqM (add zero a) a.

Local Abbreviation sumOf := (sumOf M zero add).

Lemma add_zero_r (a : M) : eqM (add a zero) a.
Proof. rewrite add_comm. apply add_zero_l. Qed.

Lemma sumOf_app (l1 l2 : list M) :
  eqM (sumOf (l1 ++ l2)) (add (sumOf l1) (sumOf l2)).
Proof.
  induction l1 as [|x l1 IH]; simpl.
  - symmetry. apply add_zero_l.
  - rewrite IH. apply add_assoc.
Qed.

(** [reduce((s, x) => s + x, a)] adds up the same numbers *)
Lemma fold_left_sum {A : Type} (c : A -> M) (l : list A) (a : M) :
  eqM (fold_left (fun s x => add s (c x)) l a) (add a (sumOf (List.map c l))).
Proof.
  revert a. induction l as [|x l IH]; intro a; simpl.
  - symmetry. apply add_zero_r.
  - rewrite IH. symmetry. apply add_assoc.
Qed.

Section PerMap.
Variable V : Type.
Variable w : V -> M.

Local Abbreviation total := (total M zero add V w).
Local Abbreviation weightAt := (weightAt M zero V w).

Lemma total_mutate (m : Map V) (k : JsVal) (f : V -> V) (delta : M) :
  has m k = true ->
  (forall v, eqM (w (f v)) (add (w v) delta)) ->
  eqM (total (mutate m k f)) (add (total m) delta).
Proof.
  intros Hhas Hf. unfold total, values.
  induction m as [|[k0 v0] m IH]; simpl in *; try discriminate.
  destruct (sameValueZero k0 k); simpl.
  - rewrite Hf. rewrite <- !add_assoc.
    apply add_proper; [reflexivity | apply add_comm].
  - rewrite IH by exact Hhas. apply add_assoc.
Qed.

Lemma total_upsert (m : Map V) (k : JsVal) (init : V) (f : V -> V) (delta : M) :
  eqM (w init) zero ->
  (forall v, eqM (w (f v)) (add (w v) delta)) ->
  eqM (total (upsert m k init f)) (add (total m) delta).
Proof.
  intros Hinit Hf. unfold upsert.
  destruct (has m k) eqn:E; simpl.
  - apply total_mutate; trivial.
  - rewrite total_mutate with (delta := delta); trivial.
    + apply add_proper; [|reflexivity].
      rewrite set_absent by exact E. unfold total, values.
      rewrite !map_app, sumOf_app. simpl. rewrite Hinit.
      rewrite add_zero_r. apply add_zero_r.
    + apply has_set.
Qed.

Lemma weightAt_upsert (m : Map V) (k k' : JsVal) (init : V) (f : V -> V) (delta : M) :
  eqM (w init) zero ->
  (forall v, eqM (w (f v)) (add (w v) delta)) ->
  eqM (weightAt k' (upsert m k init f))
      (if sameValueZero k k' then add (weightAt k' m) delta else weightAt k' m).
Proof.
  intros Hinit Hf. unfold weightAt. rewrite get_upsert.
  destruct (sameValueZero k k') eqn:E.
  - rewrite <- (get_congr _ m k k' E).
    destruct (get m k); rewrite Hf; [reflexivity|].
    now rewrite Hinit.
  - reflexivity.
Qed.

Variable keyOf : Item -> JsVal.
Variable init : JsVal -> V.
Variable upd : Item -> V -> V.
Variable c : Item -> M.
Hypothesis w_init : forall k, eqM (w (init k)) zero.
Hypothesis w_upd : forall d v, eqM (w (upd d v)) (add (w v) (c d)).

(** the totals of all groups add up to the total over the records *)
Lemma total_fold (data : list Item) (m : Map V) :
  eqM (total (fold_left (gstep V keyOf init upd) data m))
      (add (total m) (sumOf (List.map c data))).
Proof.
  revert m. induction data as [|d data IH]; intro m; simpl.
  - symmetry. apply add_zero_r.
  - rewrite IH. unfold gstep.
    rewrite total_upsert with (delta := c d); auto.
    symmetry. apply add_assoc.
Qed.

(** the total of one group is the total over the records with its key *)
Lemma weightAt_fold (data : list Item) (m : Map V) (k : JsVal) :
  eqM (weightAt k (fold_left (gstep V keyOf init upd) data m))
      (add (weightAt k m)
           (sumOf (List.map c (filter (fun d => sameValueZero (keyOf d) k) data)))).
Proof.
  revert m. induction data as [|d data IH]; intro m; simpl.
  - symmetry. apply add_zero_r.
  - rewrite IH. unfold gstep.
    rewrite weightAt_upsert with (delta := c d); auto.
    destruct (sameValueZero (keyOf d) k); simpl.
    + symmetry. apply add_assoc.
    + reflexivity.
Qed.

End PerMap.
End Weights.

(** *** The two instances *)

Lemma Qplus_assoc' (a b c : Q) : a + (b + c) == (a + b) + c.
Proof. ring. Qed.

Section FoldInstances.
Variable V : Type.
Variable keyOf : Item -> JsVal.
Variable init : JsVal -> V.
Variable upd : Item -> V -> V.

Lemma totalQ_fold (w : V -> Q) (c : Item -> Q) :
  (forall k, w (init k) == 0) ->
  (forall d v, w (upd d v) == w v + c d) ->
  forall data,
    sumQ (List.map w (values (fold_left (gstep V keyOf init upd) data [])))
    == sumQ (List.map c data).
Proof.
  intros Hi Hu data.
  pose proof (total_fold Q 0 Qplus Qeq Qplus_assoc' Qplus_comm Qplus_0_l
                V w keyOf init upd c Hi Hu data []) as H.
  unfold total, sumOf in H. simpl in H. unfold sumQ. rewrite H. ring.
Qed.

Lemma totalN_fold (w : V -> nat) (c : Item -> nat) :
  (forall k, w (init k) = 0%nat) ->
  (forall d v, w (upd d v) = (w v + c d)%nat) ->
  forall data,
    sumN (List.map w (values (fold_left (gstep V keyOf init upd) data [])))
    = sumN (List.map c data).
Proof.
  intros Hi Hu data.
  pose proof (total_fold nat 0%nat Nat.add eq Nat.add_assoc Nat.add_comm Nat.add_0_l
                V w keyOf init upd c Hi Hu data []) as H.
  unfold total, sumOf in H. simpl in H. exact H.
Qed.

Lemma atQ_fold (w : V -> Q) (c : Item -> Q) :
  (forall k, w (init k) == 0) ->
  (forall d v, w (upd d v) == w v + c d) ->
  forall data k,
    weightAt Q 0 V w k (fold_left (gstep V keyOf init upd) data [])
    == sumQ (List.map c (filter (fun d => sameValueZero (keyOf d) k) data)).
Proof.
  intros Hi Hu data k.
  pose proof (weightAt_fold Q 0 Qplus Qeq Qplus_assoc' Qplus_comm Qplus_0_l
                V w keyOf init upd c Hi Hu data [] k) as H.
  unfold sumOf in H. simpl in H. unfold sumQ. rewrite H.
  unfold weightAt. simpl. ring.
Qed.

Lemma atN_fold (w : V -> nat) (c : Item -> nat) :
  (forall k, w (init k) = 0%nat) ->
  (forall d v, w (upd d v) = (w v + c d)%nat) ->
  forall data k,
    weightAt nat 0%nat V w k (fold_left (gstep V keyOf init upd) data [])
    = sumN (List.map c (filter (fun d => sameValueZero (keyOf d) k) data)).
Proof.
  intros Hi Hu data k.
  pose proof (weightAt_fold nat 0%nat Nat.add eq Nat.add_assoc Nat.add_comm Nat.add_0_l
                V w keyOf init upd c Hi Hu data [] k) as H.
  unfold sumOf in H. simpl in H. exact H.
Qed.

(** a group keeps the key it was created under *)
Variable label : V -> JsVal.
Hypothesis label_init : forall k, label (init k) = k.
Hypothesis label_upd : forall d v, label (upd d v) = label v.

Lemma labelled_mutate (m : Map V) (k : JsVal) (d : Item) :
  Forall (fun e => label (snd e) = fst e) m ->
  Forall (fun e => label (snd e) = fst e) (mutate m k (upd d)).
Proof.
  induction 1 as [|[k0 v0] m H0 Hm IH]; simpl.
  - constructor.
  - destruct (sameValueZero k0 k); constructor; trivial.
    simpl in *. now rewrite label_upd.
Qed.

Lemma labelled_fold (data : list Item) (m : Map V) :
  Forall (fun e => label (snd e) = fst e) m ->
  Forall (fun e => label (snd e) = fst e) (fold_left (gstep V keyOf init upd) data m).
Proof.
  revert m. induction data as [|d data IH]; intros m Hm; simpl; trivial.
  apply IH. unfold gstep, upsert. apply labelled_mutate.
  destruct (has m (keyOf d)) eqn:E; simpl; trivial.
  rewrite set_absent by exact E. apply Forall_app. split; trivial.
  constructor; [|constructor]. simpl. apply label_init.
Qed.

Lemma labels_fold (data : list Item) :
  List.map label (values (fold_left (gstep V keyOf init upd) data []))
  = firstSeen (List.map keyOf data).
Proof.
  rewrite <- (keys_fold_firstSeen V keyOf init upd).
  pose proof (labelled_fold data [] (Forall_nil _)) as H.
  unfold values, keys. rewrite map_map.
  induction H as [|e m He Hm IH]; simpl; congruence.
Qed.

End FoldInstances.

Lemma sumN_ones {A : Type} (l : list A) :
  sumN (List.map (fun _ => 1%nat) l) = List.length l.
Proof. induction l; simpl; congruence. Qed.

(** ** Grouping in WaterAnalytics and FugitiveAnalytics *)

Lemma water_parameterMap_gfold (waterData : list Item) :
  WaterAnalytics.parameterMap waterData =
  fold_left
    (gstep _ waterKey (fun k => WaterAnalytics.mkGroup k 0 0 0)
       (fun item group =>
          WaterAnalytics.mkGroup (WaterAnalytics.parameter group)
            (WaterAnalytics.totalQuantity group + orZero (num item "quantity"))
            (WaterAnalytics.totalValue group + orZero (num item "value"))
            (WaterAnalytics.count group + 1)))
    waterData [].
Proof. reflexivity. Qed.

Lemma water_byParameter (waterData : list Item) :
  WaterAnalytics.byParameter (WaterAnalytics.analytics waterData)
  = values (WaterAnalytics.parameterMap waterData).
Proof. destruct waterData; reflexivity. Qed.

Lemma fugitive_aggregateMap_gfold (key : string) (data : list Item) :
  FugitiveAnalytics.aggregateMap key data =
  fold_left (gstep _ (FugitiveAnalytics.groupKey key) fugitiveInit fugitiveUpd) data [].
Proof. reflexivity. Qed.

(** C1. Aggregation by a grouping key gives exactly one group per distinct
    key value observed, in the order the keys are first seen, and the
    [count] fields of the groups add up to the number of input records:
    for the grouping by parameter of WaterAnalytics and for [aggregate] of
    FugitiveAnalytics (whose [count] lives in the entries of its map). *)
Theorem C1_one_group_per_distinct_key :
  (forall waterData : list Item,
     let out := WaterAnalytics.byParameter (WaterAnalytics.analytics waterData) in
     let seen := List.map waterKey waterData in
     List.map WaterAnalytics.parameter out = firstSeen seen
     /\ StronglySorted lt
          (List.map (fun k => firstIndex k seen) (List.map WaterAnalytics.parameter out))
     /\ NoDupA eqK (List.map WaterAnalytics.parameter out)
     /\ (forall k, InA eqK k (List.map WaterAnalytics.parameter out) <-> InA eqK k seen)
     /\ sumN (List.map WaterAnalytics.count out) = List.length waterData)
  /\
  (forall (key : string) (data : list Item),
     let out := FugitiveAnalytics.aggregate key data in
     let seen := List.map (FugitiveAnalytics.groupKey key) data in
     List.map FugitiveAnalytics.category out = firstSeen seen
     /\ StronglySorted lt
          (List.map (fun k => firstIndex k seen) (List.map FugitiveAnalytics.category out))
     /\ NoDupA eqK (List.map FugitiveAnalytics.category out)
     /\ (forall k, InA eqK k (List.map FugitiveAnalytics.category out) <-> InA eqK k seen)
     /\ List.length out = List.length (values (FugitiveAnalytics.aggregateMap key data))
     /\ sumN (List.map FugitiveAnalytics.count
                (values (FugitiveAnalytics.aggregateMap key data)))
        = List.length data).
Proof.
  split.
  - intros waterData out seen. subst out seen.
    rewrite water_byParameter, water_parameterMap_gfold.
    assert (Hk : List.map WaterAnalytics.parameter
                   (values (fold_left
                      (gstep _ waterKey (fun k => WaterAnalytics.mkGroup k 0 0 0)
                        (fun item group =>
                          WaterAnalytics.mkGroup (WaterAnalytics.parameter group)
                            (WaterAnalytics.totalQuantity group + orZero (num item "quantity"))
                            (WaterAnalytics.totalValue group + orZero (num item "value"))
                            (WaterAnalytics.count group + 1)))
                      waterData []))
                 = firstSeen (List.map waterKey waterData)).
    { apply labels_fold; reflexivity. }
    rewrite Hk. repeat split.
    + apply firstSeen_order.
    + apply firstSeen_NoDupA.
    + apply firstSeen_InA.
    + apply firstSeen_InA.
    + rewrite totalN_fold with (c := fun _ => 1%nat).
      * apply sumN_ones.
      * reflexivity.
      * reflexivity.
  - intros key data out seen. subst out seen.
    unfold FugitiveAnalytics.aggregate. rewrite map_map.
    change (fun x => FugitiveAnalytics.category (FugitiveAnalytics.summarise x))
      with FugitiveAnalytics.acc_category.
    rewrite fugitive_aggregateMap_gfold.
    rewrite labels_fold by reflexivity.
    repeat split.
    + apply firstSeen_order.
    + apply firstSeen_NoDupA.
    + apply firstSeen_InA.
    + apply firstSeen_InA.
    + apply length_map.
    + rewrite totalN_fold with (c := fun _ => 1%nat).
      * apply sumN_ones.
      * reflexivity.
      * reflexivity.
Qed.

(** ** Overview totals against group totals *)

Lemma scope3_accumulate_gstep (key : Item -> JsVal) (m : Map Scope3Analytics.Group)
  (d : Item) :
  Scope3Analytics.accumulate m (key d) d
  = gstep _ key (fun k => Scope3Analytics.mkGroup k 0 0 0) Scope3Analytics.addTo m d.
Proof. reflexivity. Qed.

Lemma scope3_run_mapSub (data : list Item) (st : Scope3Analytics.State) :
  Scope3Analytics.mapSub (fold_left Scope3Analytics.step data st)
  = fold_left (gstep _ scope3SubKey (fun k => Scope3Analytics.mkGroup k 0 0 0)
                 Scope3Analytics.addTo) data (Scope3Analytics.mapSub st).
Proof.
  revert st. induction data as [|d data IH]; intro st; simpl;
    [reflexivity | apply IH].
Qed.

Lemma scope3_run_mapYear (data : list Item) (st : Scope3Analytics.State) :
  Scope3Analytics.mapYear (fold_left Scope3Analytics.step data st)
  = fold_left (gstep _ scope3YearKey (fun k => Scope3Analytics.mkGroup k 0 0 0)
                 Scope3Analytics.addTo) data (Scope3Analytics.mapYear st).
Proof.
  revert st. induction data as [|d data IH]; intro st; simpl;
    [reflexivity | apply IH].
Qed.

Lemma scope3_run_mapDept (data : list Item) (st : Scope3Analytics.State) :
  Scope3Analytics.mapDept (fold_left Scope3Analytics.step data st)
  = fold_left (gstep _ scope3DeptKey (fun k => Scope3Analytics.mkGroup k 0 0 0)
                 Scope3Analytics.addTo) data (Scope3Analytics.mapDept st).
Proof.
  revert st. induction data as [|d data IH]; intro st; simpl;
    [reflexivity | apply IH].
Qed.

Lemma scope3_analytics_run (data : list Item) :
  let a := Scope3Analytics.analytics data in
  let st := Scope3Analytics.run data in
  Scope3Analytics.bySubCategory a = values (Scope3Analytics.mapSub st)
  /\ Scope3Analytics.byYear a = values (Scope3Analytics.mapYear st)
  /\ Scope3Analytics.byDept a = values (Scope3Analytics.mapDept st)
  /\ Scope3Analytics.a_totals a = Scope3Analytics.totals st
  /\ Scope3Analytics.topContributors a
     = slice0 5 (sort Scope3Analytics.byValueDesc (values (Scope3Analytics.mapSub st))).
Proof. destruct data; repeat split; reflexivity. Qed.

(** ** Members of a map with distinct keys *)

Lemma keys_fold_NoDupA (V : Type) (keyOf : Item -> JsVal) (init : JsVal -> V)
  (upd : Item -> V -> V) (data : list Item) :
  NoDupA eqK (keys (fold_left (gstep V keyOf init upd) data [])).
Proof. rewrite keys_fold_firstSeen. apply firstSeen_NoDupA. Qed.

Lemma get_of_member (V : Type) (m : Map V) (e : JsVal * V) :
  NoDupA eqK (keys m) -> In e m -> get m (fst e) = Some (snd e).
Proof.
  induction m as [|[k0 v0] m IH]; simpl; intros Hnd Hin; [contradiction|].
  inversion Hnd as [|x l Hx Hl]; subst.
  destruct Hin as [<- | Hin]; simpl.
  - now rewrite sameValueZero_refl.
  - destruct (sameValueZero k0 (fst e)) eqn:E.
    + exfalso. apply Hx. rewrite InA_alt. exists (fst e). split; [exact E|].
      unfold keys. now apply in_map.
    + now apply IH.
Qed.

Lemma get_member (V : Type) (m : Map V) (k : JsVal) (v : V) :
  get m k = Some v -> exists k', In (k', v) m /\ sameValueZero k' k = true.
Proof.
  induction m as [|[k0 v0] m IH]; simpl; [discriminate|].
  destruct (sameValueZero k0 k) eqn:E.
  - intros [= <-]. exists k0. auto.
  - intro H. destruct (IH H) as [k' [Hin Hk]]. exists k'. auto.
Qed.

Lemma eqK_Unknown (v : JsVal) : sameValueZero v Unknown = true -> v = Unknown.
Proof.
  destruct v; simpl; try discriminate.
  rewrite jstring_eqb_eq. intros ->. reflexivity.
Qed.

Lemma orElse_falsy (v dflt : JsVal) : truthy v = false -> orElse v dflt = dflt.
Proof. unfold orElse. now intros ->. Qed.

Lemma orElse_Unknown (v : JsVal) :
  truthy v = false \/ v = Unknown -> orElse v Unknown = Unknown.
Proof.
  intros [H | ->]; [now apply orElse_falsy | reflexivity].
Qed.

(** ** aggregateBy of ElectricityDataAnalytics *)

Lemma electricity_step_gstep (key : string) :
  ElectricityDataAnalytics.aggregateStep key
  = gstep _ (ElectricityDataAnalytics.groupKey key) electricityStepInit electricityStepUpd.
Proof. reflexivity. Qed.

Lemma electricity_aggregateBy_gfold (key : string) (data : list Item) :
  ElectricityDataAnalytics.aggregateBy key data
  = values (fold_left (gstep _ (ElectricityDataAnalytics.groupKey key)
                         electricityStepInit electricityStepUpd) data []).
Proof. reflexivity. Qed.

Lemma electricity_categories (key : string) (data : list Item) :
  List.map ElectricityDataAnalytics.category (ElectricityDataAnalytics.aggregateBy key data)
  = firstSeen (List.map (ElectricityDataAnalytics.groupKey key) data).
Proof.
  rewrite electricity_aggregateBy_gfold. apply labels_fold; reflexivity.
Qed.

Lemma electricity_counts_total (key : string) (data : list Item) :
  sumN (List.map ElectricityDataAnalytics.count
          (ElectricityDataAnalytics.aggregateBy key data))
  = List.length data.
Proof.
  rewrite electricity_aggregateBy_gfold.
  rewrite totalN_fold with (c := fun _ => 1%nat); try reflexivity.
  apply sumN_ones.
Qed.

(** the group of a key that occurs: it is there, it carries the key, and
    it has counted every record with that key *)
Lemma electricity_group_of_key (key : string) (data : list Item) (k : JsVal) :
  memK k (List.map (ElectricityDataAnalytics.groupKey key) data) = true ->
  exists g,
    In g (ElectricityDataAnalytics.aggregateBy key data)
    /\ sameValueZero (ElectricityDataAnalytics.category g) k = true
    /\ ElectricityDataAnalytics.count g
       = List.length (filter (fun d => sameValueZero (ElectricityDataAnalytics.groupKey key d) k)
                        data).
Proof.
  intro Hk. rewrite electricity_aggregateBy_gfold.
  set (m := fold_left (gstep _ (ElectricityDataAnalytics.groupKey key)
                         electricityStepInit electricityStepUpd) data []).
  assert (Hhas : has m k = true).
  { rewrite has_keys. fold (memK k (keys m)). unfold m.
    rewrite keys_fold_firstSeen, memK_firstSeen. exact Hk. }
  rewrite has_get in Hhas. destruct (get m k) as [g|] eqn:G; [|discriminate].
  exists g. destruct (get_member _ m k g G) as [k' [Hin Hk']].
  assert (Hlab : Forall (fun e => ElectricityDataAnalytics.category (snd e) = fst e) m).
  { unfold m. apply labelled_fold; [reflexivity | reflexivity | constructor]. }
  rewrite Forall_forall in Hlab. pose proof (Hlab _ Hin) as Hl. simpl in Hl.
  repeat split.
  - unfold values. change g with (snd (k', g)). now apply in_map.
  - now rewrite Hl.
  - pose proof (atN_fold _ (ElectricityDataAnalytics.groupKey key)
                  electricityStepInit electricityStepUpd
                  ElectricityDataAnalytics.count (fun _ => 1%nat)
                  (fun _ => eq_refl) (fun _ _ => eq_refl) data k) as H.
    fold m in H. unfold weightAt in H. rewrite G in H. rewrite H.
    apply sumN_ones.
Qed.

(** ** The complaints breakdown of DiversityDataAnalytics *)

Lemma diversity_dimStep_falsy (dim : string) (m : Map Q) (d : Item) :
  truthy (prop d dim) = false -> DiversityDataAnalytics.dimStep dim m d = m.
Proof. unfold DiversityDataAnalytics.dimStep. now intros ->. Qed.

Lemma diversity_fold_skips (dim : string) (data : list Item) (m : Map Q) :
  fold_left (DiversityDataAnalytics.dimStep dim) data m
  = fold_left (DiversityDataAnalytics.dimStep dim)
      (filter (fun d => truthy (prop d dim)) data) m.
Proof.
  revert m. induction data as [|d data IH]; intro m; simpl; trivial.
  destruct (truthy (prop d dim)) eqn:E; simpl.
  - apply IH.
  - rewrite diversity_dimStep_falsy by exact E. apply IH.
Qed.

(** C4 as stated fails on the complaints breakdown of
    DiversityDataAnalytics: a record whose [dim1] is empty is left out, and
    no "Unknown" group is made for it. *)
Lemma C4_counterexample_diversity_drops_record :
  let d := mkItem [("dim1", VStr []); ("month", VStr (js "January"))]
                  [("totalComplaints", 3)] in
  truthy (prop d "dim1") = false
  /\ DiversityDataAnalytics.complaintsBreakdown [d] = []
  /\ ~ (exists g, In g (DiversityDataAnalytics.complaintsBreakdown [d])
                  /\ DiversityDataAnalytics.category g = Unknown).
Proof.
  cbv zeta. repeat split.
  intros [g [Hin _]]. exact Hin.
Qed.

(** C4 (amended). In [aggregateBy] of ElectricityDataAnalytics a record
    whose grouping field is missing or empty gets the key "Unknown"; it is
    counted in the one group of that key, together with every other record
    that gets this key, and no record is dropped: the counts add up to
    the number of records.  The complaints breakdowns of
    DiversityDataAnalytics by [dim1] and [dim2] instead skip the records
    whose field is missing or empty. *)
Theorem C4_missing_key_counted_under_Unknown :
  forall (key : string) (data : list Item) (d : Item),
    In d data ->
    truthy (prop d key) = false ->
    let out := ElectricityDataAnalytics.aggregateBy key data in
    ElectricityDataAnalytics.groupKey key d = Unknown
    /\ (exists g,
          In g out
          /\ ElectricityDataAnalytics.category g = Unknown
          /\ ElectricityDataAnalytics.count g
             = List.length
                 (filter (fun d' =>
                    sameValueZero (ElectricityDataAnalytics.groupKey key d') Unknown) data))
    /\ NoDupA eqK (List.map ElectricityDataAnalytics.category out)
    /\ sumN (List.map ElectricityDataAnalytics.count out) = List.length data
    /\ DiversityDataAnalytics.complaintsByDim1 data
       = DiversityDataAnalytics.complaintsByDim1
           (filter (fun d' => truthy (prop d' "dim1")) data)
    /\ DiversityDataAnalytics.complaintsByDim2 data
       = DiversityDataAnalytics.complaintsByDim2
           (filter (fun d' => truthy (prop d' "dim2")) data).
Proof.
  intros key data d Hin Hfalsy out.
  assert (Hk : ElectricityDataAnalytics.groupKey key d = Unknown).
  { unfold ElectricityDataAnalytics.groupKey. now apply orElse_falsy. }
  split; [exact Hk|]. split; [|split; [|split; [|split]]].
  - destruct (electricity_group_of_key key data Unknown) as [g (H1 & H2 & H3)].
    + apply memK_InA. rewrite InA_alt. exists Unknown. split; [reflexivity|].
      rewrite <- Hk. now apply in_map.
    + exists g. repeat split; trivial. now apply eqK_Unknown.
  - subst out. rewrite electricity_categories. apply firstSeen_NoDupA.
  - apply electricity_counts_total.
  - apply diversity_fold_skips.
  - apply diversity_fold_skips.
Qed.

Lemma C4_witness :
  let d1 := mkItem [("plant", VStr (js "P1"))] [("quantity", 5)] in
  let d2 := mkItem [("department", VStr [])] [("quantity", 7)] in
  let d3 := mkItem [] [("quantity", 1)] in
  exists g,
    In g (ElectricityDataAnalytics.aggregateBy "department" [d1; d2; d3])
    /\ ElectricityDataAnalytics.category g = Unknown
    /\ ElectricityDataAnalytics.count g = 3%nat.
Proof.
  cbv zeta.
  destruct (C4_missing_key_counted_under_Unknown "department"
              [mkItem [("plant", VStr (js "P1"))] [("quantity", 5)];
               mkItem [("department", VStr [])] [("quantity", 7)];
               mkItem [] [("quantity", 1)]]
              (mkItem [("department", VStr [])] [("quantity", 7)]))
    as (_ & [g (H1 & H2 & H3)] & _).
  - simpl. auto.
  - reflexivity.
  - exists g. repeat split; trivial.
Defined.

(** ** Records the grouping cannot tell apart *)

Lemma fold_left_swap_one {A B : Type} (step : A -> B -> A) (d d' : B)
  (before after : list B) (a : A) :
  (forall m, step m d = step m d') ->
  fold_left step (before ++ d :: after) a = fold_left step (before ++ d' :: after) a.
Proof.
  intro H. rewrite !fold_left_app. simpl. now rewrite H.
Qed.

Lemma num_of_nums (d d' : Item) (k : string) : nums d = nums d' -> num d k = num d' k.
Proof. unfold num. now intros ->. Qed.

Lemma water_analytics_nonempty (before after : list Item) (d : Item) :
  WaterAnalytics.byParameter (WaterAnalytics.analytics (before ++ d :: after))
  = values (fold_left WaterAnalytics.parameterStep (before ++ d :: after) []).
Proof. apply water_byParameter. Qed.

(** the key of a record is "Unknown" exactly when its field is falsy or
    holds "Unknown" *)
Lemma orElse_is_Unknown (v : JsVal) :
  sameValueZero (orElse v Unknown) Unknown = defaulted v.
Proof.
  unfold defaulted, orElse. destruct (truthy v); simpl; trivial.
Qed.

Lemma In_defaulted (key : string) (d : Item) (data : list Item) :
  In d data ->
  truthy (prop d key) = false \/ prop d key = Unknown ->
  In d (filter (fun r => defaulted (prop r key)) data).
Proof.
  intros Hin H. apply filter_In. split; trivial.
  unfold defaulted. destruct H as [-> | ->]; reflexivity.
Qed.

(** two groups of a list with distinct labels that carry the same label
    are the same group *)
Lemma same_label_same_group {A : Type} (label : A -> JsVal) (l : list A) (a b : A) :
  NoDupA eqK (List.map label l) ->
  In a l -> In b l -> label a = label b -> a = b.
Proof.
  induction l as [|x l IH]; simpl; intros Hnd Ha Hb E; [contradiction|].
  inversion Hnd as [|y ys Hx Hl]; subst.
  assert (Hout : forall c, In c l -> label c = label x -> False).
  { intros c Hc Ec. apply Hx. rewrite InA_alt. exists (label c). split.
    - unfold eqK. rewrite Ec. apply sameValueZero_refl.
    - now apply in_map. }
  destruct Ha as [<- | Ha], Hb as [<- | Hb]; trivial.
  - exfalso. apply (Hout b Hb). now symmetry.
  - exfalso. now apply (Hout a Ha).
  - now apply IH.
Qed.

Lemma water_parameters (waterData : list Item) :
  List.map WaterAnalytics.parameter
    (WaterAnalytics.byParameter (WaterAnalytics.analytics waterData))
  = firstSeen (List.map waterKey waterData).
Proof.
  rewrite water_byParameter, water_parameterMap_gfold.
  apply labels_fold; reflexivity.
Qed.

(** the parameter group of a key that occurs: it is there, it carries the
    key, and it has counted every record with that key *)
Lemma water_group_of_key (waterData : list Item) (k : JsVal) :
  memK k (List.map waterKey waterData) = true ->
  exists g,
    In g (WaterAnalytics.byParameter (WaterAnalytics.analytics waterData))
    /\ sameValueZero (WaterAnalytics.parameter g) k = true
    /\ WaterAnalytics.count g
       = List.length (filter (fun d => sameValueZero (waterKey d) k) waterData).
Proof.
  intro Hk. rewrite water_byParameter, water_parameterMap_gfold.
  set (init := fun k => WaterAnalytics.mkGroup k 0 0 0).
  set (upd := fun (item : Item) (group : WaterAnalytics.ParameterGroup) =>
          WaterAnalytics.mkGroup (WaterAnalytics.parameter group)
            (WaterAnalytics.totalQuantity group + orZero (num item "quantity"))
            (WaterAnalytics.totalValue group + orZero (num item "value"))
            (WaterAnalytics.count group + 1)).
  set (m := fold_left (gstep _ waterKey init upd) waterData []).
  assert (Hhas : has m k = true).
  { rewrite has_keys. fold (memK k (keys m)). unfold m.
    rewrite keys_fold_firstSeen, memK_firstSeen. exact Hk. }
  rewrite has_get in Hhas. destruct (get m k) as [g|] eqn:G; [|discriminate].
  exists g. destruct (get_member _ m k g G) as [k' [Hin Hk']].
  assert (Hlab : Forall (fun e => WaterAnalytics.parameter (snd e) = fst e) m).
  { unfold m. apply labelled_fold; [reflexivity | reflexivity | constructor]. }
  rewrite Forall_forall in Hlab. pose proof (Hlab _ Hin) as Hl. simpl in Hl.
  repeat split.
  - unfold values. change g with (snd (k', g)). now apply in_map.
  - now rewrite Hl.
  - pose proof (atN_fold _ waterKey init upd WaterAnalytics.count (fun _ => 1%nat)
                  (fun _ => eq_refl) (fun _ _ => eq_refl) waterData k) as H.
    fold m in H. unfold weightAt in H. rewrite G in H. rewrite H.
    apply sumN_ones.
Qed.

(** C9. The derivation of the grouping key sends every falsy field value
    (the empty string, the number 0, [null], a property that is absent) to
    the key "Unknown", the key a field that holds the string "Unknown"
    has.  So when the records hold one whose grouping field is falsy or
    "Unknown", the output of [aggregateBy] (ElectricityDataAnalytics) has
    exactly one group "Unknown", and its count is the number of records
    whose field is falsy or "Unknown": records of both kinds are counted
    in it together.  The same holds of the grouping by parameter
    (WaterAnalytics).  Putting a record of one kind in the place of a
    record of the other with the same measures leaves both outputs
    unchanged. *)
Theorem C9_falsy_and_Unknown_share_one_group :
  forall (key : string) (data : list Item) (d d' : Item),
    In d data -> In d' data ->
    (truthy (prop d key) = false \/ prop d key = Unknown) ->
    (truthy (prop d' key) = false \/ prop d' key = Unknown) ->
    let merged := filter (fun r => defaulted (prop r key)) data in
    ElectricityDataAnalytics.groupKey key d = Unknown
    /\ ElectricityDataAnalytics.groupKey key d' = Unknown
    /\ In d merged /\ In d' merged
    /\ (exists g,
          In g (ElectricityDataAnalytics.aggregateBy key data)
          /\ ElectricityDataAnalytics.category g = Unknown
          /\ ElectricityDataAnalytics.count g = List.length merged
          /\ forall g', In g' (ElectricityDataAnalytics.aggregateBy key data) ->
                        ElectricityDataAnalytics.category g' = Unknown -> g' = g)
    /\ (key = "parameter" ->
        waterKey d = Unknown
        /\ waterKey d' = Unknown
        /\ exists g,
             In g (WaterAnalytics.byParameter (WaterAnalytics.analytics data))
             /\ WaterAnalytics.parameter g = Unknown
             /\ WaterAnalytics.count g = List.length merged
             /\ forall g', In g' (WaterAnalytics.byParameter (WaterAnalytics.analytics data)) ->
                           WaterAnalytics.parameter g' = Unknown -> g' = g)
    /\ (forall before after : list Item,
          nums d = nums d' ->
          ElectricityDataAnalytics.aggregateBy key (before ++ d :: after)
          = ElectricityDataAnalytics.aggregateBy key (before ++ d' :: after)
          /\ (key = "parameter" ->
              WaterAnalytics.byParameter (WaterAnalytics.analytics (before ++ d :: after))
              = WaterAnalytics.byParameter
                  (WaterAnalytics.analytics (before ++ d' :: after)))).
Proof.
  intros key data d d' Hin Hin' Hd Hd' merged.
  assert (K : ElectricityDataAnalytics.groupKey key d = Unknown)
    by (now apply orElse_Unknown).
  assert (K' : ElectricityDataAnalytics.groupKey key d' = Unknown)
    by (now apply orElse_Unknown).
  assert (Hmerged : forall p : Item -> JsVal,
            (forall r, p r = orElse (prop r key) Unknown) ->
            filter (fun r => sameValueZero (p r) Unknown) data = merged).
  { intros p Hp. unfold merged. apply filter_ext. intro r.
    rewrite Hp. apply orElse_is_Unknown. }
  split; [exact K|]. split; [exact K'|].
  split; [now apply In_defaulted|]. split; [now apply In_defaulted|].
  split; [|split].
  - destruct (electricity_group_of_key key data Unknown) as [g (H1 & H2 & H3)].
    + apply memK_InA. rewrite InA_alt. exists Unknown. split; [reflexivity|].
      rewrite <- K. now apply in_map.
    + apply eqK_Unknown in H2. exists g. repeat split; trivial.
      * rewrite H3. f_equal. apply Hmerged. reflexivity.
      * intros g' Hg' Hc.
        apply (same_label_same_group ElectricityDataAnalytics.category
                 (ElectricityDataAnalytics.aggregateBy key data)); trivial.
        -- rewrite electricity_categories. apply firstSeen_NoDupA.
        -- congruence.
  - intros ->. split; [exact K|]. split; [exact K'|].
    destruct (water_group_of_key data Unknown) as [g (H1 & H2 & H3)].
    + apply memK_InA. rewrite InA_alt. exists Unknown. split; [reflexivity|].
      assert (Kw : waterKey d = Unknown) by exact K.
      rewrite <- Kw. now apply in_map.
    + apply eqK_Unknown in H2. exists g. repeat split; trivial.
      * rewrite H3. f_equal. apply Hmerged. reflexivity.
      * intros g' Hg' Hc.
        apply (same_label_same_group WaterAnalytics.parameter
                 (WaterAnalytics.byParameter (WaterAnalytics.analytics data))); trivial.
        -- rewrite water_parameters. apply firstSeen_NoDupA.
        -- congruence.
  - intros before after Hn. split.
    + unfold ElectricityDataAnalytics.aggregateBy. f_equal.
      apply fold_left_swap_one. intro m.
      unfold ElectricityDataAnalytics.aggregateStep.
      rewrite K, K', !(num_of_nums d d') by exact Hn. reflexivity.
    + intros ->. rewrite !water_analytics_nonempty. f_equal.
      apply fold_left_swap_one. intro m.
      unfold WaterAnalytics.parameterStep.
      change (orElse (prop d "parameter") Unknown)
        with (ElectricityDataAnalytics.groupKey "parameter" d).
      change (orElse (prop d' "parameter") Unknown)
        with (ElectricityDataAnalytics.groupKey "parameter" d').
      rewrite K, K', !(num_of_nums d d') by exact Hn. reflexivity.
Qed.

(** the falsy values the claim names, and an absent property *)
Lemma falsy_values :
  truthy (VStr []) = false /\ truthy (VNum 0) = false
  /\ truthy VNull = false /\ truthy VUndefined = false
  /\ (forall d key, lookup (props d) key = None -> truthy (prop d key) = false).
Proof.
  repeat split. intros d key H. unfold prop. now rewrite H.
Qed.

Lemma C9_witness :
  exists g,
    In g (WaterAnalytics.byParameter (WaterAnalytics.analytics unknownSample))
    /\ WaterAnalytics.parameter g = Unknown
    /\ WaterAnalytics.count g = 5%nat
    /\ exists g',
         In g' (ElectricityDataAnalytics.aggregateBy "parameter" unknownSample)
         /\ ElectricityDataAnalytics.category g' = Unknown
         /\ ElectricityDataAnalytics.count g' = 5%nat.
Proof.
  destruct (C9_falsy_and_Unknown_share_one_group "parameter" unknownSample
              (mkItem [("parameter", VNum 0)] [("quantity", 4)])
              (mkItem [("parameter", Unknown)] [("quantity", 4)]))
    as (_ & _ & _ & _ & [g' (E1 & E2 & E3 & _)] & W & _).
  - simpl. auto.
  - simpl. auto 7.
  - left. reflexivity.
  - right. reflexivity.
  - destruct (W eq_refl) as (_ & _ & [g (W1 & W2 & W3 & _)]).
    exists g. repeat split; trivial. exists g'. repeat split; trivial.
Defined.

(** ** Stable sort, descending by a measure *)

Section SortFacts.
Variable A : Type.
Variable val : A -> Q.

Local Abbreviation cmp := (fun a b : A => val b - val a).
Local Abbreviation desc := (descBy A val).
Local Abbreviation tied := (tiedAt A val).

Lemma cmp_le (x y : A) : Qle_bool (cmp x y) 0 = true <-> val y <= val x.
Proof.
  rewrite Qle_bool_iff, (Qle_minus_iff (val y - val x) 0), (Qle_minus_iff (val y) (val x)).
  setoid_replace (0 + - (val y - val x)) with (val x + - val y) by ring.
  reflexivity.
Qed.

Lemma insert_perm (x : A) (l : list A) : Permutation (insert cmp x l) (x :: l).
Proof.
  induction l as [|y l IH]; simpl.
  - apply Permutation_refl.
  - destruct (Qle_bool (val y - val x) 0).
    + apply Permutation_refl.
    + etransitivity; [apply perm_skip, IH | apply perm_swap].
Qed.

Lemma sort_perm (l : list A) : Permutation (sort cmp l) l.
Proof.
  induction l as [|x l IH]; simpl.
  - constructor.
  - etransitivity; [apply insert_perm | apply perm_skip, IH].
Qed.

Lemma sort_length (l : list A) : List.length (sort cmp l) = List.length l.
Proof. apply Permutation_length, sort_perm. Qed.

Lemma desc_trans : Relations_1.Transitive desc.
Proof.
  intros a b c Hab Hbc. unfold descBy in *. eapply Qle_trans; eassumption.
Qed.

Lemma insert_sorted (x : A) (l : list A) :
  Sorted desc l -> Sorted desc (insert cmp x l).
Proof.
  induction 1 as [|y l Hs IH Hhd]; simpl.
  - repeat constructor.
  - destruct (Qle_bool (val y - val x) 0) eqn:E.
    + constructor; [constructor; trivial|]. constructor.
      apply cmp_le. exact E.
    + constructor; trivial.
      assert (Hyx : desc y x).
      { unfold descBy. apply Qlt_le_weak. apply Qnot_le_lt. intro Hle.
        apply cmp_le in Hle. simpl in Hle. congruence. }
      destruct l as [|z l]; simpl.
      * constructor. exact Hyx.
      * destruct (Qle_bool (val z - val x) 0); constructor; trivial.
        now inversion Hhd.
Qed.

Lemma sort_sorted (l : list A) : StronglySorted desc (sort cmp l).
Proof.
  apply Sorted_StronglySorted; [exact desc_trans|].
  induction l as [|x l IH]; simpl; [constructor | now apply insert_sorted].
Qed.

(** stability: the elements of one measure keep their order *)
Lemma insert_stable (v : Q) (x : A) (l : list A) :
  filter (tied v) (insert cmp x l) = filter (tied v) (x :: l).
Proof.
  induction l as [|y l IH]; simpl; trivial.
  destruct (Qle_bool (val y - val x) 0) eqn:E; trivial.
  simpl in *. rewrite IH.
  destruct (tiedAt A val v x) eqn:Ex, (tiedAt A val v y) eqn:Ey; trivial.
  exfalso. unfold tiedAt in *. apply Qeq_bool_iff in Ex, Ey.
  assert (Hle : Qle_bool (cmp x y) 0 = true).
  { apply cmp_le. rewrite Ex, Ey. apply Qle_refl. }
  simpl in Hle. congruence.
Qed.

Lemma sort_stable (v : Q) (l : list A) :
  filter (tied v) (sort cmp l) = filter (tied v) l.
Proof.
  induction l as [|x l IH]; simpl; trivial.
  rewrite insert_stable. simpl. now rewrite IH.
Qed.

Lemma filter_firstn (p : A -> bool) (n : nat) (l : list A) :
  exists k, filter p (firstn n l) = firstn k (filter p l).
Proof.
  revert l. induction n as [|n IH]; intro l.
  - exists 0%nat. reflexivity.
  - destruct l as [|x l]; simpl.
    + exists 0%nat. reflexivity.
    + destruct (IH l) as [k Hk]. destruct (p x).
      * exists (S k). simpl. now rewrite Hk.
      * exists k. exact Hk.
Qed.

Lemma In_firstn (n : nat) (l : list A) (x : A) : In x (firstn n l) -> In x l.
Proof.
  intro H. rewrite <- (firstn_skipn n l). apply in_or_app. now left.
Qed.

Lemma StronglySorted_firstn (n : nat) (l : list A) :
  StronglySorted desc l -> StronglySorted desc (firstn n l).
Proof.
  revert l. induction n as [|n IH]; intros l H; simpl; [constructor|].
  destruct H as [|x l Hl Hx]; constructor.
  - now apply IH.
  - rewrite Forall_forall in *. intros y Hy. apply Hx.
    eapply In_firstn; eauto.
Qed.

Lemma StronglySorted_split (l1 l2 : list A) :
  StronglySorted desc (l1 ++ l2) ->
  forall a b, In a l1 -> In b l2 -> val b <= val a.
Proof.
  induction l1 as [|x l1 IH]; simpl; intros H a b Ha Hb; [contradiction|].
  inversion H as [|x' l' Hl Hx]; subst.
  destruct Ha as [<- | Ha].
  - rewrite Forall_forall in Hx. apply (Hx b). apply in_or_app. now right.
  - now apply IH.
Qed.

(** sorting and cutting gives the top [n] *)
Lemma sort_slice_isTopN (n : nat) (groups : list A) :
  isTopN A val n groups (slice0 n (sort cmp groups)).
Proof.
  unfold isTopN, slice0. repeat split.
  - rewrite length_firstn, sort_length. reflexivity.
  - exists (skipn n (sort cmp groups)). split.
    + rewrite firstn_skipn. apply sort_perm.
    + apply StronglySorted_split. rewrite firstn_skipn. apply sort_sorted.
  - intros x Hx. apply (Permutation_in x (sort_perm groups)).
    eapply In_firstn; eauto.
  - apply StronglySorted_firstn, sort_sorted.
  - intro v. destruct (filter_firstn (tied v) n (sort cmp groups)) as [k Hk].
    exists k. rewrite Hk, sort_stable. reflexivity.
Qed.

End SortFacts.

(** ** Top contributors *)

Lemma values_length (V : Type) (m : Map V) : List.length (values m) = List.length (keys m).
Proof. unfold values, keys. now rewrite !length_map. Qed.

Lemma set_get_mutate (V : Type) (m : Map V) (k : JsVal) (f : V -> V) (dflt : V) :
  has m k = true ->
  set m k (f (match get m k with Some x => x | None => dflt end)) = mutate m k f.
Proof.
  induction m as [|[k0 v0] m IH]; simpl; [discriminate|].
  destruct (sameValueZero k0 k); simpl; trivial.
  intro H. now rewrite IH.
Qed.

Lemma openness_dimStep_gstep (dim field : string) (m : Map Q) (d : Item) :
  OpennessAnalytics.dimStep dim field m d
  = gstep Q (fun d => prop d dim) (fun _ => 0)
      (fun d x => x + OpennessAnalytics.measure d field) m d.
Proof.
  unfold OpennessAnalytics.dimStep, gstep, upsert.
  apply (set_get_mutate Q _ (prop d dim)
           (fun x => x + OpennessAnalytics.measure d field) 0).
  destruct (has m (prop d dim)) eqn:E; simpl; trivial. apply has_set.
Qed.

Lemma openness_dim1Map_gfold (data : list Item) :
  OpennessAnalytics.dim1Map data
  = fold_left (gstep Q (fun d => prop d "dim1") (fun _ => 0)
                 (fun d x => x + OpennessAnalytics.measure d "rptPurchases")) data [].
Proof.
  unfold OpennessAnalytics.dim1Map. generalize (@nil (JsVal * Q)).
  induction data as [|d data IH]; intro m; simpl; trivial.
  rewrite openness_dimStep_gstep. apply IH.
Qed.

Lemma scope3_bySubCategory_length (data : list Item) :
  List.length (Scope3Analytics.bySubCategory (Scope3Analytics.analytics data))
  = List.length (firstSeen (List.map scope3SubKey data)).
Proof.
  destruct (scope3_analytics_run data) as (Hs & _). simpl in Hs. rewrite Hs.
  unfold Scope3Analytics.run. rewrite scope3_run_mapSub, values_length.
  now rewrite keys_fold_firstSeen.
Qed.

Lemma openness_groups_length (data : list Item) :
  List.length (opennessDim1Groups data)
  = List.length (firstSeen (List.map (fun d => prop d "dim1") data)).
Proof.
  unfold opennessDim1Groups, entries. rewrite length_map, openness_dim1Map_gfold.
  rewrite <- (keys_fold_firstSeen Q (fun d => prop d "dim1") (fun _ => 0)
                (fun d x => x + OpennessAnalytics.measure d "rptPurchases")).
  unfold keys. now rewrite length_map.
Qed.


(** ** Averages per group *)

Section MemberWeights.
Variable V : Type.
Variable keyOf : Item -> JsVal.
Variable init : JsVal -> V.
Variable upd : Item -> V -> V.
Variable label : V -> JsVal.
Hypothesis label_init : forall k, label (init k) = k.
Hypothesis label_upd : forall d v, label (upd d v) = label v.

Lemma member_get (data : list Item) (v : V) :
  In v (values (fold_left (gstep V keyOf init upd) data [])) ->
  get (fold_left (gstep V keyOf init upd) data []) (label v) = Some v.
Proof.
  intro Hin. unfold values in Hin. apply in_map_iff in Hin.
  destruct Hin as [[k v'] [Hv He]]. simpl in Hv. subst v'.
  pose proof (labelled_fold V keyOf init upd label label_init label_upd data []
                (Forall_nil _)) as Hlab.
  rewrite Forall_forall in Hlab. pose proof (Hlab _ He) as Hl. simpl in Hl.
  rewrite Hl. apply (get_of_member V _ (k, v)); trivial.
  apply keys_fold_NoDupA.
Qed.

Lemma member_weightQ (w : V -> Q) (c : Item -> Q) (data : list Item) (v : V) :
  (forall k, w (init k) == 0) ->
  (forall d x, w (upd d x) == w x + c d) ->
  In v (values (fold_left (gstep V keyOf init upd) data [])) ->
  w v == sumQ (List.map c (membersOf keyOf (label v) data)).
Proof.
  intros Hi Hu Hin. unfold membersOf.
  rewrite <- (atQ_fold V keyOf init upd w c Hi Hu data (label v)).
  unfold weightAt. now rewrite (member_get data v Hin).
Qed.

Lemma member_weightN (w : V -> nat) (c : Item -> nat) (data : list Item) (v : V) :
  (forall k, w (init k) = 0%nat) ->
  (forall d x, w (upd d x) = (w x + c d)%nat) ->
  In v (values (fold_left (gstep V keyOf init upd) data [])) ->
  w v = sumN (List.map c (membersOf keyOf (label v) data)).
Proof.
  intros Hi Hu Hin. unfold membersOf.
  rewrite <- (atN_fold V keyOf init upd w c Hi Hu data (label v)).
  unfold weightAt. now rewrite (member_get data v Hin).
Qed.

Lemma member_has_records (data : list Item) (v : V) :
  In v (values (fold_left (gstep V keyOf init upd) data [])) ->
  membersOf keyOf (label v) data <> [].
Proof.
  intro Hin.
  assert (Hm : memK (label v) (List.map keyOf data) = true).
  { rewrite <- memK_firstSeen, <- (labels_fold V keyOf init upd label label_init label_upd).
    apply memK_InA. apply In_InA; [apply eqK_equiv|]. now apply in_map. }
  unfold memK in Hm. rewrite existsb_exists in Hm.
  destruct Hm as [k [Hk Hs]]. apply in_map_iff in Hk. destruct Hk as [d [<- Hd]].
  intro E. assert (Hd' : In d (membersOf keyOf (label v) data)).
  { apply filter_In. split; trivial. }
  rewrite E in Hd'. exact Hd'.
Qed.

End MemberWeights.

(** [aggregate] of FugitiveAnalytics divides each sum by the count of its
    own group: every average it returns is the mean over the records of
    the group, and no group is empty. *)
Lemma fugitive_averages_are_group_means (key : string) (data : list Item)
  (s : FugitiveAnalytics.Summary) :
  In s (FugitiveAnalytics.aggregate key data) ->
  let members :=
    membersOf (FugitiveAnalytics.groupKey key) (FugitiveAnalytics.category s) data in
  members <> []
  /\ FugitiveAnalytics.avgConvFactor s == meanOf "convFactor" members
  /\ FugitiveAnalytics.avgRIntensity s == meanOf "rIntensity" members
  /\ FugitiveAnalytics.avgPPPIntensity s == meanOf "pppIntensity" members.
Proof.
  unfold FugitiveAnalytics.aggregate. rewrite in_map_iff.
  intros [v [<- Hin]]. cbv zeta.
  rewrite fugitive_aggregateMap_gfold in Hin.
  change (FugitiveAnalytics.category (FugitiveAnalytics.summarise v))
    with (FugitiveAnalytics.acc_category v).
  pose proof (member_has_records _ (FugitiveAnalytics.groupKey key) fugitiveInit
                fugitiveUpd FugitiveAnalytics.acc_category
                (fun _ => eq_refl) (fun _ _ => eq_refl) data v Hin) as Hne.
  pose proof (member_weightN _ (FugitiveAnalytics.groupKey key) fugitiveInit
                fugitiveUpd FugitiveAnalytics.acc_category
                (fun _ => eq_refl) (fun _ _ => eq_refl)
                FugitiveAnalytics.count (fun _ => 1%nat) data v
                (fun _ => eq_refl) (fun _ _ => eq_refl) Hin) as Hc.
  rewrite sumN_ones in Hc.
  split; [exact Hne|].
  assert (Havg : forall sum, FugitiveAnalytics.average sum (FugitiveAnalytics.count v)
                  = sum / inject_Z (Z.of_nat (FugitiveAnalytics.count v))).
  { intro sum. unfold FugitiveAnalytics.average.
    destruct (FugitiveAnalytics.count v) eqn:E; trivial.
    exfalso. apply Hne. apply length_zero_iff_nil. congruence. }
  unfold FugitiveAnalytics.summarise; simpl. rewrite !Havg. unfold meanOf.
  rewrite <- Hc.
  repeat split; apply Qdiv_comp; try reflexivity;
    apply (member_weightQ _ (FugitiveAnalytics.groupKey key) fugitiveInit
             fugitiveUpd FugitiveAnalytics.acc_category
             (fun _ => eq_refl) (fun _ _ => eq_refl)); trivial;
    intros; simpl; reflexivity.
Qed.

(** C5 fails on [byType] of FossilFuelAnalytics.  With one record of type
    Coal (conversion factor 4) and one of type Gas (conversion factor 6)
    the averages it reports are 4/2 and 6/2: each sum is divided by the
    number of all records, not by the count of the group.  The means over
    the groups are 4 and 6.  And a group whose quantity adds up to 0 gets
    the average 0 although it has a record and its sum is 4. *)
Theorem C5_fossil_fuel_average_divides_by_all_records :
  List.map (fun t => (FossilFuelAnalytics.type t, Qred (FossilFuelAnalytics.avgConvFactor t)))
    (FossilFuelAnalytics.byType fossilSample)
  = [ (VStr (js "Coal"), 2); (VStr (js "Gas"), 3) ]
  /\ List.map (fun t =>
       Qred (meanOf "convFactor"
               (membersOf (fun d => orElse (prop d "type") Unknown)
                  (FossilFuelAnalytics.type t) fossilSample)))
       (FossilFuelAnalytics.byType fossilSample)
     = [ 4; 6 ]
  /\ List.map (fun t => Qred (FossilFuelAnalytics.avgConvFactor t))
       (FossilFuelAnalytics.byType fossilNoQuantity) = [ 0 ]
  /\ Qred (meanOf "convFactor" fossilNoQuantity) = 4.
Proof. repeat split. Qed.

(** ** Numeric coercion *)

Arguments isDigit c : simpl never.
Arguments isWhite c : simpl never.
Arguments N.eqb n m : simpl never.

Ltac char_arith :=
  unfold stops, specSymbol, scope3Leading, opennessLeading, Scope3Analytics.stripped,
    DiversityDataAnalytics.stripped, OpennessAnalytics.stripped, isDigit, isWhite,
    ch_tab, ch_space, ch_dollar, ch_percent, ch_plus, ch_comma, ch_minus, ch_dot,
    ch_E, ch_e, ch_pound, ch_yen, ch_euro, ch_rupee, ch_a_circumflex, ch_low_quote,
    ch_superscript1, ch_I in *;
  repeat first
    [ rewrite orb_true_iff in * | rewrite andb_true_iff in *
    | rewrite orb_false_iff in * | rewrite andb_false_iff in *
    | rewrite negb_true_iff in * | rewrite negb_false_iff in *
    | rewrite N.eqb_eq in * | rewrite N.eqb_neq in *
    | rewrite N.leb_le in * | rewrite N.leb_gt in * ];
  lia.

Lemma digit_facts (c : jchar) :
  isDigit c = true ->
  isWhite c = false /\ (c =? ch_minus)%N = false /\ (c =? ch_plus)%N = false
  /\ (c =? 73)%N = false /\ specSymbol c = false.
Proof.
  intro H. repeat split; char_arith.
Qed.

Lemma spanDigits_app (ds rest : jstring) :
  allDigits ds = true ->
  match rest with [] => True | c :: _ => isDigit c = false end ->
  spanDigits (ds ++ rest) = (ds, rest).
Proof.
  intros Hd Hr. induction ds as [|d ds IH]; simpl in *.
  - destruct rest as [|c r]; simpl; trivial. now rewrite Hr.
  - apply andb_true_iff in Hd. destruct Hd as [H1 H2].
    rewrite H1, IH; trivial.
Qed.

Lemma trimEnd_app_nonwhite (a : jstring) (c : jchar) (b : jstring) :
  isWhite c = false -> trimEnd (a ++ c :: b) = a ++ c :: trimEnd b.
Proof.
  intro Hc. induction a as [|x a IH]; simpl.
  - destruct (trimEnd b); trivial. now rewrite Hc.
  - rewrite IH. destruct a; reflexivity.
Qed.

Lemma trimEnd_Forall (P : jchar -> Prop) (s : jstring) :
  Forall P s -> Forall P (trimEnd s).
Proof.
  induction 1 as [|c s Hc Hs IH]; simpl; [constructor|].
  destruct (trimEnd s) as [|y r].
  - destruct (isWhite c); constructor; trivial.
  - constructor; trivial.
Qed.

Lemma trimStart_white (w rest : jstring) :
  forallb isWhite w = true -> trimStart (w ++ rest) = trimStart rest.
Proof.
  induction w as [|c w IH]; simpl; trivial.
  intro H. apply andb_true_iff in H. destruct H as [H1 H2]. now rewrite H1, IH.
Qed.

Lemma removeAll_app (cls : jchar -> bool) (a b : jstring) :
  removeAll cls (a ++ b) = removeAll cls a ++ removeAll cls b.
Proof. apply filter_app. Qed.

Lemma removeAll_keep (cls : jchar -> bool) (s : jstring) :
  forallb (fun c => negb (cls c)) s = true -> removeAll cls s = s.
Proof.
  unfold removeAll. induction s as [|c s IH]; simpl; trivial.
  intro H. apply andb_true_iff in H. destruct H as [H1 H2]. now rewrite H1, IH.
Qed.

(** the shape of a numeral *)
Lemma numeral_head (neg : bool) (ip fp : jstring) :
  ip <> [] -> allDigits ip = true ->
  exists c r, numeral neg ip fp = c :: r /\ isWhite c = false.
Proof.
  intros Hne Hd. destruct ip as [|d ip]; [contradiction|].
  simpl in Hd. apply andb_true_iff in Hd. destruct Hd as [Hd _].
  destruct neg; simpl.
  - exists ch_minus. eexists. split; reflexivity.
  - exists d. eexists. split; [reflexivity|]. now apply digit_facts.
Qed.

Lemma numeral_last (neg : bool) (ip fp : jstring) :
  ip <> [] -> allDigits ip = true -> allDigits fp = true ->
  exists a c, numeral neg ip fp = a ++ [c] /\ isWhite c = false.
Proof.
  intros Hne Hi Hf. unfold numeral.
  assert (L : forall ds : jstring, ds <> [] -> allDigits ds = true ->
              exists a c, ds = a ++ [c] /\ isWhite c = false).
  { intros ds Hds Hall. destruct (exists_last Hds) as [a [c ->]].
    exists a, c. split; trivial.
    unfold allDigits in Hall. rewrite forallb_app in Hall.
    apply andb_true_iff in Hall. destruct Hall as [_ Hc]. simpl in Hc.
    rewrite andb_true_r in Hc. now apply digit_facts. }
  destruct fp as [|f fp].
  - destruct (L ip Hne Hi) as [a [c [-> Hc]]].
    exists ((if neg then [ch_minus] else []) ++ a), c.
    rewrite app_nil_r, app_assoc. auto.
  - destruct (L (f :: fp)) as [a [c [E Hc]]]; [discriminate | exact Hf |].
    exists ((if neg then [ch_minus] else []) ++ ip ++ ch_dot :: a), c.
    rewrite E. split; trivial.
    rewrite <- !app_assoc. simpl. reflexivity.
Qed.

(** [parseFloat] reads a numeral that is followed by nothing or by
    characters that end a number *)
Lemma parseFloat_numeral (neg : bool) (ip fp t : jstring) :
  ip <> [] -> allDigits ip = true -> allDigits fp = true ->
  forallb stops t = true ->
  parseFloat (numeral neg ip fp ++ t) = Fin (numeralValue neg ip fp).
Proof.
  intros Hne Hi Hf Ht.
  destruct ip as [|d ip]; [contradiction|].
  pose proof Hi as Hi'. simpl in Hi'. apply andb_true_iff in Hi'.
  destruct Hi' as [Hd Hip].
  destruct (digit_facts d Hd) as (Dw & Dm & Dp & DI & _).
  assert (Hstop : match t with [] => True
                  | c :: _ => isDigit c = false /\ (c =? ch_dot)%N = false
                              /\ (c =? ch_e)%N = false /\ (c =? ch_E)%N = false end).
  { destruct t as [|c t]; trivial. simpl in Ht. unfold stops in Ht.
    apply andb_true_iff in Ht. destruct Ht as [Hc _].
    repeat (apply andb_true_iff in Hc; destruct Hc as [Hc ?]).
    repeat split; now apply negb_true_iff. }
  assert (Hexp : readExponent t = 0%Z).
  { destruct t as [|c t]; trivial. destruct Hstop as (_ & _ & He & HE).
    simpl. now rewrite He, HE. }
  set (frac := match fp with [] => [] | _ => ch_dot :: fp end).
  assert (Hbody : readSign (trimStart (numeral neg (d :: ip) fp ++ t))
                   = (neg, (d :: ip) ++ frac ++ t)).
  { unfold numeral. fold frac. rewrite <- !app_assoc. destruct neg; simpl.
    - reflexivity.
    - rewrite Dw. simpl. now rewrite Dm, Dp. }
  unfold parseFloat. rewrite Hbody.
  assert (Hinf : startsWith (js "Infinity") ((d :: ip) ++ frac ++ t) = false).
  { simpl. rewrite N.eqb_sym. now rewrite DI. }
  rewrite Hinf.
  assert (Hspan : spanDigits ((d :: ip) ++ frac ++ t) = (d :: ip, frac ++ t)).
  { apply spanDigits_app; trivial. unfold frac. destruct fp as [|f fp]; simpl.
    - destruct t; trivial. tauto.
    - reflexivity. }
  rewrite Hspan. cbv beta iota zeta.
  assert (Hfrac : match frac ++ t with
                  | c :: r => if (c =? ch_dot)%N then spanDigits r else ([], frac ++ t)
                  | [] => ([], frac ++ t)
                  end = (fp, t)).
  { unfold frac. destruct fp as [|f fp]; cbn [app].
    - destruct t as [|c t]; trivial. destruct Hstop as (_ & Hdot & _). now rewrite Hdot.
    - rewrite N.eqb_refl.
      change (f :: fp ++ t) with ((f :: fp) ++ t). apply spanDigits_app; trivial.
      destruct t; trivial. tauto. }
  match goal with
  | |- (let (_, _) := ?X in _) = _ =>
      assert (HX : X = (fp, t)) by exact Hfrac; rewrite HX
  end.
  cbv beta iota zeta. cbn [app]. rewrite Hexp.
  unfold numeralValue. cbn [app].
  change (0 - Z.of_nat (List.length fp))%Z with (- Z.of_nat (List.length fp))%Z.
  reflexivity.
Qed.

Lemma forallb_Forall {A : Type} (p : A -> bool) (l : list A) :
  forallb p l = true <-> Forall (fun x => p x = true) l.
Proof. rewrite forallb_forall, Forall_forall. reflexivity. Qed.

Lemma removeAll_Forall (cls : jchar -> bool) (P : jchar -> Prop) (s : jstring) :
  Forall P s -> Forall P (removeAll cls s).
Proof.
  intro H. unfold removeAll. rewrite Forall_forall in *.
  intros x Hx. apply filter_In in Hx. now apply H.
Qed.

Lemma trimStart_Forall (P : jchar -> Prop) (s : jstring) :
  Forall P s -> Forall P (trimStart s).
Proof.
  induction 1 as [|c s Hc Hs IH]; simpl; [constructor|].
  destruct (isWhite c); trivial. now constructor.
Qed.

Lemma trimStart_nonwhite (c : jchar) (r : jstring) :
  isWhite c = false -> trimStart (c :: r) = c :: r.
Proof. intro H. simpl. now rewrite H. Qed.

Lemma trimEnd_idem (s : jstring) : trimEnd (trimEnd s) = trimEnd s.
Proof.
  induction s as [|c s IH]; simpl; trivial.
  destruct (trimEnd s) as [|y r] eqn:E.
  - destruct (isWhite c) eqn:W; simpl; trivial. now rewrite W.
  - simpl in *. rewrite IH. reflexivity.
Qed.

Lemma trimStart_head (s : jstring) :
  match trimStart s with [] => True | c :: _ => isWhite c = false end.
Proof.
  induction s as [|c s IH]; simpl; trivial.
  destruct (isWhite c) eqn:W; [exact IH | exact W].
Qed.

Lemma trim_head (s : jstring) :
  match trim s with [] => True | c :: _ => isWhite c = false end.
Proof.
  unfold trim. pose proof (trimStart_head s) as H.
  destruct (trimStart s) as [|c r]; simpl; trivial.
  pose proof (trimEnd_app_nonwhite [] c r H) as E. cbn [app] in E.
  change (match trimEnd (c :: r) with [] => True | c0 :: _ => isWhite c0 = false end).
  now rewrite E.
Qed.

Lemma trimStart_trim (s : jstring) : trimStart (trim s) = trim s.
Proof.
  pose proof (trim_head s) as H. destruct (trim s) as [|c r]; trivial.
  now apply trimStart_nonwhite.
Qed.

Lemma trim_idem (s : jstring) : trim (trim s) = trim s.
Proof.
  unfold trim at 1. rewrite trimStart_trim. unfold trim. apply trimEnd_idem.
Qed.

Lemma spanDigits_nondigit (s : jstring) :
  match s with c :: _ => isDigit c = false | [] => True end -> spanDigits s = ([], s).
Proof. destruct s as [|c r]; simpl; trivial. now intros ->. Qed.

Lemma spanDigits_digit (c : jchar) (r : jstring) :
  isDigit c = true -> fst (spanDigits (c :: r)) <> [].
Proof. intro H. simpl. rewrite H. destruct (spanDigits r). discriminate. Qed.

(** [parseFloat] fails exactly on the texts that, white space skipped,
    do not begin with a number *)
Lemma parseFloat_NaN_iff (x : jstring) :
  parseFloat x = NaN <-> beginsNumber (trimStart x) = false.
Proof.
  unfold parseFloat, beginsNumber.
  destruct (readSign (trimStart x)) as [neg body]. cbn [snd].
  destruct (startsWith (js "Infinity") body) eqn:Einf; cbn [orb].
  { split; discriminate. }
  destruct body as [|c r].
  { simpl. split; reflexivity. }
  destruct (isDigit c) eqn:Dc; cbn [orb].
  - pose proof (spanDigits_digit c r Dc) as Hne.
    destruct (spanDigits (c :: r)) as [ip r1]. cbn [fst] in Hne.
    destruct (match r1 with
              | c0 :: r0 => if (c0 =? ch_dot)%N then spanDigits r0 else ([], r1)
              | [] => ([], r1)
              end) as [fp r2].
    destruct ip as [|i ip]; [contradiction|]. simpl. split; discriminate.
  - rewrite (spanDigits_nondigit (c :: r)) by exact Dc.
    destruct (c =? ch_dot)%N eqn:Edot; cbn [andb].
    + destruct r as [|d r'].
      * simpl. split; reflexivity.
      * destruct (isDigit d) eqn:Dd.
        -- pose proof (spanDigits_digit d r' Dd) as Hne.
           destruct (spanDigits (d :: r')) as [fp r2]. cbn [fst] in Hne.
           destruct fp as [|f fp]; [contradiction|]. simpl. split; discriminate.
        -- rewrite (spanDigits_nondigit (d :: r')) by exact Dd. simpl.
           split; reflexivity.
    + simpl. split; reflexivity.
Qed.

Section Cleaning.
Variable cls : jchar -> bool.
Variable leading : jchar -> bool.
Hypothesis leading_ok : forall c, leading c = true -> cls c = true \/ isWhite c = true.
Hypothesis trailing_ok : forall c, specSymbol c = true -> cls c = true \/ stops c = true.
Hypothesis digits_kept : forall c, isDigit c = true -> cls c = false.
Hypothesis minus_kept : cls ch_minus = false.
Hypothesis dot_kept : cls ch_dot = false.

Lemma removeAll_numeral (neg : bool) (ip fp : jstring) :
  allDigits ip = true -> allDigits fp = true ->
  removeAll cls (numeral neg ip fp) = numeral neg ip fp.
Proof.
  intros Hi Hf. apply removeAll_keep. unfold numeral.
  assert (D : forall ds, allDigits ds = true ->
              forallb (fun c => negb (cls c)) ds = true).
  { intros ds H. unfold allDigits in H. rewrite forallb_forall in *.
    intros c Hc. now rewrite digits_kept by auto. }
  rewrite !forallb_app, (D ip Hi).
  destruct neg, fp as [|f fp]; simpl; rewrite ?minus_kept, ?dot_kept; simpl; trivial;
    apply (D (f :: fp) Hf).
Qed.

Lemma removeAll_leading (pre : jstring) :
  forallb leading pre = true -> forallb isWhite (removeAll cls pre) = true.
Proof.
  unfold removeAll. induction pre as [|c pre IH]; simpl; trivial.
  intro H. apply andb_true_iff in H. destruct H as [Hc Hp].
  destruct (cls c) eqn:E; simpl; [now apply IH|].
  destruct (leading_ok c Hc) as [Hx | Hx]; [congruence|].
  now rewrite Hx, IH.
Qed.

Lemma removeAll_trailing (suf : jstring) :
  forallb specSymbol suf = true -> Forall (fun c => stops c = true) (removeAll cls suf).
Proof.
  unfold removeAll. induction suf as [|c suf IH]; simpl; [constructor|].
  intro H. apply andb_true_iff in H. destruct H as [Hc Hs].
  destruct (cls c) eqn:E; simpl; [now apply IH|].
  constructor; [|now apply IH].
  destruct (trailing_ok c Hc) as [Hx | Hx]; [congruence | exact Hx].
Qed.

(** stripping, trimming and parsing a currency-formatted numeral gives the
    number it denotes *)
Lemma clean_parse_numeral (pre : jstring) (neg : bool) (ip fp suf : jstring) :
  forallb leading pre = true ->
  ip <> [] -> allDigits ip = true -> allDigits fp = true ->
  forallb specSymbol suf = true ->
  parseFloat (trim (removeAll cls (currencyFormatted pre neg ip fp suf)))
  = Fin (numeralValue neg ip fp).
Proof.
  intros Hpre Hne Hi Hf Hsuf. unfold currencyFormatted.
  rewrite !removeAll_app, removeAll_numeral by trivial.
  unfold trim. rewrite trimStart_white by (now apply removeAll_leading).
  destruct (numeral_head neg ip fp Hne Hi) as [c [r [E Hc]]].
  assert (Hs : trimStart (numeral neg ip fp ++ removeAll cls suf)
               = numeral neg ip fp ++ removeAll cls suf).
  { rewrite E. simpl. now rewrite Hc. }
  rewrite Hs.
  destruct (numeral_last neg ip fp Hne Hi Hf) as [a [z [E2 Hz]]].
  rewrite E2, <- app_assoc. simpl.
  rewrite trimEnd_app_nonwhite by exact Hz.
  change (a ++ z :: trimEnd (removeAll cls suf))
    with (a ++ [z] ++ trimEnd (removeAll cls suf)).
  rewrite app_assoc, <- E2.
  apply parseFloat_numeral; trivial.
  apply forallb_Forall, trimEnd_Forall, removeAll_trailing, Hsuf.
Qed.

End Cleaning.

Lemma scope3_leading_ok (c : jchar) :
  scope3Leading c = true -> Scope3Analytics.stripped c = true \/ isWhite c = true.
Proof. unfold scope3Leading. now rewrite orb_true_iff. Qed.

Lemma scope3_trailing_ok (c : jchar) :
  specSymbol c = true -> Scope3Analytics.stripped c = true \/ stops c = true.
Proof. intro H. char_arith. Qed.

Lemma scope3_digits_kept (c : jchar) :
  isDigit c = true -> Scope3Analytics.stripped c = false.
Proof. intro H. char_arith. Qed.

Lemma openness_leading_ok (c : jchar) :
  opennessLeading c = true -> OpennessAnalytics.stripped c = true \/ isWhite c = true.
Proof. intro H. char_arith. Qed.

Lemma openness_trailing_ok (c : jchar) :
  specSymbol c = true -> OpennessAnalytics.stripped c = true \/ stops c = true.
Proof. intro H. char_arith. Qed.

Lemma openness_digits_kept (c : jchar) :
  isDigit c = true -> OpennessAnalytics.stripped c = false.
Proof. intro H. char_arith. Qed.

Lemma currencyFormatted_nonempty (pre : jstring) (neg : bool) (ip fp suf : jstring) :
  ip <> [] -> exists c r, currencyFormatted pre neg ip fp suf = c :: r.
Proof.
  intro Hne. destruct (currencyFormatted pre neg ip fp suf) as [|c r] eqn:E.
  - exfalso. unfold currencyFormatted, numeral in E.
    apply app_eq_nil in E. destruct E as [_ E].
    apply app_eq_nil in E. destruct E as [E _].
    apply app_eq_nil in E. destruct E as [_ E].
    apply app_eq_nil in E. destruct E as [E _]. contradiction.
  - eauto.
Qed.

Lemma scope3_parseNumeric_string (c : jchar) (r : jstring) :
  Scope3Analytics.parseNumeric (VStr (c :: r))
  = let parsed := parseFloat (trim (removeAll Scope3Analytics.stripped (c :: r))) in
    if isNaN parsed then Fin 0 else parsed.
Proof. reflexivity. Qed.

Lemma openness_parseNumeric_string (numberToString : Q -> jstring) (c : jchar)
  (r : jstring) :
  OpennessAnalytics.parseNumeric numberToString (VStr (c :: r))
  = let parsed := parseFloat (trim (removeAll OpennessAnalytics.stripped (c :: r))) in
    if isNaN parsed then Fin 0 else parsed.
Proof. reflexivity. Qed.


Lemma scope3_parse_fails (s : jstring) :
  beginsNumber (cleaned Scope3Analytics.stripped s) = false ->
  Scope3Analytics.parseNumeric (VStr s) = Fin 0.
Proof.
  intro H. destruct s as [|c r]; [reflexivity|].
  rewrite scope3_parseNumeric_string. cbv zeta.
  assert (E : parseFloat (trim (removeAll Scope3Analytics.stripped (c :: r))) = NaN).
  { apply parseFloat_NaN_iff. rewrite trimStart_trim. exact H. }
  now rewrite E.
Qed.

Lemma openness_parse_fails (numberToString : Q -> jstring) (s : jstring) :
  beginsNumber (cleaned OpennessAnalytics.stripped s) = false ->
  OpennessAnalytics.parseNumeric numberToString (VStr s) = Fin 0.
Proof.
  intro H. destruct s as [|c r]; [reflexivity|].
  rewrite openness_parseNumeric_string. cbv zeta.
  assert (E : parseFloat (trim (removeAll OpennessAnalytics.stripped (c :: r))) = NaN).
  { apply parseFloat_NaN_iff. rewrite trimStart_trim. exact H. }
  now rewrite E.
Qed.



(** ** Header discovery *)

Section Scan.
Variable p : list JsVal -> bool.

Lemma scanWith_None (i : nat) (w : list SheetRow) :
  scanWith p i w = None <-> forallb (fun r => negb (qualifies p r)) w = true.
Proof.
  revert i. induction w as [|r w IH]; intro i; simpl.
  - tauto.
  - destruct r as [row|]; simpl.
    + destruct (p row); simpl; [split; discriminate | apply IH].
    + apply IH.
Qed.

Lemma scanWith_Some (i : nat) (w : list SheetRow) (j : nat) (row : list JsVal) :
  scanWith p i w = Some (j, row) <->
  exists k, j = (i + k)%nat /\ nth_error w k = Some (Some row) /\ p row = true
            /\ forall k', (k' < k)%nat -> qualifies p (nth k' w None) = false.
Proof.
  revert i. induction w as [|r w IH]; intro i; simpl.
  - split; [discriminate|]. intros [k (_ & H & _)]. destruct k; discriminate.
  - assert (Hrest : scanWith p (S i) w = Some (j, row) <->
              exists k, j = (i + S k)%nat /\ nth_error w k = Some (Some row)
                        /\ p row = true
                        /\ forall k', (k' < k)%nat -> qualifies p (nth k' w None) = false).
    { rewrite IH. split; intros [k (H1 & H2)]; exists k; split; trivial; lia. }
    assert (Hskip : qualifies p r = false ->
              (scanWith p (S i) w = Some (j, row) <->
               exists k, j = (i + k)%nat /\ nth_error (r :: w) k = Some (Some row)
                         /\ p row = true
                         /\ forall k', (k' < k)%nat ->
                                       qualifies p (nth k' (r :: w) None) = false)).
    { intro Hq. rewrite Hrest. split.
      - intros [k (H1 & H2 & H3 & H4)]. exists (S k). repeat split; trivial.
        intros [|k'] Hk; simpl; trivial. apply H4. lia.
      - intros [[|k] (H1 & H2 & H3 & H4)].
        + simpl in H2. injection H2 as ->. simpl in Hq. congruence.
        + exists k. repeat split; trivial.
          intros k' Hk. apply (H4 (S k')). lia. }
    destruct r as [r0|]; [|now apply Hskip].
    destruct (p r0) eqn:E; [|now apply Hskip].
    split.
    + intros [= <- <-]. exists 0%nat.
      split; [lia|]. split; [reflexivity|]. split; [exact E|].
      intros k' Hk. lia.
    + intros [[|k] (H1 & H2 & H3 & H4)].
      * simpl in H2. injection H2 as <-. f_equal. f_equal. lia.
      * specialize (H4 0%nat ltac:(lia)). simpl in H4. congruence.
Qed.

Lemma nth_error_firstn_lt {A : Type} (l : list A) (n k : nat) :
  (k < n)%nat -> nth_error (firstn n l) k = nth_error l k.
Proof.
  revert l k. induction n as [|n IH]; intros l k Hk; [lia|].
  destruct l as [|x l]; simpl; trivial.
  destruct k as [|k]; simpl; trivial. apply IH. lia.
Qed.

Lemma nth_firstn_lt {A : Type} (l : list A) (n k : nat) (d : A) :
  (k < n)%nat -> nth k (firstn n l) d = nth k l d.
Proof.
  revert l k. induction n as [|n IH]; intros l k Hk; [lia|].
  destruct l as [|x l]; simpl; [now destruct k|].
  destruct k as [|k]; simpl; trivial. apply IH. lia.
Qed.

(** the scan of the first ten rows finds the first row that qualifies *)
Lemma scan_finds_first (rows : list SheetRow) (i : nat) (headers : list JsVal) :
  isFirstMatch p rows i headers ->
  scanWith p 0 (firstn (scanned rows) rows) = Some (i, headers).
Proof.
  intros (Hi & Hn & Hp & Hbefore). apply scanWith_Some. exists i.
  repeat split; trivial.
  - now rewrite nth_error_firstn_lt.
  - intros k Hk. rewrite nth_firstn_lt by lia. now apply Hbefore.
Qed.

Lemma scan_finds_none (rows : list SheetRow) :
  noMatch p rows -> scanWith p 0 (firstn (scanned rows) rows) = None.
Proof.
  intro H. apply scanWith_None. apply forallb_forall. intros r Hr.
  apply (In_nth _ _ None) in Hr. destruct Hr as [k [Hk <-]].
  rewrite length_firstn in Hk.
  assert (Hk' : (k < scanned rows)%nat) by (unfold scanned in *; lia).
  rewrite nth_firstn_lt by exact Hk'. now rewrite H.
Qed.

(** and nothing else: a result of the scan is a first match *)
Lemma scan_result_is_first (rows : list SheetRow) (i : nat) (headers : list JsVal) :
  scanWith p 0 (firstn (scanned rows) rows) = Some (i, headers) ->
  isFirstMatch p rows i headers.
Proof.
  intro H. apply scanWith_Some in H. destruct H as [k (-> & Hn & Hp & Hb)]. simpl.
  assert (Hk : (k < scanned rows)%nat).
  { assert (Hl : (k < List.length (firstn (scanned rows) rows))%nat).
    { apply nth_error_Some. congruence. }
    rewrite length_firstn in Hl. unfold scanned in *. lia. }
  repeat split; trivial.
  - now rewrite nth_error_firstn_lt in Hn.
  - intros k' Hk'. rewrite <- (nth_firstn_lt rows (scanned rows)) by lia. now apply Hb.
Qed.

End Scan.

Lemma scope3_scanHeader_scanWith (i : nat) (w : list SheetRow) :
  Scope3Analytics.scanHeader i w = scanWith Scope3Analytics.hasAllCols i w.
Proof.
  revert i. induction w as [|[row|] w IH]; intro i; simpl; trivial.
  now rewrite IH.
Qed.

Lemma diversity_scanHeader_scanWith (i : nat) (w : list SheetRow) :
  DiversityDataAnalytics.scanHeader i w = scanWith DiversityDataAnalytics.isHeaderRow i w.
Proof.
  revert i. induction w as [|[row|] w IH]; intro i; simpl; trivial.
  now rewrite IH.
Qed.

Lemma includes_string (row : list JsVal) (s : jstring) :
  includes row (VStr s) = true <-> In (VStr s) row.
Proof.
  unfold includes. rewrite existsb_exists. split.
  - intros [c [Hin Hc]]. destruct c; simpl in Hc; try discriminate.
    apply jstring_eqb_eq in Hc. now subst.
  - intro H. exists (VStr s). split; trivial. apply sameValueZero_refl.
Qed.

Lemma scope3_hasAllCols_spec (row : list JsVal) :
  Scope3Analytics.hasAllCols row = true <-> hasEveryLabel Scope3Analytics.fieldMapping row.
Proof.
  unfold Scope3Analytics.hasAllCols, hasEveryLabel. rewrite forallb_forall.
  split; intros H label Hl; apply includes_string; now apply H.
Qed.

Lemma diversity_isHeaderRow_spec (row : list JsVal) :
  DiversityDataAnalytics.isHeaderRow row = true
  <-> hasEveryLabel DiversityDataAnalytics.fieldMapping row.
Proof.
  unfold DiversityDataAnalytics.isHeaderRow, hasEveryLabel. rewrite forallb_forall.
  split; intros H label Hl; apply includes_string; now apply H.
Qed.

(** ** The loaders *)

Lemma loadedFrom_of_map (mapRow : list JsVal -> list JsVal -> Mapped)
  (keep : SheetRow -> bool) (cells : SheetRow -> list JsVal)
  (headers : list JsVal) (dataRows : list SheetRow) :
  match List.map (fun r => mapRow headers (cells r)) (filter keep dataRows) with
  | [] => Failed NoValidDataFound
  | _ :: _ => Loaded (List.map (fun r => mapRow headers (cells r)) (filter keep dataRows))
  end = loadedFrom mapRow keep cells headers dataRows.
Proof. unfold loadedFrom. destruct (filter keep dataRows); reflexivity. Qed.

Lemma loadedFrom_never_empty (mapRow : list JsVal -> list JsVal -> Mapped)
  (keep : SheetRow -> bool) (cells : SheetRow -> list JsVal)
  (headers : list JsVal) (dataRows : list SheetRow) :
  loadedFrom mapRow keep cells headers dataRows <> Loaded [].
Proof. unfold loadedFrom. destruct (filter keep dataRows); discriminate. Qed.

Lemma loadedFrom_none_kept (mapRow : list JsVal -> list JsVal -> Mapped)
  (keep : SheetRow -> bool) (cells : SheetRow -> list JsVal)
  (headers : list JsVal) (dataRows : list SheetRow) :
  filter keep dataRows = [] ->
  loadedFrom mapRow keep cells headers dataRows = Failed NoValidDataFound.
Proof. unfold loadedFrom. now intros ->. Qed.

Lemma scope3_processRows_cases (numberToString : Q -> jstring) (rows : list SheetRow) :
  Scope3Analytics.processRows numberToString rows
  = if (List.length rows <? 2)%nat then Failed TooFewRows
    else match scanWith Scope3Analytics.hasAllCols 0 (firstn (scanned rows) rows) with
         | None => Failed HeaderRowNotFound
         | Some (i, headers) =>
             loadedFrom (Scope3Analytics.mapRow numberToString)
               Scope3Analytics.keepRow Scope3Analytics.cellsOf headers
               (skipn (i + 1) rows)
         end.
Proof.
  unfold Scope3Analytics.processRows, Scope3Analytics.findHeader.
  rewrite scope3_scanHeader_scanWith. fold (scanned rows).
  destruct (List.length rows <? 2)%nat; trivial.
  destruct (scanWith Scope3Analytics.hasAllCols 0 (firstn (scanned rows) rows))
    as [[i headers]|]; trivial.
  rewrite <- loadedFrom_of_map.
  destruct (List.map _ (filter Scope3Analytics.keepRow (skipn (i + 1) rows)));
    reflexivity.
Qed.

Lemma diversity_processRows_cases (numberToString : Q -> jstring) (rows : list SheetRow) :
  DiversityDataAnalytics.processRows numberToString rows
  = if (List.length rows <? 2)%nat then Failed TooFewRows
    else match scanWith DiversityDataAnalytics.isHeaderRow 0 (firstn (scanned rows) rows) with
         | None => Failed HeaderRowNotFound
         | Some (i, headers) =>
             loadedFrom (DiversityDataAnalytics.mapRow numberToString)
               DiversityDataAnalytics.keepRow DiversityDataAnalytics.cellsOf headers
               (skipn (i + 1) rows)
         end.
Proof.
  unfold DiversityDataAnalytics.processRows, DiversityDataAnalytics.findHeader.
  rewrite diversity_scanHeader_scanWith. fold (scanned rows).
  destruct (List.length rows <? 2)%nat; trivial.
  destruct (scanWith DiversityDataAnalytics.isHeaderRow 0 (firstn (scanned rows) rows))
    as [[i headers]|]; trivial.
  apply loadedFrom_of_map.
Qed.

Lemma openness_processRows_cases (numberToString : Q -> jstring) (rawRows : list SheetRow) :
  OpennessAnalytics.processRows numberToString rawRows
  = match nth_error rawRows 4 with
    | Some (Some headerRow) =>
        loadedFrom
          (fun headers cells =>
             OpennessAnalytics.buildRow numberToString
               (OpennessAnalytics.buildColIndexMap [] headers 0) cells)
          OpennessAnalytics.keepRow OpennessAnalytics.cellsOf headerRow
          (skipn 5 rawRows)
    | _ => Failed TypeError
    end.
Proof.
  unfold OpennessAnalytics.processRows.
  destruct (nth_error rawRows 4) as [[headerRow|]|]; trivial.
  apply (loadedFrom_of_map
           (fun headers cells =>
              OpennessAnalytics.buildRow numberToString
                (OpennessAnalytics.buildColIndexMap [] headers 0) cells)).
Qed.

Lemma not_too_few (rows : list SheetRow) :
  (2 <= List.length rows)%nat -> (List.length rows <? 2)%nat = false.
Proof. intro H. apply Nat.ltb_ge. exact H. Qed.

Lemma existsb_nonEmptyCell (cells : list JsVal) :
  existsb nonEmptyCell cells = false <-> blankCells cells.
Proof.
  unfold blankCells. induction cells as [|c cells IH]; simpl.
  - split; [constructor | reflexivity].
  - rewrite orb_false_iff, IH. split.
    + intros [Hc Hr]. constructor; trivial.
      destruct c as [| | |q|[|x s]]; simpl in Hc; try discriminate; auto.
    + intro H. inversion H as [|c' l Hc Hr]; subst. split; trivial.
      destruct Hc as [-> | [-> | ->]]; reflexivity.
Qed.

Lemma scope3_noMatch_fails (numberToString : Q -> jstring) (rows : list SheetRow) :
  (2 <= List.length rows)%nat ->
  noMatch Scope3Analytics.hasAllCols rows ->
  Scope3Analytics.processRows numberToString rows = Failed HeaderRowNotFound
  /\ Scope3Analytics.uploadStatus numberToString rows = error.
Proof.
  intros Hlen Hm. pose proof (scan_finds_none _ rows Hm) as Hs.
  assert (E : Scope3Analytics.processRows numberToString rows = Failed HeaderRowNotFound)
    by (now rewrite scope3_processRows_cases, (not_too_few rows Hlen), Hs).
  split; trivial. unfold Scope3Analytics.uploadStatus. now rewrite E.
Qed.

Lemma diversity_noMatch_fails (numberToString : Q -> jstring) (rows : list SheetRow) :
  (2 <= List.length rows)%nat ->
  noMatch DiversityDataAnalytics.isHeaderRow rows ->
  DiversityDataAnalytics.processRows numberToString rows = Failed HeaderRowNotFound
  /\ DiversityDataAnalytics.uploadStatus numberToString rows = error.
Proof.
  intros Hlen Hm. pose proof (scan_finds_none _ rows Hm) as Hs.
  assert (E : DiversityDataAnalytics.processRows numberToString rows
              = Failed HeaderRowNotFound)
    by (now rewrite diversity_processRows_cases, (not_too_few rows Hlen), Hs).
  split; trivial. unfold DiversityDataAnalytics.uploadStatus. now rewrite E.
Qed.

(** C3 as stated fails on a sheet with fewer than two rows: no row of the
    scanned window holds the labels, and the load fails with the
    condition 'Excel must contain header and data rows', which is raised
    before any row is scanned, not with 'header row not found'. *)
Lemma C3_counterexample_single_row :
  let rows : list SheetRow := [Some [VStr (js "Sr.No."); VStr (js "Plant")]] in
  noMatch Scope3Analytics.hasAllCols rows
  /\ noMatch DiversityDataAnalytics.isHeaderRow rows
  /\ (forall numberToString,
        Scope3Analytics.processRows numberToString rows = Failed TooFewRows)
  /\ (forall numberToString,
        DiversityDataAnalytics.processRows numberToString rows = Failed TooFewRows)
  /\ @Failed Mapped TooFewRows <> Failed HeaderRowNotFound.
Proof.
  cbv zeta. repeat split; try discriminate.
  - intros k Hk. destruct k as [|k]; [reflexivity|]. unfold scanned in Hk. simpl in Hk. lia.
  - intros k Hk. destruct k as [|k]; [reflexivity|]. unfold scanned in Hk. simpl in Hk. lia.
Qed.

(** C3 (amended).  For every sheet with at least two rows the loader
    scans the rows with index below [min 10 rowCount] and takes the first
    of them that is an array holding every label of the field mapping as a
    cell (exact match, in any order); the rows after it are the data rows.
    When no scanned row qualifies the load fails with 'header row not
    found', which the handler turns into the [error] status.  (A sheet
    with fewer than two rows fails before the scan.) *)
Theorem C3_scan_selects_first_matching_row :
  forall (numberToString : Q -> jstring) (rows : list SheetRow),
    (2 <= List.length rows)%nat ->
    (forall row, Scope3Analytics.hasAllCols row = true
                 <-> hasEveryLabel Scope3Analytics.fieldMapping row)
    /\ (forall i headers,
          isFirstMatch Scope3Analytics.hasAllCols rows i headers ->
          Scope3Analytics.findHeader rows = Some (i, headers)
          /\ Scope3Analytics.processRows numberToString rows
             = loadedFrom (Scope3Analytics.mapRow numberToString)
                 Scope3Analytics.keepRow Scope3Analytics.cellsOf headers
                 (skipn (i + 1) rows))
    /\ (noMatch Scope3Analytics.hasAllCols rows ->
          Scope3Analytics.processRows numberToString rows = Failed HeaderRowNotFound
          /\ Scope3Analytics.uploadStatus numberToString rows = error)
    /\ (forall row, DiversityDataAnalytics.isHeaderRow row = true
                    <-> hasEveryLabel DiversityDataAnalytics.fieldMapping row)
    /\ (forall i headers,
          isFirstMatch DiversityDataAnalytics.isHeaderRow rows i headers ->
          DiversityDataAnalytics.findHeader rows = Some (i, headers)
          /\ DiversityDataAnalytics.processRows numberToString rows
             = loadedFrom (DiversityDataAnalytics.mapRow numberToString)
                 DiversityDataAnalytics.keepRow DiversityDataAnalytics.cellsOf headers
                 (skipn (i + 1) rows))
    /\ (noMatch DiversityDataAnalytics.isHeaderRow rows ->
          DiversityDataAnalytics.processRows numberToString rows = Failed HeaderRowNotFound
          /\ DiversityDataAnalytics.uploadStatus numberToString rows = error).
Proof.
  intros numberToString rows Hlen.
  pose proof (not_too_few rows Hlen) as Hn.
  split; [apply scope3_hasAllCols_spec|].
  split; [|split; [|split; [apply diversity_isHeaderRow_spec|split]]].
  - intros i headers Hm.
    pose proof (scan_finds_first _ rows i headers Hm) as Hs. split.
    + unfold Scope3Analytics.findHeader. rewrite scope3_scanHeader_scanWith. exact Hs.
    + now rewrite scope3_processRows_cases, Hn, Hs.
  - now apply scope3_noMatch_fails.
  - intros i headers Hm.
    pose proof (scan_finds_first _ rows i headers Hm) as Hs. split.
    + unfold DiversityDataAnalytics.findHeader.
      rewrite diversity_scanHeader_scanWith. exact Hs.
    + now rewrite diversity_processRows_cases, Hn, Hs.
  - now apply diversity_noMatch_fails.
Qed.

Lemma C3_witness :
  Scope3Analytics.findHeader scope3Sheet
    = Some (3%nat, headerOf Scope3Analytics.fieldMapping)
  /\ Scope3Analytics.processRows (fun _ => js "1") scope3Sheet
     = loadedFrom (Scope3Analytics.mapRow (fun _ => js "1"))
         Scope3Analytics.keepRow Scope3Analytics.cellsOf
         (headerOf Scope3Analytics.fieldMapping) (skipn 4 scope3Sheet)
  /\ List.length (filter Scope3Analytics.keepRow (skipn 4 scope3Sheet)) = 2%nat.
Proof.
  assert (Hlen : (2 <= List.length scope3Sheet)%nat) by (simpl; lia).
  destruct (C3_scan_selects_first_matching_row (fun _ => js "1") scope3Sheet Hlen)
    as (_ & H & _).
  destruct (H 3%nat (headerOf Scope3Analytics.fieldMapping)) as [H1 H2].
  - unfold isFirstMatch. split; [unfold scanned; simpl; lia|].
    split; [reflexivity|]. split; [reflexivity|].
    intros k Hk. destruct k as [|[|[|k]]]; try reflexivity. lia.
  - split; [exact H1|]. split; [exact H2 | reflexivity].
Defined.

(** ** Blank rows and empty loads *)

Lemma loadedFrom_NoValidDataFound (mapRow : list JsVal -> list JsVal -> Mapped)
  (keep : SheetRow -> bool) (cells : SheetRow -> list JsVal)
  (headers : list JsVal) (dataRows : list SheetRow) :
  loadedFrom mapRow keep cells headers dataRows = Failed NoValidDataFound
  <-> filter keep dataRows = [].
Proof.
  split; [|apply loadedFrom_none_kept].
  unfold loadedFrom. destruct (filter keep dataRows); [trivial | discriminate].
Qed.

Lemma scope3_short_sheet (numberToString : Q -> jstring) (rows : list SheetRow) :
  (List.length rows < 2)%nat ->
  Scope3Analytics.processRows numberToString rows = Failed TooFewRows.
Proof.
  intro H. unfold Scope3Analytics.processRows.
  apply Nat.ltb_lt in H. now rewrite H.
Qed.

Lemma diversity_short_sheet (numberToString : Q -> jstring) (rows : list SheetRow) :
  (List.length rows < 2)%nat ->
  DiversityDataAnalytics.processRows numberToString rows = Failed TooFewRows.
Proof.
  intro H. unfold DiversityDataAnalytics.processRows.
  apply Nat.ltb_lt in H. now rewrite H.
Qed.

Lemma scope3_findHeader_scan (rows : list SheetRow) :
  Scope3Analytics.findHeader rows
  = scanWith Scope3Analytics.hasAllCols 0 (firstn (scanned rows) rows).
Proof. unfold Scope3Analytics.findHeader. apply scope3_scanHeader_scanWith. Qed.

(** C8 as stated fails on a sheet that holds the header row and nothing
    else: no data row is left, and the load fails with 'Excel must
    contain header and data rows', not with 'no valid data found'.  In
    OpennessAnalytics a sheet of fewer than five rows has no data row
    either and fails on the read of the missing row 4. *)
Lemma C8_counterexample_header_only_sheet :
  let rows : list SheetRow := [Some (headerOf Scope3Analytics.fieldMapping)] in
  Scope3Analytics.findHeader rows = Some (0%nat, headerOf Scope3Analytics.fieldMapping)
  /\ filter Scope3Analytics.keepRow (skipn 1 rows) = []
  /\ (forall numberToString,
        Scope3Analytics.processRows numberToString rows = Failed TooFewRows)
  /\ filter OpennessAnalytics.keepRow (skipn 5 rows) = []
  /\ (forall numberToString,
        OpennessAnalytics.processRows numberToString rows = Failed TypeError)
  /\ @Failed Mapped TooFewRows <> Failed NoValidDataFound
  /\ @Failed Mapped TypeError <> Failed NoValidDataFound.
Proof. cbv zeta. repeat split; discriminate. Qed.

(** C8 (amended).  In file-sourced loading every data row whose cells are
    all null, undefined or empty is skipped, and the record sequence of a
    successful load is never empty.  The load fails with 'no valid data
    found' exactly when the sheet has its header row and no data row is
    left after the filtering: in Scope3Analytics a sheet of at least two
    rows in which the scan finds the header, the data rows being those
    after it; in OpennessAnalytics a sheet whose row 4 is an array, the
    data rows being those from row 5 on.  A Scope3Analytics sheet of fewer
    than two rows fails with 'Excel must contain header and data rows',
    an OpennessAnalytics sheet without an array on row 4 with a type
    error; every failed load gives the [error] status. *)
Theorem C8_blank_rows_skipped_and_empty_load_fails :
  forall (numberToString : Q -> jstring) (rows : list SheetRow),
    (forall cells, Scope3Analytics.keepRow (Some cells) = false <-> blankCells cells)
    /\ (forall cells, OpennessAnalytics.keepRow (Some cells) = false <-> blankCells cells)
    /\ Scope3Analytics.processRows numberToString rows <> Loaded []
    /\ OpennessAnalytics.processRows numberToString rows <> Loaded []
    /\ (forall i headers,
          (2 <= List.length rows)%nat ->
          Scope3Analytics.findHeader rows = Some (i, headers) ->
          let dataRows := skipn (i + 1) rows in
          Scope3Analytics.processRows numberToString rows
            = loadedFrom (Scope3Analytics.mapRow numberToString)
                Scope3Analytics.keepRow Scope3Analytics.cellsOf headers dataRows
          /\ (filter Scope3Analytics.keepRow dataRows = [] ->
              Scope3Analytics.processRows numberToString rows = Failed NoValidDataFound
              /\ Scope3Analytics.uploadStatus numberToString rows = error)
          /\ (forall data,
                Scope3Analytics.processRows numberToString rows = Loaded data ->
                data = List.map (fun r => Scope3Analytics.mapRow numberToString headers
                                            (Scope3Analytics.cellsOf r))
                         (filter Scope3Analytics.keepRow dataRows)))
    /\ (forall headerRow,
          nth_error rows 4 = Some (Some headerRow) ->
          let dataRows := skipn 5 rows in
          let colIndexMap := OpennessAnalytics.buildColIndexMap [] headerRow 0 in
          (filter OpennessAnalytics.keepRow dataRows = [] ->
           OpennessAnalytics.processRows numberToString rows = Failed NoValidDataFound
           /\ OpennessAnalytics.uploadStatus numberToString rows = error)
          /\ (forall data,
                OpennessAnalytics.processRows numberToString rows = Loaded data ->
                data = List.map (fun r => OpennessAnalytics.buildRow numberToString
                                            colIndexMap (OpennessAnalytics.cellsOf r))
                         (filter OpennessAnalytics.keepRow dataRows)))
    /\ (Scope3Analytics.processRows numberToString rows = Failed NoValidDataFound
        <-> (2 <= List.length rows)%nat
            /\ exists i headers,
                 Scope3Analytics.findHeader rows = Some (i, headers)
                 /\ filter Scope3Analytics.keepRow (skipn (i + 1) rows) = [])
    /\ (OpennessAnalytics.processRows numberToString rows = Failed NoValidDataFound
        <-> exists headerRow,
              nth_error rows 4 = Some (Some headerRow)
              /\ filter OpennessAnalytics.keepRow (skipn 5 rows) = [])
    /\ ((List.length rows < 2)%nat ->
        Scope3Analytics.processRows numberToString rows = Failed TooFewRows
        /\ Scope3Analytics.uploadStatus numberToString rows = error)
    /\ ((forall headerRow, nth_error rows 4 <> Some (Some headerRow)) ->
        OpennessAnalytics.processRows numberToString rows = Failed TypeError
        /\ OpennessAnalytics.uploadStatus numberToString rows = error)
    /\ (forall e, Scope3Analytics.processRows numberToString rows = Failed e ->
                  Scope3Analytics.uploadStatus numberToString rows = error)
    /\ (forall e, OpennessAnalytics.processRows numberToString rows = Failed e ->
                  OpennessAnalytics.uploadStatus numberToString rows = error).
Proof.
  intros numberToString rows.
  split; [intro cells; apply existsb_nonEmptyCell|].
  split; [intro cells; apply existsb_nonEmptyCell|].
  split.
  { rewrite scope3_processRows_cases.
    destruct (List.length rows <? 2)%nat; [discriminate|].
    destruct (scanWith _ 0 _) as [[i headers]|]; [|discriminate].
    apply loadedFrom_never_empty. }
  split.
  { rewrite openness_processRows_cases.
    destruct (nth_error rows 4) as [[headerRow|]|]; try discriminate.
    apply loadedFrom_never_empty. }
  split.
  { intros i headers Hlen Hfind dataRows.
    assert (E : Scope3Analytics.processRows numberToString rows
                = loadedFrom (Scope3Analytics.mapRow numberToString)
                    Scope3Analytics.keepRow Scope3Analytics.cellsOf headers dataRows).
    { rewrite scope3_processRows_cases, (not_too_few rows Hlen).
      unfold Scope3Analytics.findHeader in Hfind.
      rewrite scope3_scanHeader_scanWith in Hfind. fold (scanned rows) in Hfind.
      now rewrite Hfind. }
    split; [exact E|]. split.
    + intro Hnone. unfold Scope3Analytics.uploadStatus. rewrite E.
      rewrite loadedFrom_none_kept by exact Hnone. split; reflexivity.
    + intros data Hd. rewrite E in Hd. unfold loadedFrom in Hd.
      destruct (filter Scope3Analytics.keepRow dataRows); [discriminate|].
      now injection Hd as <-. }
  split.
  { intros headerRow Hrow dataRows colIndexMap.
    assert (E : OpennessAnalytics.processRows numberToString rows
                = loadedFrom
                    (fun headers cells =>
                       OpennessAnalytics.buildRow numberToString
                         (OpennessAnalytics.buildColIndexMap [] headers 0) cells)
                    OpennessAnalytics.keepRow OpennessAnalytics.cellsOf headerRow dataRows).
    { now rewrite openness_processRows_cases, Hrow. }
    split.
    + intro Hnone. unfold OpennessAnalytics.uploadStatus. rewrite E.
      rewrite loadedFrom_none_kept by exact Hnone. split; reflexivity.
    + intros data Hd. rewrite E in Hd. unfold loadedFrom in Hd.
      destruct (filter OpennessAnalytics.keepRow dataRows); [discriminate|].
      now injection Hd as <-. }
  split.
  { rewrite scope3_processRows_cases, scope3_findHeader_scan.
    destruct (List.length rows <? 2)%nat eqn:El.
    - split; [discriminate|]. intros [Hlen _]. apply Nat.ltb_lt in El. lia.
    - apply Nat.ltb_ge in El.
      destruct (scanWith _ 0 _) as [[i headers]|].
      + rewrite loadedFrom_NoValidDataFound. split.
        * intro H. split; trivial. now exists i, headers.
        * intros [_ [i' [h' [E H]]]]. now injection E as <- <-.
      + split; [discriminate|]. intros [_ [i' [h' [E _]]]]. discriminate E. }
  split.
  { rewrite openness_processRows_cases.
    destruct (nth_error rows 4) as [[headerRow|]|].
    - rewrite loadedFrom_NoValidDataFound. split.
      + intro H. now exists headerRow.
      + now intros [h' [_ H]].
    - split; [discriminate|]. intros [h' [E _]]. discriminate E.
    - split; [discriminate|]. intros [h' [E _]]. discriminate E. }
  split.
  { intro H. unfold Scope3Analytics.uploadStatus.
    rewrite (scope3_short_sheet numberToString rows H). split; reflexivity. }
  split.
  { intro H. unfold OpennessAnalytics.uploadStatus.
    rewrite openness_processRows_cases.
    destruct (nth_error rows 4) as [[headerRow|]|]; try (split; reflexivity).
    now destruct (H headerRow). }
  split.
  - intros e E. unfold Scope3Analytics.uploadStatus. now rewrite E.
  - intros e E. unfold OpennessAnalytics.uploadStatus. now rewrite E.
Qed.

Lemma C8_witness :
  let rows := firstn 4 scope3Sheet ++ [Some [VNull; VStr []; VUndefined]; Some []] in
  Scope3Analytics.processRows (fun _ => js "1") rows = Failed NoValidDataFound
  /\ Scope3Analytics.uploadStatus (fun _ => js "1") rows = error.
Proof.
  cbv zeta.
  set (rows := firstn 4 scope3Sheet ++ [Some [VNull; VStr []; VUndefined]; Some []]).
  assert (Hlen : (2 <= List.length rows)%nat) by (simpl; lia).
  destruct (C8_blank_rows_skipped_and_empty_load_fails (fun _ => js "1") rows)
    as (_ & _ & _ & _ & H & _).
  destruct (H 3%nat (headerOf Scope3Analytics.fieldMapping) Hlen eq_refl)
    as (_ & H2 & _).
  apply H2. reflexivity.
Defined.

(** ** The header row must hold every label of the mapping *)

Lemma missing_label_noMatch (mapping : list (string * string))
  (p : list JsVal -> bool) (cells : SheetRow -> list JsVal) (rows : list SheetRow) :
  (forall row, p row = true <-> hasEveryLabel mapping row) ->
  (forall row, cells (Some row) = row) ->
  (forall k, (k < scanned rows)%nat ->
             exists label,
               In label (List.map fst mapping)
               /\ ~ In (VStr (js label)) (cells (nth k rows None))) ->
  noMatch p rows.
Proof.
  intros Hp Hc Hmiss k Hk. destruct (Hmiss k Hk) as [label [Hl Hn]].
  destruct (nth k rows None) as [row|]; simpl in *; trivial.
  destruct (p row) eqn:E; trivial.
  exfalso. apply Hn. rewrite Hc. apply Hp in E. now apply E.
Qed.

(** C10 as stated fails on a sheet of one row: the row lacks the label
    "Sr No", and the load fails with 'Excel must contain headers and
    rows', raised before any row is examined, not with 'header row not
    found'. *)
Lemma C10_counterexample_one_row_sheet :
  let rows : list SheetRow := firstn 1 diversitySheetWithoutSrNo in
  In "Sr No" (List.map fst DiversityDataAnalytics.fieldMapping)
  /\ ~ In (VStr (js "Sr No")) (DiversityDataAnalytics.cellsOf (nth 0 rows None))
  /\ scanned rows = 1%nat
  /\ (forall numberToString,
        DiversityDataAnalytics.processRows numberToString rows = Failed TooFewRows)
  /\ @Failed Mapped TooFewRows <> Failed HeaderRowNotFound.
Proof.
  cbv zeta. split; [simpl; tauto|]. split.
  - intro H; simpl in H;
      repeat (destruct H as [H | H]; [discriminate H|]); exact H.
  - repeat split; discriminate.
Qed.

(** C10 (amended).  A row is taken as the header row only if it holds
    every key of the whole field mapping, the alternate spellings "Sr.No."
    and "Sr No" of DiversityDataAnalytics included.  A sheet in which
    every scanned row lacks at least one of the labels has no header row
    and is rejected: with 'header row not found' when it has at least two
    rows, with 'Excel must contain headers and rows' when it has fewer;
    either way the status is [error].  The same holds of
    Scope3Analytics. *)
Theorem C10_every_mapped_label_is_required :
  forall (numberToString : Q -> jstring) (rows : list SheetRow),
    (forall row, DiversityDataAnalytics.isHeaderRow row = true
                 <-> hasEveryLabel DiversityDataAnalytics.fieldMapping row)
    /\ In "Sr.No." (List.map fst DiversityDataAnalytics.fieldMapping)
    /\ In "Sr No" (List.map fst DiversityDataAnalytics.fieldMapping)
    /\ (forall row, Scope3Analytics.hasAllCols row = true
                    <-> hasEveryLabel Scope3Analytics.fieldMapping row)
    /\ ((forall k, (k < scanned rows)%nat ->
           exists label,
             In label (List.map fst DiversityDataAnalytics.fieldMapping)
             /\ ~ In (VStr (js label))
                    (DiversityDataAnalytics.cellsOf (nth k rows None))) ->
        DiversityDataAnalytics.findHeader rows = None
        /\ ((2 <= List.length rows)%nat ->
            DiversityDataAnalytics.processRows numberToString rows
            = Failed HeaderRowNotFound)
        /\ ((List.length rows < 2)%nat ->
            DiversityDataAnalytics.processRows numberToString rows = Failed TooFewRows)
        /\ DiversityDataAnalytics.uploadStatus numberToString rows = error)
    /\ ((forall k, (k < scanned rows)%nat ->
           exists label,
             In label (List.map fst Scope3Analytics.fieldMapping)
             /\ ~ In (VStr (js label)) (Scope3Analytics.cellsOf (nth k rows None))) ->
        Scope3Analytics.findHeader rows = None
        /\ ((2 <= List.length rows)%nat ->
            Scope3Analytics.processRows numberToString rows = Failed HeaderRowNotFound)
        /\ ((List.length rows < 2)%nat ->
            Scope3Analytics.processRows numberToString rows = Failed TooFewRows)
        /\ Scope3Analytics.uploadStatus numberToString rows = error).
Proof.
  intros numberToString rows.
  split; [apply diversity_isHeaderRow_spec|].
  split; [simpl; tauto|]. split; [simpl; tauto|].
  split; [apply scope3_hasAllCols_spec|].
  split.
  - intro Hmiss.
    assert (Hno : noMatch DiversityDataAnalytics.isHeaderRow rows).
    { apply (missing_label_noMatch DiversityDataAnalytics.fieldMapping _
               DiversityDataAnalytics.cellsOf); trivial.
      apply diversity_isHeaderRow_spec. }
    split.
    { unfold DiversityDataAnalytics.findHeader. rewrite diversity_scanHeader_scanWith.
      now apply scan_finds_none. }
    split; [intro Hlen; now apply diversity_noMatch_fails|].
    split; [apply diversity_short_sheet|].
    destruct (Nat.lt_ge_cases (List.length rows) 2) as [Hs | Hl].
    + unfold DiversityDataAnalytics.uploadStatus.
      now rewrite (diversity_short_sheet numberToString rows Hs).
    + now apply diversity_noMatch_fails.
  - intro Hmiss.
    assert (Hno : noMatch Scope3Analytics.hasAllCols rows).
    { apply (missing_label_noMatch Scope3Analytics.fieldMapping _
               Scope3Analytics.cellsOf); trivial.
      apply scope3_hasAllCols_spec. }
    split.
    { rewrite scope3_findHeader_scan. now apply scan_finds_none. }
    split; [intro Hlen; now apply scope3_noMatch_fails|].
    split; [apply scope3_short_sheet|].
    destruct (Nat.lt_ge_cases (List.length rows) 2) as [Hs | Hl].
    + unfold Scope3Analytics.uploadStatus.
      now rewrite (scope3_short_sheet numberToString rows Hs).
    + now apply scope3_noMatch_fails.
Qed.

Lemma C10_witness :
  DiversityDataAnalytics.processRows (fun _ => js "1") diversitySheetWithoutSrNo
    = Failed HeaderRowNotFound
  /\ DiversityDataAnalytics.uploadStatus (fun _ => js "1") diversitySheetWithoutSrNo = error.
Proof.
  assert (Hlen : (2 <= List.length diversitySheetWithoutSrNo)%nat) by (simpl; lia).
  assert (Hmiss : forall k, (k < scanned diversitySheetWithoutSrNo)%nat ->
            exists label,
              In label (List.map fst DiversityDataAnalytics.fieldMapping)
              /\ ~ In (VStr (js label))
                     (DiversityDataAnalytics.cellsOf (nth k diversitySheetWithoutSrNo None))).
  { intros k Hk. exists "Sr No". split; [simpl; tauto|].
    destruct k as [|[|k]]; [| |unfold scanned in Hk; simpl in Hk; lia];
      intro H; simpl in H;
      repeat (destruct H as [H | H]; [discriminate H|]); exact H. }
  destruct (C10_every_mapped_label_is_required (fun _ => js "1")
              diversitySheetWithoutSrNo) as (_ & _ & _ & _ & H & _).
  destruct (H Hmiss) as (_ & H1 & _ & H2).
  split; [exact (H1 Hlen) | exact H2].
Defined.

(** ** Worked examples *)

Example coerce_rupee_amount :
  Scope3Analytics.parseNumeric (VStr (ch_rupee :: js "1,234.50")) = Fin (123450 # 100)
  /\ 123450 # 100 == 1234.5
  /\ Scope3Analytics.parseNumeric (VStr []) = Fin 0
  /\ Scope3Analytics.parseNumeric VNull = Fin 0.
Proof. repeat split. Qed.

Example coerce_keeps_leading_number :
  Scope3Analytics.parseNumeric (VStr (js "12abc")) = Fin 12
  /\ Scope3Analytics.parseNumeric (VStr (js "abc12")) = Fin 0
  /\ Scope3Analytics.parseNumeric (VStr (js "Infinity")) = Inf false.
Proof. repeat split. Qed.

Example water_two_records :
  let rec q := mkItem [("parameter", VStr (js "Water")); ("month", VStr (js "January"))]
                      [("quantity", q)] in
  WaterAnalytics.analytics [rec 100; rec 200]
  = WaterAnalytics.mkAnalytics 300 0 [WaterAnalytics.mkGroup (VStr (js "Water")) 300 0 2].
Proof. reflexivity. Qed.

Example first_seen_order :
  firstSeen [VStr (js "b"); VStr (js "a"); VStr (js "b"); Unknown; VStr (js "a")]
  = [VStr (js "b"); VStr (js "a"); Unknown].
Proof. reflexivity. Qed.

Example top_contributors_keep_first_seen_order_on_ties :
  let rec k v := mkItem [("subCategory", VStr (js k))] [("totalValue", v)] in
  List.map Scope3Analytics.category
    (Scope3Analytics.topContributors
       (Scope3Analytics.analytics
          [rec "a" 5; rec "b" 7; rec "c" 5; rec "a" 2; rec "d" 7; rec "e" 1;
           rec "f" 9; rec "g" 7]))
  = [VStr (js "f"); VStr (js "a"); VStr (js "b"); VStr (js "d"); VStr (js "g")].
Proof. reflexivity. Qed.

Example electricity_missing_department :
  let rec props q := mkItem props [("quantity", q); ("convFactor", 2)] in
  ElectricityDataAnalytics.department
    (ElectricityDataAnalytics.byCategory
       [rec [("department", VStr (js "Ops"))] 1; rec [] 2;
        rec [("department", VStr [])] 3; rec [("department", VNull)] 4])
  = [ ElectricityDataAnalytics.mkGroup (VStr (js "Ops")) 1 2 1;
      ElectricityDataAnalytics.mkGroup Unknown 9 18 3 ].
Proof. reflexivity. Qed.

(* ================================================================== *)
(** * Further properties *)
(* ================================================================== *)

(** ** Records built from sheet rows *)

Lemma lookup_assign {A : Type} (m : list (string * A)) (k k' : string) (v : A) :
  lookup (assign m k v) k' = if String.eqb k k' then Some v else lookup m k'.
Proof.
  induction m as [|[k0 v0] m IH]; simpl.
  - reflexivity.
  - destruct (String.eqb k0 k) eqn:E; simpl.
    + apply String.eqb_eq in E. subst k0. destruct (String.eqb k k'); reflexivity.
    + rewrite IH. destruct (String.eqb k0 k') eqn:E1; trivial.
      destruct (String.eqb k k') eqn:E2; trivial.
      apply String.eqb_eq in E1, E2. subst. rewrite String.eqb_refl in E. discriminate.
Qed.

Lemma keys_assign {A : Type} (m : list (string * A)) (k : string) (v : A) :
  List.map fst (assign m k v)
  = if existsb (String.eqb k) (List.map fst m) then List.map fst m
    else List.map fst m ++ [k].
Proof.
  induction m as [|[k0 v0] m IH]; simpl; trivial.
  rewrite (String.eqb_sym k k0).
  destruct (String.eqb k0 k) eqn:E; simpl.
  - apply String.eqb_eq in E. now subst.
  - rewrite IH. destruct (existsb (String.eqb k) (List.map fst m)); reflexivity.
Qed.

Lemma existsb_eqb_In (k : string) (l : list string) :
  existsb (String.eqb k) l = true <-> In k l.
Proof.
  rewrite existsb_exists. split.
  - intros [x [Hin E]]. apply String.eqb_eq in E. now subst.
  - intro H. exists k. split; trivial. apply String.eqb_refl.
Qed.

Lemma lookup_In {A : Type} (m : list (string * A)) (k : string) :
  (exists v, lookup m k = Some v) <-> In k (List.map fst m).
Proof.
  induction m as [|[k0 v0] m IH]; simpl.
  - split; [intros [v H]; discriminate | tauto].
  - destruct (String.eqb k0 k) eqn:E.
    + apply String.eqb_eq in E. subst. split; eauto.
    + rewrite IH. split; auto. intros [H | H]; trivial.
      subst. rewrite String.eqb_refl in E. discriminate.
Qed.

Section MapCells.
Variable mapping : list (string * string).
Variable numericFields : list string.
Variable parse : JsVal -> Num.
Variable numberToString : Q -> jstring.
Hypothesis parse_number : forall v, parse v <> NaN.
Hypothesis labels_found :
  Forall (fun e => List.find (fun e' => jstring_eqb (js (fst e')) (js (fst e))) mapping
                   = Some e) mapping.

Local Abbreviation mapCell := (mapCellWith mapping numericFields parse numberToString).
Local Abbreviation mapCellsWith :=
  (mapCellsWith mapping numericFields parse numberToString).
Local Abbreviation partialRecord := (partialRecord mapping numericFields).

Lemma partial_assign (rec : Mapped) (key : string) (v : Field) :
  partialRecord rec ->
  In key (List.map snd mapping) ->
  (if existsb (String.eqb key) numericFields then isNumberField v else isTextField v) ->
  partialRecord (assign rec key v).
Proof.
  intros (Hnd & Hin & Hty) Hk Hv. unfold partialRecord.
  rewrite keys_assign. split; [|split].
  - destruct (existsb (String.eqb key) (List.map fst rec)) eqn:E; trivial.
    apply NoDup_app; trivial.
    + repeat constructor. intros [].
    + intros x Hx [E0 | []]. subst x.
      assert (existsb (String.eqb key) (List.map fst rec) = true)
        by (now apply existsb_eqb_In).
      congruence.
  - intros k. destruct (existsb (String.eqb key) (List.map fst rec)); [apply Hin|].
    intro H. apply in_app_or in H. destruct H as [H | [<- | []]]; auto.
  - intros k w. rewrite lookup_assign.
    destruct (String.eqb key k) eqn:E; [|apply Hty].
    apply String.eqb_eq in E. subst k. now intros [= <-].
Qed.

Lemma partial_mapCell (row : list JsVal) (rec : Mapped) (h : JsVal) (idx : nat) :
  partialRecord rec -> partialRecord (mapCell row rec h idx).
Proof.
  intro Hp. unfold mapCellWith. destruct h; trivial.
  destruct (List.find _ mapping) as [[label key]|] eqn:F; trivial.
  apply find_some in F. destruct F as [Hin _].
  assert (Hk : In key (List.map snd mapping)).
  { change key with (snd (label, key)). now apply in_map. }
  destruct (existsb (String.eqb key) numericFields) eqn:E.
  - apply partial_assign; trivial. rewrite E.
    eexists. split; [reflexivity | apply parse_number].
  - apply partial_assign; trivial. rewrite E.
    eexists. split; [reflexivity|].
    destruct (truthy _); [apply trim_idem | reflexivity].
Qed.

Lemma partial_mapCells (row : list JsVal) (headers : list JsVal) (rec : Mapped)
  (idx : nat) :
  partialRecord rec -> partialRecord (mapCellsWith row rec headers idx).
Proof.
  revert rec idx. induction headers as [|h hs IH]; intros rec idx Hp; simpl; trivial.
  apply IH. now apply partial_mapCell.
Qed.

Lemma mapCell_keeps (row : list JsVal) (rec : Mapped) (h : JsVal) (idx : nat)
  (key : string) :
  In key (List.map fst rec) -> In key (List.map fst (mapCell row rec h idx)).
Proof.
  intro H. unfold mapCellWith. destruct h; trivial.
  destruct (List.find _ mapping) as [[label k]|]; trivial.
  destruct (existsb (String.eqb k) numericFields); rewrite keys_assign;
    destruct (existsb (String.eqb k) (List.map fst rec)); trivial;
    apply in_or_app; now left.
Qed.

Lemma mapCells_keeps (row : list JsVal) (headers : list JsVal) (rec : Mapped)
  (idx : nat) (key : string) :
  In key (List.map fst rec) -> In key (List.map fst (mapCellsWith row rec headers idx)).
Proof.
  revert rec idx. induction headers as [|h hs IH]; intros rec idx H; simpl; trivial.
  apply IH. now apply mapCell_keeps.
Qed.

Lemma mapCell_adds (row : list JsVal) (rec : Mapped) (idx : nat) (e : string * string) :
  In e mapping ->
  In (snd e) (List.map fst (mapCell row rec (VStr (js (fst e))) idx)).
Proof.
  intro He. unfold mapCellWith.
  rewrite Forall_forall in labels_found. rewrite (labels_found e He).
  destruct e as [label key]. simpl.
  destruct (existsb (String.eqb key) numericFields); rewrite keys_assign;
    destruct (existsb (String.eqb key) (List.map fst rec)) eqn:E;
    try (now apply existsb_eqb_In); apply in_or_app; right; simpl; auto.
Qed.

Lemma mapCells_adds (row : list JsVal) (headers : list JsVal) (rec : Mapped)
  (idx : nat) (e : string * string) :
  In e mapping -> In (VStr (js (fst e))) headers ->
  In (snd e) (List.map fst (mapCellsWith row rec headers idx)).
Proof.
  intros He. revert rec idx.
  induction headers as [|h hs IH]; intros rec idx Hin; simpl; [contradiction|].
  destruct Hin as [-> | Hin].
  - apply mapCells_keeps. now apply mapCell_adds.
  - now apply IH.
Qed.

(** a row mapped under a header row that holds every label is a
    canonical record *)
Lemma mapCells_canonical (row headers : list JsVal) :
  hasEveryLabel mapping headers ->
  canonicalRecord mapping numericFields (mapCellsWith row [] headers 0).
Proof.
  intro Hall.
  assert (Hp : partialRecord (mapCellsWith row [] headers 0)).
  { apply partial_mapCells. unfold partialRecord. simpl.
    split; [constructor|]. split; [tauto | discriminate]. }
  destruct Hp as (_ & _ & Hty). unfold canonicalRecord.
  intros key Hk. apply in_map_iff in Hk. destruct Hk as [e [<- He]].
  assert (Hin : In (snd e) (List.map fst (mapCellsWith row [] headers 0))).
  { apply mapCells_adds; trivial. apply Hall. now apply in_map. }
  apply lookup_In in Hin. destruct Hin as [v Hv].
  exists v. split; trivial. now apply Hty.
Qed.

Lemma mapCell_key_from (row : list JsVal) (rec : Mapped) (h : JsVal) (idx : nat)
  (key : string) :
  In key (List.map fst (mapCell row rec h idx)) ->
  In key (List.map fst rec)
  \/ exists e, In e mapping /\ snd e = key /\ h = VStr (js (fst e)).
Proof.
  unfold mapCellWith. destruct h as [| | b | q | label]; auto.
  destruct (List.find _ mapping) as [[l k]|] eqn:F; auto.
  apply find_some in F. destruct F as [Hin Heq]. simpl in Heq.
  apply jstring_eqb_eq in Heq. subst label.
  assert (Hk : In key (List.map fst rec ++ [k]) ->
               In key (List.map fst rec)
               \/ exists e, In e mapping /\ snd e = key /\ VStr (js l) = VStr (js (fst e))).
  { intro H. apply in_app_or in H. destruct H as [H | [<- | []]]; auto.
    right. exists (l, k). auto. }
  destruct (existsb (String.eqb k) numericFields); rewrite keys_assign;
    destruct (existsb (String.eqb k) (List.map fst rec)); auto.
Qed.

Lemma mapCells_key_from (row : list JsVal) (headers : list JsVal) (rec : Mapped)
  (idx : nat) (key : string) :
  In key (List.map fst (mapCellsWith row rec headers idx)) ->
  In key (List.map fst rec)
  \/ exists e, In e mapping /\ snd e = key /\ In (VStr (js (fst e))) headers.
Proof.
  revert rec idx. induction headers as [|h hs IH]; intros rec idx H; simpl in *; auto.
  apply IH in H. destruct H as [H | [e (He & Hk & Hh)]].
  - apply mapCell_key_from in H. destruct H as [H | [e (He & Hk & ->)]]; auto.
    right. exists e. auto.
  - right. exists e. auto.
Qed.

(** what a row mapped under any header row holds *)
Lemma mapCells_recordUnder (row headers : list JsVal) :
  NoDup (List.map snd mapping) ->
  recordUnder mapping numericFields headers (mapCellsWith row [] headers 0).
Proof.
  intros Hinj e He.
  assert (Hp : partialRecord (mapCellsWith row [] headers 0)).
  { apply partial_mapCells. unfold partialRecord. simpl.
    split; [constructor|]. split; [tauto | discriminate]. }
  destruct Hp as (_ & _ & Hty). split; [|intros v Hv; now apply Hty].
  split.
  - intro Hl.
    assert (Hin : In (snd e) (List.map fst (mapCellsWith row [] headers 0))).
    { apply lookup_In. destruct (lookup _ (snd e)) as [v|]; [eauto | contradiction]. }
    apply mapCells_key_from in Hin. destruct Hin as [[] | [e' (He' & Hk & Hh)]].
    assert (e' = e); [|now subst].
    clear - Hinj He He' Hk. induction mapping as [|x l IH]; [contradiction|].
    simpl in Hinj. inversion Hinj as [|? ? Hx Hl]; subst.
    destruct He as [-> | He], He' as [-> | He']; trivial.
    + exfalso. apply Hx. rewrite <- Hk. now apply in_map.
    + exfalso. apply Hx. rewrite Hk. now apply in_map.
    + now apply IH.
  - intro Hh.
    assert (Hin : In (snd e) (List.map fst (mapCellsWith row [] headers 0)))
      by (now apply mapCells_adds).
    apply lookup_In in Hin. destruct Hin as [v Hv]. congruence.
Qed.

End MapCells.

Lemma scope3_parseNumeric_number (v : JsVal) : Scope3Analytics.parseNumeric v <> NaN.
Proof.
  destruct v as [| | b | q | s]; simpl; try discriminate.
  destruct s as [|c r]; [discriminate|].
  destruct (parseFloat _); simpl; discriminate.
Qed.

Lemma diversity_parseNumeric_number (numberToString : Q -> jstring) (v : JsVal) :
  DiversityDataAnalytics.parseNumeric numberToString v <> NaN.
Proof.
  destruct v as [| | b | q | s]; simpl; try discriminate.
  - destruct (parseFloat _); simpl; discriminate.
  - destruct s as [|c r]; [discriminate|].
    destruct (parseFloat _); simpl; discriminate.
Qed.

Lemma scope3_labels_found :
  Forall (fun e => List.find (fun e' => jstring_eqb (js (fst e')) (js (fst e)))
                     Scope3Analytics.fieldMapping = Some e)
    Scope3Analytics.fieldMapping.
Proof. repeat (constructor; [vm_compute; reflexivity|]). constructor. Qed.

Lemma diversity_labels_found :
  Forall (fun e => List.find (fun e' => jstring_eqb (js (fst e')) (js (fst e)))
                     DiversityDataAnalytics.fieldMapping = Some e)
    DiversityDataAnalytics.fieldMapping.
Proof. repeat (constructor; [vm_compute; reflexivity|]). constructor. Qed.

Lemma scope3_mapCells_with (numberToString : Q -> jstring) (row : list JsVal)
  (headers : list JsVal) (mapped : Mapped) (idx : nat) :
  Scope3Analytics.mapCells numberToString row mapped headers idx
  = mapCellsWith Scope3Analytics.fieldMapping Scope3Analytics.numericFields
      Scope3Analytics.parseNumeric numberToString row mapped headers idx.
Proof.
  revert mapped idx. induction headers as [|h hs IH]; intros mapped idx; simpl; trivial.
  rewrite IH. f_equal. destruct h as [| | b | q | s]; trivial.
  destruct s; reflexivity.
Qed.

Lemma diversity_mapCells_with (numberToString : Q -> jstring) (row : list JsVal)
  (headers : list JsVal) (mapped : Mapped) (idx : nat) :
  DiversityDataAnalytics.mapCells numberToString row mapped headers idx
  = mapCellsWith DiversityDataAnalytics.fieldMapping DiversityDataAnalytics.numericFields
      (DiversityDataAnalytics.parseNumeric numberToString) numberToString
      row mapped headers idx.
Proof.
  revert mapped idx. induction headers as [|h hs IH]; intros mapped idx; simpl; trivial.
  rewrite IH. f_equal.
  unfold DiversityDataAnalytics.mapCell, DiversityDataAnalytics.mappedKey, mapCellWith.
  destruct h as [| | b | q | s]; trivial.
  destruct (List.find _ _) as [[label key]|]; reflexivity.
Qed.

Lemma loadedFrom_Loaded (mapRow : list JsVal -> list JsVal -> Mapped)
  (keep : SheetRow -> bool) (cells : SheetRow -> list JsVal)
  (headers : list JsVal) (dataRows : list SheetRow) (data : list Mapped) :
  loadedFrom mapRow keep cells headers dataRows = Loaded data ->
  data <> []
  /\ data = List.map (fun r => mapRow headers (cells r)) (filter keep dataRows).
Proof.
  unfold loadedFrom. destruct (filter keep dataRows) as [|r kept]; [discriminate|].
  intros [= <-]. split; [discriminate | reflexivity].
Qed.

(** X6.  A successful Scope 3 upload gives at least one record, and
    every record holds each of the fourteen canonical keys: the numeric
    ones with a number, never NaN, the others with a string without
    white space at either end.  This holds whatever the order of the
    columns and whatever else the header row contains. *)
Theorem X6_scope3_loaded_records_are_canonical :
  forall (numberToString : Q -> jstring) (rows : list SheetRow) (data : list Mapped),
    Scope3Analytics.processRows numberToString rows = Loaded data ->
    data <> []
    /\ Forall (canonicalRecord Scope3Analytics.fieldMapping Scope3Analytics.numericFields)
         data.
Proof.
  intros nts rows data. rewrite scope3_processRows_cases.
  destruct (List.length rows <? 2)%nat; [discriminate|].
  destruct (scanWith _ 0 _) as [[i headers]|] eqn:E; [|discriminate].
  apply scan_result_is_first in E. destruct E as (_ & _ & Hp & _).
  apply scope3_hasAllCols_spec in Hp.
  intro H. apply loadedFrom_Loaded in H. destruct H as [Hne ->].
  split; trivial. apply Forall_map, Forall_forall. intros r _.
  unfold Scope3Analytics.mapRow. rewrite scope3_mapCells_with.
  apply mapCells_canonical; trivial.
  - apply scope3_parseNumeric_number.
  - apply scope3_labels_found.
Qed.

Lemma X6_witness :
  Forall (canonicalRecord Scope3Analytics.fieldMapping Scope3Analytics.numericFields)
    (match Scope3Analytics.processRows (fun _ => js "1") scope3Sheet with
     | Loaded data => data
     | Failed _ => []
     end).
Proof.
  refine (proj2 (X6_scope3_loaded_records_are_canonical (fun _ => js "1") scope3Sheet _ _)).
  vm_compute. reflexivity.
Defined.

(** X7.  A successful diversity upload gives at least one record, and
    every record holds each canonical key of the mapping: the five
    numeric ones with a number, never NaN, the others with a string
    without white space at either end. *)
Theorem X7_diversity_loaded_records_are_canonical :
  forall (numberToString : Q -> jstring) (rows : list SheetRow) (data : list Mapped),
    DiversityDataAnalytics.processRows numberToString rows = Loaded data ->
    data <> []
    /\ Forall (canonicalRecord DiversityDataAnalytics.fieldMapping
                 DiversityDataAnalytics.numericFields) data.
Proof.
  intros nts rows data. rewrite diversity_processRows_cases.
  destruct (List.length rows <? 2)%nat; [discriminate|].
  destruct (scanWith _ 0 _) as [[i headers]|] eqn:E; [|discriminate].
  apply scan_result_is_first in E. destruct E as (_ & _ & Hp & _).
  apply diversity_isHeaderRow_spec in Hp.
  intro H. apply loadedFrom_Loaded in H. destruct H as [Hne ->].
  split; trivial. apply Forall_map, Forall_forall. intros r _.
  unfold DiversityDataAnalytics.mapRow. rewrite diversity_mapCells_with.
  apply mapCells_canonical; trivial.
  - apply diversity_parseNumeric_number.
  - apply diversity_labels_found.
Qed.

Lemma X7_witness :
  Forall (canonicalRecord DiversityDataAnalytics.fieldMapping
            DiversityDataAnalytics.numericFields)
    (match DiversityDataAnalytics.processRows (fun _ => js "1") diversitySheet with
     | Loaded data => data
     | Failed _ => []
     end).
Proof.
  refine (proj2 (X7_diversity_loaded_records_are_canonical
                   (fun _ => js "1") diversitySheet _ _)).
  vm_compute. reflexivity.
Defined.

(** ** Separators inside a number *)

Lemma trim_numeral (neg : bool) (ip fp : jstring) :
  ip <> [] -> allDigits ip = true -> allDigits fp = true ->
  trim (numeral neg ip fp) = numeral neg ip fp.
Proof.
  intros Hne Hi Hf. unfold trim.
  destruct (numeral_head neg ip fp Hne Hi) as [c [r [E Hc]]].
  assert (Hs : trimStart (numeral neg ip fp) = numeral neg ip fp).
  { rewrite E. now apply trimStart_nonwhite. }
  rewrite Hs.
  destruct (numeral_last neg ip fp Hne Hi Hf) as [a [z [E2 Hz]]].
  rewrite E2. now rewrite trimEnd_app_nonwhite.
Qed.

Lemma parse_separated_numeral (cls : jchar -> bool) (s w : jstring) (neg : bool)
  (ip fp t : jstring) :
  ip <> [] -> allDigits ip = true -> allDigits fp = true ->
  forallb isWhite w = true -> forallb stops t = true ->
  removeAll cls s = w ++ numeral neg ip fp ++ t ->
  s <> [] /\ parseFloat (trim (removeAll cls s)) = Fin (numeralValue neg ip fp).
Proof.
  intros Hne Hi Hf Hw Ht E.
  destruct (numeral_head neg ip fp Hne Hi) as [c [r [Eh Hc]]]. split.
  - intros ->. simpl in E. rewrite Eh in E. destruct w; discriminate.
  - rewrite E. unfold trim. rewrite trimStart_white by exact Hw.
    assert (Hs : trimStart (numeral neg ip fp ++ t) = numeral neg ip fp ++ t).
    { rewrite Eh. simpl. now rewrite Hc. }
    rewrite Hs.
    destruct (numeral_last neg ip fp Hne Hi Hf) as [a [z [E2 Hz]]].
    rewrite E2, <- app_assoc. simpl.
    rewrite trimEnd_app_nonwhite by exact Hz.
    change (a ++ z :: trimEnd t) with (a ++ [z] ++ trimEnd t).
    rewrite app_assoc, <- E2.
    apply parseFloat_numeral; trivial.
    apply forallb_Forall, trimEnd_Forall, forallb_Forall, Ht.
Qed.

(** X8.  The separators that numeric coercion strips (the comma and the
    currency signs) are ignored wherever they stand, and so is any text
    after the number.  When what is left of a string without them is
    white space, a numeral [-?\d+(\.\d+)?] and then text that has no
    digit, dot, "e" or "E" (a unit, a percent sign), the string is
    coerced to the number the numeral denotes: a number with grouping
    commas between its digits is read whole, and "12 kg" is read as 12.
    In Scope3Analytics, FugitiveAnalytics and DiversityDataAnalytics
    alike. *)
Theorem X8_separators_are_ignored_anywhere :
  forall (numberToString : Q -> jstring) (s w : jstring) (neg : bool) (ip fp t : jstring),
    ip <> [] -> allDigits ip = true -> allDigits fp = true ->
    forallb isWhite w = true -> forallb stops t = true ->
    removeAll Scope3Analytics.stripped s = w ++ numeral neg ip fp ++ t ->
    Scope3Analytics.parseNumeric (VStr s) = Fin (numeralValue neg ip fp)
    /\ FugitiveUpload.parseNumeric (VStr s) = Fin (numeralValue neg ip fp)
    /\ DiversityDataAnalytics.parseNumeric numberToString (VStr s)
       = Fin (numeralValue neg ip fp).
Proof.
  intros nts s w neg ip fp t Hne Hi Hf Hw Ht E.
  destruct (parse_separated_numeral _ s w neg ip fp t Hne Hi Hf Hw Ht E) as [Hs Hp].
  destruct s as [|c r]; [contradiction|].
  assert (Hall : (let parsed :=
                    parseFloat (trim (removeAll Scope3Analytics.stripped (c :: r))) in
                  if isNaN parsed then Fin 0 else parsed)
                 = Fin (numeralValue neg ip fp)).
  { cbv zeta. rewrite Hp. reflexivity. }
  split; [|split]; exact Hall.
Qed.

Lemma X8_witness :
  Scope3Analytics.parseNumeric (VStr (ch_rupee :: js " -1,23,456.50 kg"))
  = Fin (numeralValue true (js "123456") (js "50"))
  /\ FugitiveUpload.parseNumeric (VStr (ch_rupee :: js " -1,23,456.50 kg"))
     = Fin (numeralValue true (js "123456") (js "50"))
  /\ DiversityDataAnalytics.parseNumeric (fun _ => js "1")
       (VStr (ch_rupee :: js " -1,23,456.50 kg"))
     = Fin (numeralValue true (js "123456") (js "50")).
Proof.
  apply (X8_separators_are_ignored_anywhere (fun _ => js "1")
           (ch_rupee :: js " -1,23,456.50 kg") (js " ") true (js "123456") (js "50")
           (js " kg"));
    [discriminate | reflexivity | reflexivity | reflexivity | reflexivity | reflexivity].
Defined.

(** ** FugitiveAnalytics: the upload *)

Lemma fugitive_parseNumeric_number (v : JsVal) : FugitiveUpload.parseNumeric v <> NaN.
Proof.
  destruct v as [| | b | q | s]; simpl; try discriminate.
  destruct s as [|c r]; [discriminate|].
  destruct (parseFloat _); simpl; discriminate.
Qed.

Lemma fugitive_labels_found :
  Forall (fun e => List.find (fun e' => jstring_eqb (js (fst e')) (js (fst e)))
                     FugitiveUpload.fieldMapping = Some e)
    FugitiveUpload.fieldMapping.
Proof. repeat (constructor; [vm_compute; reflexivity|]). constructor. Qed.

Lemma fugitive_keys_distinct : NoDup (List.map snd FugitiveUpload.fieldMapping).
Proof.
  apply (NoDup_count_occ' string_dec). intros x Hx.
  simpl in Hx.
  repeat (destruct Hx as [<- | Hx]; [vm_compute; reflexivity|]). contradiction.
Qed.

Lemma fugitive_mapCells_with (numberToString : Q -> jstring) (row : list JsVal)
  (headers : list JsVal) (mapped : Mapped) (idx : nat) :
  FugitiveUpload.mapCells numberToString row mapped headers idx
  = mapCellsWith FugitiveUpload.fieldMapping FugitiveUpload.numericFields
      FugitiveUpload.parseNumeric numberToString row mapped headers idx.
Proof.
  revert mapped idx. induction headers as [|h hs IH]; intros mapped idx; simpl; trivial.
  rewrite IH. f_equal. destruct h as [| | b | q | s]; trivial.
  destruct s as [|c s]; [reflexivity|].
  unfold FugitiveUpload.mapCell, mapCellWith.
  destruct (List.find _ _) as [[label key]|]; trivial.
  cbv zeta. destruct (existsb (String.eqb key) FugitiveUpload.numericFields); reflexivity.
Qed.

Lemma fugitive_processRows_cases (numberToString : Q -> jstring)
  (titles : list SheetRow) (headers : list JsVal) (dataRows : list SheetRow) :
  List.length titles = 4%nat -> dataRows <> [] ->
  FugitiveUpload.processRows numberToString (titles ++ Some headers :: dataRows)
  = loadedFrom (FugitiveUpload.mapRow numberToString) FugitiveUpload.keepRow
      FugitiveUpload.cellsOf headers dataRows.
Proof.
  intros Ht Hd. unfold FugitiveUpload.processRows, loadedFrom.
  destruct titles as [|t0 [|t1 [|t2 [|t3 [|t4 titles]]]]]; try discriminate.
  destruct dataRows as [|r dataRows]; [contradiction|].
  reflexivity.
Qed.

(** X9.  The upload of FugitiveAnalytics takes row 4 of the sheet as the
    header row without looking at its labels.  A sheet with fewer than
    six rows is refused.  Otherwise the four rows above the header are
    ignored; the load fails when no row after the header has a non-empty
    cell, and else gives one record per such row.  A record holds a
    canonical key exactly when the header row holds the label of that
    key, so a column the sheet lacks is a field the records lack; the
    fields it holds are numbers, never NaN, under the five numeric keys
    and trimmed strings under the others. *)
Theorem X9_fugitive_upload_takes_row_4_as_header :
  forall (numberToString : Q -> jstring) (titles titles' : list SheetRow)
         (headers : list JsVal) (dataRows short : list SheetRow),
    List.length titles = 4%nat -> List.length titles' = 4%nat -> dataRows <> [] ->
    (List.length short < 6)%nat ->
    let rows := titles ++ Some headers :: dataRows in
    FugitiveUpload.processRows numberToString short = Failed TooFewRows
    /\ FugitiveUpload.processRows numberToString rows
       = loadedFrom (FugitiveUpload.mapRow numberToString) FugitiveUpload.keepRow
           FugitiveUpload.cellsOf headers dataRows
    /\ FugitiveUpload.processRows numberToString (titles' ++ Some headers :: dataRows)
       = FugitiveUpload.processRows numberToString rows
    /\ (filter FugitiveUpload.keepRow dataRows = [] ->
        FugitiveUpload.uploadStatus numberToString rows = error)
    /\ forall data,
         FugitiveUpload.processRows numberToString rows = Loaded data ->
         List.length data = List.length (filter FugitiveUpload.keepRow dataRows)
         /\ data <> []
         /\ Forall (recordUnder FugitiveUpload.fieldMapping FugitiveUpload.numericFields
                      headers) data.
Proof.
  intros nts titles titles' headers dataRows short Ht Ht' Hd Hs rows. subst rows.
  rewrite !fugitive_processRows_cases by trivial.
  split.
  { unfold FugitiveUpload.processRows.
    apply Nat.ltb_lt in Hs. now rewrite Hs. }
  split; [reflexivity|]. split; [reflexivity|]. split.
  { intro Hf. unfold FugitiveUpload.uploadStatus.
    rewrite fugitive_processRows_cases by trivial.
    unfold loadedFrom. now rewrite Hf. }
  intros data H. apply loadedFrom_Loaded in H. destruct H as [Hne ->].
  split; [apply length_map|]. split; trivial.
  apply Forall_map, Forall_forall. intros r _.
  unfold FugitiveUpload.mapRow. rewrite fugitive_mapCells_with.
  apply mapCells_recordUnder.
  - apply fugitive_parseNumeric_number.
  - apply fugitive_labels_found.
  - apply fugitive_keys_distinct.
Qed.

Lemma X9_witness :
  FugitiveUpload.processRows (fun _ => js "0") (firstn 5 fugitiveSheet)
    = Failed TooFewRows
  /\ FugitiveUpload.processRows (fun _ => js "0") fugitiveSheet
     = Loaded [ [("type", FStr (js "R22")); ("quantity", FNum (Fin 1250.5))];
                [("type", FStr []); ("quantity", FNum (Fin 0))] ]
  /\ FugitiveUpload.processRows (fun _ => js "0") ([None; None; None; None] ++ skipn 4 fugitiveSheet)
     = FugitiveUpload.processRows (fun _ => js "0") fugitiveSheet.
Proof.
  destruct (X9_fugitive_upload_takes_row_4_as_header (fun _ => js "0")
              (firstn 4 fugitiveSheet) [None; None; None; None]
              [VStr (js "Type"); VStr (js "Notes"); VStr (js "Quantity")]
              (skipn 5 fugitiveSheet) (firstn 5 fugitiveSheet))
    as (H1 & H2 & H3 & _); try reflexivity; try discriminate.
  - simpl. lia.
  - split; [exact H1|]. split; [|exact H3].
    etransitivity; [exact H2|]. vm_compute. reflexivity.
Defined.

(** ** OpennessAnalytics: the records of an upload *)

Section AssignFold.
Variable A : Type.
Variable B : Type.
Variable keyOf : A -> string.
Variable g : A -> B.

Lemma assign_fold_keys (l : list A) (o : list (string * B)) (k : string) :
  In k (List.map fst (fold_left (fun o e => assign o (keyOf e) (g e)) l o))
  <-> In k (List.map fst o) \/ In k (List.map keyOf l).
Proof.
  revert o. induction l as [|e l IH]; intro o; simpl; [tauto|].
  rewrite IH, keys_assign.
  destruct (existsb (String.eqb (keyOf e)) (List.map fst o)) eqn:E.
  - apply existsb_eqb_In in E. split; [tauto|].
    intros [H | [<- | H]]; auto.
  - rewrite in_app_iff. simpl. tauto.
Qed.

Variable T : string -> B -> Prop.

Lemma assign_fold_typed (l : list A) (o : list (string * B)) :
  (forall k v, lookup o k = Some v -> T k v) ->
  (forall e, In e l -> T (keyOf e) (g e)) ->
  forall k v,
    lookup (fold_left (fun o e => assign o (keyOf e) (g e)) l o) k = Some v -> T k v.
Proof.
  revert o. induction l as [|e l IH]; intros o Ho Hl; simpl; [exact Ho|].
  apply IH; [|intros e' He'; apply Hl; now right].
  intros k v. rewrite lookup_assign.
  destruct (String.eqb (keyOf e) k) eqn:E; [|apply Ho].
  apply String.eqb_eq in E. subst k. intros [= <-]. apply Hl. now left.
Qed.

End AssignFold.

Lemma entry_of_key (mapping : list (string * string)) (e e' : string * string) :
  NoDup (List.map snd mapping) -> In e mapping -> In e' mapping ->
  snd e' = snd e -> e' = e.
Proof.
  intros Hinj He He' Hk. induction mapping as [|x l IH]; [contradiction|].
  simpl in Hinj. inversion Hinj as [|? ? Hx Hl]; subst.
  destruct He as [-> | He], He' as [-> | He']; trivial.
  - exfalso. apply Hx. rewrite <- Hk. now apply in_map.
  - exfalso. apply Hx. rewrite Hk. now apply in_map.
  - now apply IH.
Qed.

Lemma openness_parseNumeric_number (numberToString : Q -> jstring) (v : JsVal) :
  OpennessAnalytics.parseNumeric numberToString v <> NaN.
Proof.
  destruct v as [| | b | q | s]; simpl; try discriminate.
  - destruct (parseFloat _); simpl; discriminate.
  - destruct s as [|c r]; [discriminate|].
    destruct (parseFloat _); simpl; discriminate.
Qed.

Lemma openness_labels_found :
  Forall (fun e => List.find (fun e' => jstring_eqb (js (fst e')) (js (fst e)))
                     OpennessAnalytics.fieldMapping = Some e)
    OpennessAnalytics.fieldMapping.
Proof. repeat (constructor; [vm_compute; reflexivity|]). constructor. Qed.

Lemma openness_keys_distinct : NoDup (List.map snd OpennessAnalytics.fieldMapping).
Proof.
  apply (NoDup_count_occ' string_dec). intros x Hx.
  simpl in Hx.
  repeat (destruct Hx as [<- | Hx]; [vm_compute; reflexivity|]). contradiction.
Qed.

Lemma openness_keys_not_monthYear :
  Forall (fun e => String.eqb "monthYear" (snd e) = false) OpennessAnalytics.fieldMapping.
Proof. repeat (constructor; [reflexivity|]). constructor. Qed.

Lemma openness_mappedKey_spec (h : JsVal) (key : string) :
  OpennessAnalytics.mappedKey h = Some key
  <-> exists e, In e OpennessAnalytics.fieldMapping /\ snd e = key /\ h = VStr (js (fst e)).
Proof.
  unfold OpennessAnalytics.mappedKey. split.
  - destruct h as [| | b | q | label]; try discriminate.
    destruct (List.find _ _) as [[l k]|] eqn:F; [|discriminate].
    intros [= <-]. apply find_some in F. destruct F as [Hin Heq]. simpl in Heq.
    apply jstring_eqb_eq in Heq. subst label. exists (l, k). auto.
  - intros [e (He & <- & ->)].
    pose proof openness_labels_found as H. rewrite Forall_forall in H.
    rewrite (H e He). now destruct e.
Qed.

Lemma openness_label_key (e e0 : string * string) :
  In e OpennessAnalytics.fieldMapping -> In e0 OpennessAnalytics.fieldMapping ->
  VStr (js (fst e0)) = VStr (js (fst e)) -> e0 = e.
Proof.
  intros He He0 Hh. injection Hh as Hh.
  pose proof openness_labels_found as F. rewrite Forall_forall in F.
  pose proof (F e He) as Fe. pose proof (F e0 He0) as Fe0.
  rewrite <- Hh, Fe0 in Fe. now injection Fe.
Qed.

Lemma openness_colIndexMap_keys (headerRow : list JsVal) (m : list (string * nat))
  (idx : nat) (key : string) :
  In key (List.map fst (OpennessAnalytics.buildColIndexMap m headerRow idx))
  <-> In key (List.map fst m)
      \/ exists e, In e OpennessAnalytics.fieldMapping /\ snd e = key
                   /\ In (VStr (js (fst e))) headerRow.
Proof.
  revert m idx. induction headerRow as [|h hs IH]; intros m idx; simpl.
  - split; [tauto|]. intros [H | [e (_ & _ & [])]]. exact H.
  - rewrite IH. destruct (OpennessAnalytics.mappedKey h) as [k|] eqn:E.
    + apply openness_mappedKey_spec in E. destruct E as [e0 (He0 & Hk0 & Hh0)].
      rewrite keys_assign.
      assert (Hin : In key (if existsb (String.eqb k) (List.map fst m)
                            then List.map fst m else List.map fst m ++ [k])
                    <-> In key (List.map fst m) \/ key = k).
      { destruct (existsb (String.eqb k) (List.map fst m)) eqn:Ex.
        - apply existsb_eqb_In in Ex. split; [tauto|]. intros [H | ->]; trivial.
        - rewrite in_app_iff. simpl. intuition (subst; auto). }
      rewrite Hin. split.
      * intros [[H | ->] | [e (He & Hk & Hh)]].
        -- now left.
        -- right. exists e0. auto.
        -- right. exists e. auto.
      * intros [H | [e (He & Hk & [Hh | Hh])]].
        -- left. now left.
        -- left. right. subst h.
           rewrite (openness_label_key e e0 He He0 Hh) in Hk0. congruence.
        -- right. exists e. auto.
    + split.
      * intros [H | [e (He & Hk & Hh)]]; [now left|]. right. exists e. auto.
      * intros [H | [e (He & Hk & [Hh | Hh])]].
        -- now left.
        -- exfalso. assert (Hs : OpennessAnalytics.mappedKey h = Some key).
           { apply openness_mappedKey_spec. exists e. auto. }
           congruence.
        -- right. exists e. auto.
Qed.

Lemma openness_buildRow_record (numberToString : Q -> jstring)
  (headerRow row : list JsVal) :
  let rec :=
    OpennessAnalytics.buildRow numberToString
      (OpennessAnalytics.buildColIndexMap [] headerRow 0) row in
  recordUnder OpennessAnalytics.fieldMapping OpennessAnalytics.numericFields headerRow rec
  /\ monthYearOf rec.
Proof.
  cbv zeta.
  set (cm := OpennessAnalytics.buildColIndexMap [] headerRow 0).
  pose (g := fun e : string * nat =>
              if existsb (String.eqb (fst e)) OpennessAnalytics.numericFields
              then FNum (OpennessAnalytics.parseNumeric numberToString (at_index row (snd e)))
              else match at_index row (snd e) with
                   | VNull | VUndefined => FStr []
                   | _ => FStr (trim (toString numberToString (at_index row (snd e))))
                   end).
  pose (rowObj := fold_left (fun rowObj e => assign rowObj (fst e) (g e)) cm []).
  change (OpennessAnalytics.buildRow numberToString cm row)
    with (assign rowObj "monthYear"
            (FStr (OpennessAnalytics.textOf rowObj "month" ++ js " "
                   ++ OpennessAnalytics.textOf rowObj "financialYear")%list)).
  assert (Hother : forall k, String.eqb "monthYear" k = false ->
            forall v, lookup (assign rowObj "monthYear" v) k = lookup rowObj k).
  { intros k Hk v. now rewrite lookup_assign, Hk. }
  split.
  - intros e He.
    assert (Hne : String.eqb "monthYear" (snd e) = false).
    { pose proof openness_keys_not_monthYear as H. rewrite Forall_forall in H. now apply H. }
    rewrite !Hother by exact Hne. split.
    + assert (Hp : lookup rowObj (snd e) <> None <-> In (snd e) (List.map fst rowObj)).
      { rewrite <- lookup_In. destruct (lookup rowObj (snd e)) as [v|].
        - split; [eauto | discriminate].
        - split; [contradiction | intros [v Hv]; discriminate]. }
      rewrite Hp. unfold rowObj. rewrite (assign_fold_keys _ _ fst g).
      unfold cm. rewrite openness_colIndexMap_keys. split.
      * intros [[] | [[] | [e' (He' & Hk & Hh)]]].
        rewrite (entry_of_key _ e e' openness_keys_distinct He He' Hk) in Hh.
        exact Hh.
      * intro Hh. right. right. exists e. repeat split; trivial.
    + intros v.
      apply (assign_fold_typed _ _ fst g (typedField OpennessAnalytics.numericFields) cm []).
      * discriminate.
      * intros e' _. unfold typedField, g.
        destruct (existsb (String.eqb (fst e')) OpennessAnalytics.numericFields).
        -- eexists. split; [reflexivity | apply openness_parseNumeric_number].
        -- destruct (at_index row (snd e')); eexists; split;
             try reflexivity; apply trim_idem.
  - unfold monthYearOf. rewrite lookup_assign. simpl String.eqb. cbv iota.
    unfold OpennessAnalytics.textOf. rewrite !Hother by reflexivity. reflexivity.
Qed.

(** X16.  Every record of a successful OpennessAnalytics upload is built
    under row 4 of the sheet, whatever that row holds: it has a canonical
    key exactly when row 4 has the label of the key, with a number, never
    NaN, under the ten numeric keys and a trimmed string under the
    others; and it always has a [monthYear], the month and the financial
    year with a space between, where a column the sheet lacks reads
    "undefined". *)
Theorem X16_openness_records_follow_row_4 :
  forall (numberToString : Q -> jstring) (rawRows : list SheetRow) (data : list Mapped),
    OpennessAnalytics.processRows numberToString rawRows = Loaded data ->
    exists headerRow,
      nth_error rawRows 4 = Some (Some headerRow)
      /\ Forall (fun rec =>
                   recordUnder OpennessAnalytics.fieldMapping
                     OpennessAnalytics.numericFields headerRow rec
                   /\ monthYearOf rec
                   /\ (~ In (VStr (js "Month")) headerRow ->
                       OpennessAnalytics.textOf rec "month" = js "undefined")
                   /\ (~ In (VStr (js "Financial Year")) headerRow ->
                       OpennessAnalytics.textOf rec "financialYear" = js "undefined"))
           data.
Proof.
  intros nts rawRows data. rewrite openness_processRows_cases.
  destruct (nth_error rawRows 4) as [[headerRow|]|]; try discriminate.
  intro H. apply loadedFrom_Loaded in H. destruct H as [_ ->].
  exists headerRow. split; trivial.
  apply Forall_map, Forall_forall. intros r _.
  destruct (openness_buildRow_record nts headerRow (OpennessAnalytics.cellsOf r))
    as [Hrec Hmy].
  split; trivial. split; trivial.
  assert (Habsent : forall e, In e OpennessAnalytics.fieldMapping ->
            ~ In (VStr (js (fst e))) headerRow ->
            OpennessAnalytics.textOf
              (OpennessAnalytics.buildRow nts
                 (OpennessAnalytics.buildColIndexMap [] headerRow 0)
                 (OpennessAnalytics.cellsOf r)) (snd e) = js "undefined").
  { intros e He Hno. destruct (Hrec e He) as [Hiff _].
    unfold OpennessAnalytics.textOf.
    destruct (lookup _ (snd e)) as [v|] eqn:E; trivial.
    exfalso. apply Hno, Hiff. discriminate. }
  split.
  - apply (Habsent ("Month", "month")). simpl. tauto.
  - apply (Habsent ("Financial Year", "financialYear")). simpl. tauto.
Qed.

Lemma X16_witness :
  OpennessAnalytics.processRows (fun _ => js "0") opennessSheet
  = Loaded [ [("financialYear", FStr (js "2024-25")); ("rptPurchases", FNum (Fin 1500));
              ("dim1", FStr (js "0"));
              ("monthYear", FStr (js "undefined 2024-25"))] ]
  /\ exists headerRow, nth_error opennessSheet 4 = Some (Some headerRow).
Proof.
  assert (H : OpennessAnalytics.processRows (fun _ => js "0") opennessSheet
              = Loaded [ [("financialYear", FStr (js "2024-25"));
                          ("rptPurchases", FNum (Fin 1500));
                          ("dim1", FStr (js "0"));
                          ("monthYear", FStr (js "undefined 2024-25"))] ])
    by (vm_compute; reflexivity).
  split; [exact H|].
  destruct (X16_openness_records_follow_row_4 _ _ _ H) as [headerRow [Hh _]].
  exists headerRow. exact Hh.
Defined.

(* ================================================================== *)
(** * The analytics over the arithmetic of the numbers *)
(* ================================================================== *)

(** ** Groups built from their records in order *)

Lemma fold_left_proj {S A X : Type} (step : S -> A -> S) (stepP : X -> A -> X)
  (proj : S -> X) :
  (forall s a, proj (step s a) = stepP (proj s) a) ->
  forall l s, proj (fold_left step l s) = fold_left stepP l (proj s).
Proof.
  intros H l. induction l as [|a l IH]; intro s; simpl; trivial.
  now rewrite IH, H.
Qed.

Section InOrder.
Variable V : Type.
Variable keyOf : Item -> JsVal.
Variable initOf : Item -> V.
Variable upd : Item -> V -> V.

Local Abbreviation stepFrom := (gstepFrom V keyOf initOf upd).

Lemma keysFrom_fold (data : list Item) (m : Map V) :
  keys (fold_left stepFrom data m) =
  keys m ++ filter (fun x => negb (memK x (keys m))) (firstSeen (List.map keyOf data)).
Proof.
  revert m. induction data as [|d data IH]; intro m.
  - simpl. now rewrite app_nil_r.
  - change (fold_left stepFrom (d :: data) m) with (fold_left stepFrom data (stepFrom m d)).
    rewrite IH. unfold gstepFrom at 1 2. rewrite keys_upsert.
    change (firstSeen (List.map keyOf (d :: data)))
      with (keyOf d :: filter (fun x => negb (sameValueZero (keyOf d) x))
                         (firstSeen (List.map keyOf data))).
    set (F := firstSeen (List.map keyOf data)).
    rewrite has_keys. fold (memK (keyOf d) (keys m)).
    simpl filter at 2.
    destruct (memK (keyOf d) (keys m)) eqn:E; simpl negb; cbv iota.
    + f_equal. rewrite filter_filter_and. apply filter_ext_in. intros x _.
      destruct (sameValueZero (keyOf d) x) eqn:E1; simpl; trivial.
      rewrite <- (memK_congr (keys m) _ _ E1), E. trivial.
    + rewrite <- app_assoc. simpl. f_equal. f_equal.
      rewrite filter_filter_and. apply filter_ext. intro x.
      rewrite memK_app. unfold memK at 2. simpl.
      rewrite orb_false_r, negb_orb, andb_comm. trivial.
Qed.

Lemma keysFrom_firstSeen (data : list Item) :
  keys (fold_left stepFrom data []) = firstSeen (List.map keyOf data).
Proof.
  rewrite keysFrom_fold. simpl.
  induction (firstSeen (List.map keyOf data)) as [|x l IH]; simpl; congruence.
Qed.

(** what the loop leaves under a key: the entry that was there, or the
    one the first record of the key made, updated with each record of
    the key in order *)
Lemma getFrom_fold (data : list Item) (m : Map V) (k : JsVal) :
  get (fold_left stepFrom data m) k
  = match get m k with
    | Some v => Some (fold_left (fun v d => upd d v) (membersOf keyOf k data) v)
    | None =>
        match membersOf keyOf k data with
        | [] => None
        | d0 :: r => Some (fold_left (fun v d => upd d v) r (upd d0 (initOf d0)))
        end
    end.
Proof.
  revert m. induction data as [|d data IH]; intro m.
  - simpl. destruct (get m k); reflexivity.
  - change (fold_left stepFrom (d :: data) m) with (fold_left stepFrom data (stepFrom m d)).
    rewrite IH. unfold gstepFrom at 1. rewrite get_upsert.
    unfold membersOf. simpl filter.
    destruct (sameValueZero (keyOf d) k) eqn:E.
    + rewrite (get_congr V m _ _ E). destruct (get m k); reflexivity.
    + destruct (get m k); reflexivity.
Qed.

(** a key of the first-seen list is the key of the first of its records *)
Lemma first_member_key (data : list Item) (k : JsVal) (d0 : Item) (r : list Item) :
  In k (firstSeen (List.map keyOf data)) ->
  membersOf keyOf k data = d0 :: r -> keyOf d0 = k.
Proof.
  induction data as [|d data IH]; simpl; [contradiction|].
  intros [<- | Hin].
  - unfold membersOf. simpl. rewrite sameValueZero_refl. now intros [= <- _].
  - apply filter_In in Hin. destruct Hin as [Hin Hn].
    apply negb_true_iff in Hn. unfold membersOf. simpl. rewrite Hn.
    now apply IH.
Qed.

(** the output of the loop: one entry for each distinct key, in
    first-seen order, built from the records of the key in order *)
Lemma grouped_in_order (build : JsVal -> list Item -> V) :
  (forall d0 r, build (keyOf d0) (d0 :: r)
                = fold_left (fun v d => upd d v) r (upd d0 (initOf d0))) ->
  forall data,
    values (fold_left stepFrom data []) = groupedBy V keyOf build data.
Proof.
  intros Hbuild data. unfold groupedBy.
  rewrite <- keysFrom_firstSeen.
  set (m := fold_left stepFrom data []).
  assert (Hnd : NoDupA eqK (keys m)).
  { unfold m. rewrite keysFrom_firstSeen. apply firstSeen_NoDupA. }
  unfold values, keys. rewrite map_map. apply map_ext_in.
  intros [k v] Hin. simpl.
  pose proof (get_of_member V m (k, v) Hnd Hin) as G. simpl in G.
  unfold m in G. rewrite getFrom_fold in G. simpl in G.
  destruct (membersOf keyOf k data) as [|d0 r] eqn:Em; [discriminate|].
  injection G as <-.
  assert (Hk : keyOf d0 = k).
  { apply (first_member_key data k d0 r); trivial.
    rewrite <- keysFrom_firstSeen. fold m. unfold keys.
    change k with (fst (k, fold_left (fun v d => upd d v) r (upd d0 (initOf d0)))).
    now apply in_map. }
  rewrite <- Hk. symmetry. apply Hbuild.
Qed.

(** every record is in the group of its key, and in no other *)
Lemma grouped_members (G : Type) (build : JsVal -> list Item -> G) (data : list Item)
  (g : G) :
  In g (groupedBy G keyOf build data) ->
  exists k, In k (firstSeen (List.map keyOf data))
            /\ membersOf keyOf k data <> []
            /\ g = build k (membersOf keyOf k data).
Proof.
  unfold groupedBy. intro H. apply in_map_iff in H. destruct H as [k [<- Hk]].
  exists k. repeat split; trivial.
  assert (Hm : memK k (List.map keyOf data) = true).
  { rewrite <- memK_firstSeen. apply memK_InA, InA_alt. exists k.
    split; [apply sameValueZero_refl | exact Hk]. }
  unfold memK in Hm. apply existsb_exists in Hm. destruct Hm as [x [Hx Hs]].
  apply in_map_iff in Hx. destruct Hx as [d [<- Hd]].
  intro E. assert (Hin : In d (membersOf keyOf k data)).
  { apply filter_In. split; trivial. }
  rewrite E in Hin. exact Hin.
Qed.

End InOrder.

(** the loop whose new entry depends on the key alone *)
Lemma grouped_in_order_key (V : Type) (keyOf : Item -> JsVal) (init : JsVal -> V)
  (upd : Item -> V -> V) (build : JsVal -> list Item -> V) :
  (forall k d0 r, build k (d0 :: r)
                  = fold_left (fun v d => upd d v) r (upd d0 (init k))) ->
  forall data,
    values (fold_left (gstep V keyOf init upd) data []) = groupedBy V keyOf build data.
Proof.
  intros Hbuild data.
  exact (grouped_in_order V keyOf (fun d => init (keyOf d)) upd build
           (fun d0 r => Hbuild (keyOf d0) d0 r) data).
Qed.

(** ** Sums without rounding *)

Section Exact.
Variable N : Numbers.
Hypothesis exact : exactAddition N.

Lemma sumOfNumbers_sumOf (l : list (number N)) :
  sumOfNumbers N l = sumOf (number N) (zero N) (add N) l.
Proof.
  destruct exact as (A & C & Z). unfold sumOfNumbers.
  pose proof (@fold_left_sum (number N) (zero N) (add N) eq _ A C Z
                (number N) (fun x => x) l (zero N)) as H.
  rewrite map_id in H. etransitivity; [exact H|]. apply Z.
Qed.

Lemma sumIn_sumOf (c : Item -> number N) (l : list Item) :
  sumIn N c l = sumOf (number N) (zero N) (add N) (List.map c l).
Proof.
  destruct exact as (A & C & Z). unfold sumIn.
  pose proof (@fold_left_sum (number N) (zero N) (add N) eq _ A C Z
                Item c l (zero N)) as H.
  etransitivity; [exact H|]. apply Z.
Qed.

(** the totals of the groups add up to the total over the records *)
Lemma groups_add_up (V : Type) (w : V -> number N) (keyOf : Item -> JsVal)
  (init : JsVal -> V) (upd : Item -> V -> V) (c : Item -> number N) :
  (forall k, w (init k) = zero N) ->
  (forall d v, w (upd d v) = add N (w v) (c d)) ->
  forall data,
    sumOfNumbers N (List.map w (values (fold_left (gstep V keyOf init upd) data [])))
    = sumIn N c data.
Proof.
  intros Hi Hu data. rewrite sumOfNumbers_sumOf, sumIn_sumOf.
  destruct exact as (A & C & Z).
  pose proof (@total_fold (number N) (zero N) (add N) eq _ _ A C Z
                V w keyOf init upd c Hi Hu data []) as H.
  unfold total in H. simpl in H. etransitivity; [exact H|]. apply Z.
Qed.

End Exact.

(** the rationals add without rounding, in Leibniz equality *)
Lemma Qplus_assoc_eq (a b c : Q) : (a + (b + c))%Q = ((a + b) + c)%Q.
Proof.
  destruct a as [an ad], b as [bn bd], c as [cn cd]. unfold Qplus. simpl.
  f_equal.
  - rewrite !Pos2Z.inj_mul. ring.
  - apply Pos.mul_assoc.
Qed.

Lemma Qplus_comm_eq (a b : Q) : (a + b)%Q = (b + a)%Q.
Proof.
  destruct a as [an ad], b as [bn bd]. unfold Qplus. simpl.
  f_equal; [ring | apply Pos.mul_comm].
Qed.

Lemma Qplus_0_l_eq (a : Q) : (0 + a)%Q = a.
Proof.
  destruct a as [an ad]. unfold Qplus. simpl. f_equal. apply Z.mul_1_r.
Qed.

Lemma rationals_exact : exactAddition rationals.
Proof.
  repeat split.
  - intros [a|] [b|] [c|]; simpl; trivial. f_equal. apply Qplus_assoc_eq.
  - intros [a|] [b|]; simpl; trivial. f_equal. apply Qplus_comm_eq.
  - intros [a|]; simpl; trivial. f_equal. apply Qplus_0_l_eq.
Qed.

(** the doubles do not: the order of three additions shows *)
Lemma doubles_round : ~ exactAddition doubles.
Proof.
  intros (A & _ & _).
  specialize (A (doubleOfQ 0.1) (doubleOfQ 0.2) (doubleOfQ 0.3)).
  apply (f_equal (fun x => PrimFloat.eqb x
                    (PrimFloat.add (doubleOfQ 0.1)
                       (PrimFloat.add (doubleOfQ 0.2) (doubleOfQ 0.3))))) in A.
  vm_compute in A. discriminate A.
Qed.

(** ** WaterAnalytics *)

Section WaterOver.
Variable N : Numbers.

Lemma water_fold_group (r : list Item) (k : JsVal) (a b : number N) (n : nat) :
  fold_left (fun v d => Computed.WaterAnalytics.addTo N d v) r
    (Computed.WaterAnalytics.mkGroup N k a b n)
  = Computed.WaterAnalytics.mkGroup N k
      (fold_left (fun s d => add N s (measureIn N "quantity" d)) r a)
      (fold_left (fun s d => add N s (measureIn N "value" d)) r b)
      (n + List.length r).
Proof.
  revert a b n. induction r as [|d r IH]; intros a b n; simpl.
  - now rewrite Nat.add_0_r.
  - unfold Computed.WaterAnalytics.addTo at 2. simpl. rewrite IH.
    f_equal. lia.
Qed.

Lemma water_fold_month (r : list Item) (k : JsVal) (a b : number N) :
  fold_left (fun v d => Computed.WaterAnalytics.addToMonth N d v) r
    (Computed.WaterAnalytics.mkMonthGroup N k a b)
  = Computed.WaterAnalytics.mkMonthGroup N k
      (fold_left (fun s d => add N s (measureIn N "quantity" d)) r a)
      (fold_left (fun s d => add N s (measureIn N "value" d)) r b).
Proof.
  revert a b. induction r as [|d r IH]; intros a b; simpl; trivial.
  unfold Computed.WaterAnalytics.addToMonth at 2. simpl. now rewrite IH.
Qed.

Lemma water_groupStep_gstep (field : string) :
  Computed.WaterAnalytics.groupStep N field
  = gstep _ (keyOr field Unknown) (Computed.WaterAnalytics.emptyGroup N)
      (Computed.WaterAnalytics.addTo N).
Proof. reflexivity. Qed.

(** the groups of one grouping of WaterAnalytics *)
Lemma water_groups (field : string) (waterData : list Item) :
  values (fold_left (Computed.WaterAnalytics.groupStep N field) waterData [])
  = groupedBy _ (keyOr field Unknown) (waterGroup N) waterData.
Proof.
  rewrite water_groupStep_gstep. apply grouped_in_order_key.
  intros k d0 r. unfold waterGroup, sumIn, Computed.WaterAnalytics.emptyGroup.
  unfold Computed.WaterAnalytics.addTo at 2. simpl.
  now rewrite water_fold_group.
Qed.

Lemma water_months (waterData : list Item) :
  values (fold_left (Computed.WaterAnalytics.monthlyStep N) waterData [])
  = groupedBy _ (keyOr "month" Unknown) (waterMonthGroup N) waterData.
Proof.
  change (Computed.WaterAnalytics.monthlyStep N)
    with (gstep _ (keyOr "month" Unknown) (Computed.WaterAnalytics.emptyMonth N)
            (Computed.WaterAnalytics.addToMonth N)).
  apply grouped_in_order_key.
  intros k d0 r. unfold waterMonthGroup, sumIn, Computed.WaterAnalytics.emptyMonth.
  unfold Computed.WaterAnalytics.addToMonth at 2. simpl.
  now rewrite water_fold_month.
Qed.

Lemma water_group_counts (field : string) (waterData : list Item) :
  sumN (List.map Computed.WaterAnalytics.count
          (values (fold_left (Computed.WaterAnalytics.groupStep N field) waterData [])))
  = List.length waterData.
Proof.
  rewrite water_groupStep_gstep.
  rewrite totalN_fold with (c := fun _ => 1%nat); try reflexivity.
  apply sumN_ones.
Qed.

Lemma water_groups_add_up (field : string) (waterData : list Item) :
  exactAddition N ->
  sumOfNumbers N
    (List.map Computed.WaterAnalytics.totalQuantity
       (values (fold_left (Computed.WaterAnalytics.groupStep N field) waterData [])))
  = sumIn N (measureIn N "quantity") waterData
  /\ sumOfNumbers N
       (List.map Computed.WaterAnalytics.totalValue
          (values (fold_left (Computed.WaterAnalytics.groupStep N field) waterData [])))
     = sumIn N (measureIn N "value") waterData.
Proof.
  intro exact. rewrite water_groupStep_gstep.
  split; apply groups_add_up; trivial; reflexivity.
Qed.

End WaterOver.

(** ** Scope3Analytics *)

Section Scope3Over.
Variable N : Numbers.

Lemma scope3_fold_group (r : list Item) (k : JsVal) (a b c : number N) :
  fold_left (fun v d => Computed.Scope3Analytics.addTo N d v) r
    (Computed.Scope3Analytics.mkGroup N k a b c)
  = Computed.Scope3Analytics.mkGroup N k
      (fold_left (fun s d => add N s (measureIn N "totalQuantity" d)) r a)
      (fold_left (fun s d => add N s (measureIn N "totalEFFuel" d)) r b)
      (fold_left (fun s d => add N s (measureIn N "totalValue" d)) r c).
Proof.
  revert a b c. induction r as [|d r IH]; intros a b c; simpl; trivial.
  unfold Computed.Scope3Analytics.addTo at 2. simpl. now rewrite IH.
Qed.

Lemma scope3_groups_of (keyOf : Item -> JsVal) (data : list Item) :
  values (fold_left (gstep _ keyOf (Computed.Scope3Analytics.emptyGroup N)
                       (Computed.Scope3Analytics.addTo N)) data [])
  = groupedBy _ keyOf (scope3Group N) data.
Proof.
  apply grouped_in_order_key.
  intros k d0 r. unfold scope3Group, sumIn, Computed.Scope3Analytics.emptyGroup.
  unfold Computed.Scope3Analytics.addTo at 2. simpl.
  now rewrite scope3_fold_group.
Qed.

Lemma scope3_maps (data : list Item) :
  let st := Computed.Scope3Analytics.run N data in
  Computed.Scope3Analytics.mapSub st
    = fold_left (gstep _ scope3SubKey (Computed.Scope3Analytics.emptyGroup N)
                   (Computed.Scope3Analytics.addTo N)) data []
  /\ Computed.Scope3Analytics.mapYear st
     = fold_left (gstep _ scope3YearKey (Computed.Scope3Analytics.emptyGroup N)
                    (Computed.Scope3Analytics.addTo N)) data []
  /\ Computed.Scope3Analytics.mapDept st
     = fold_left (gstep _ scope3DeptKey (Computed.Scope3Analytics.emptyGroup N)
                    (Computed.Scope3Analytics.addTo N)) data [].
Proof.
  unfold Computed.Scope3Analytics.run. repeat split.
  - apply (fold_left_proj (Computed.Scope3Analytics.step N) _
             Computed.Scope3Analytics.mapSub). reflexivity.
  - apply (fold_left_proj (Computed.Scope3Analytics.step N) _
             Computed.Scope3Analytics.mapYear). reflexivity.
  - apply (fold_left_proj (Computed.Scope3Analytics.step N) _
             Computed.Scope3Analytics.mapDept). reflexivity.
Qed.

Lemma scope3_totals (data : list Item) :
  let t := Computed.Scope3Analytics.totals (Computed.Scope3Analytics.run N data) in
  Computed.Scope3Analytics.sumQuantity t = sumIn N (measureIn N "totalQuantity") data
  /\ Computed.Scope3Analytics.sumEFFuel t = sumIn N (measureIn N "totalEFFuel") data
  /\ Computed.Scope3Analytics.sumValue t = sumIn N (measureIn N "totalValue") data.
Proof.
  unfold Computed.Scope3Analytics.run, sumIn. repeat split.
  - apply (fold_left_proj (Computed.Scope3Analytics.step N) _
             (fun st => Computed.Scope3Analytics.sumQuantity
                          (Computed.Scope3Analytics.totals st))). reflexivity.
  - apply (fold_left_proj (Computed.Scope3Analytics.step N) _
             (fun st => Computed.Scope3Analytics.sumEFFuel
                          (Computed.Scope3Analytics.totals st))). reflexivity.
  - apply (fold_left_proj (Computed.Scope3Analytics.step N) _
             (fun st => Computed.Scope3Analytics.sumValue
                          (Computed.Scope3Analytics.totals st))). reflexivity.
Qed.

Lemma scope3_analytics_fields (data : list Item) :
  let a := Computed.Scope3Analytics.analytics N data in
  let st := Computed.Scope3Analytics.run N data in
  Computed.Scope3Analytics.bySubCategory a = values (Computed.Scope3Analytics.mapSub st)
  /\ Computed.Scope3Analytics.byYear a = values (Computed.Scope3Analytics.mapYear st)
  /\ Computed.Scope3Analytics.byDept a = values (Computed.Scope3Analytics.mapDept st)
  /\ Computed.Scope3Analytics.a_totals a = Computed.Scope3Analytics.totals st.
Proof. destruct data; repeat split; reflexivity. Qed.

Lemma scope3_groups_add_up (keyOf : Item -> JsVal) (data : list Item) :
  exactAddition N ->
  scope3TotalsAre N
    (Computed.Scope3Analytics.totals (Computed.Scope3Analytics.run N data))
    (values (fold_left (gstep _ keyOf (Computed.Scope3Analytics.emptyGroup N)
                          (Computed.Scope3Analytics.addTo N)) data [])).
Proof.
  intro exact. destruct (scope3_totals data) as (T1 & T2 & T3).
  unfold scope3TotalsAre. rewrite T1, T2, T3.
  repeat split; symmetry; apply groups_add_up; trivial; reflexivity.
Qed.

End Scope3Over.

Lemma groupedBy_map (G H : Type) (f : G -> H) (keyOf : Item -> JsVal)
  (build : JsVal -> list Item -> G) (data : list Item) :
  List.map f (groupedBy G keyOf build data)
  = groupedBy H keyOf (fun k members => f (build k members)) data.
Proof. unfold groupedBy. now rewrite map_map. Qed.

(** ** Overview totals against group totals *)




(** ** WaterAnalytics: the groupings and the overview *)

(** X1.  Each grouping of WaterAnalytics (by parameter, by sub-category,
    by plant, by month) has one group for each distinct key, "Unknown"
    standing for a missing or empty field, in the order the keys are
    first seen.  A group holds the quantities and the values of its
    records added from the left in the order of the records, starting
    from 0, and (but for the months) the number of its records; the counts
    of a grouping add up to the number of records.  The overview holds
    the two sums over all records, added in the same way, and their
    quotients by the number of records, 0 when there is none. *)
Theorem X1_water_groupings_cover_all_records :
  forall (N : Numbers) (waterData : list Item),
    let a := Computed.WaterAnalytics.analytics N waterData in
    let o := Computed.WaterAnalytics.overview a in
    Computed.WaterAnalytics.byParameter a
      = groupedBy _ (keyOr "parameter" Unknown) (waterGroup N) waterData
    /\ Computed.WaterAnalytics.bySubCategory a
       = groupedBy _ (keyOr "subCategory" Unknown) (waterGroup N) waterData
    /\ Computed.WaterAnalytics.byPlant a
       = groupedBy _ (keyOr "plant" Unknown) (waterGroup N) waterData
    /\ Computed.WaterAnalytics.monthlyTrend a
       = groupedBy _ (keyOr "month" Unknown) (waterMonthGroup N) waterData
    /\ sumN (List.map Computed.WaterAnalytics.count (Computed.WaterAnalytics.byParameter a))
       = List.length waterData
    /\ sumN (List.map Computed.WaterAnalytics.count (Computed.WaterAnalytics.bySubCategory a))
       = List.length waterData
    /\ sumN (List.map Computed.WaterAnalytics.count (Computed.WaterAnalytics.byPlant a))
       = List.length waterData
    /\ Computed.WaterAnalytics.o_totalQuantity o
       = sumIn N (measureIn N "quantity") waterData
    /\ Computed.WaterAnalytics.o_totalValue o
       = sumIn N (measureIn N "value") waterData
    /\ Computed.WaterAnalytics.avgQuantity o
       = meanOrZero N (sumIn N (measureIn N "quantity") waterData) (List.length waterData)
    /\ Computed.WaterAnalytics.avgValue o
       = meanOrZero N (sumIn N (measureIn N "value") waterData) (List.length waterData).
Proof.
  intros N waterData a o. subst o a.
  destruct waterData as [|d l]; [repeat split|].
  set (data := d :: l).
  change (Computed.WaterAnalytics.byParameter (Computed.WaterAnalytics.analytics N data))
    with (values (fold_left (Computed.WaterAnalytics.groupStep N "parameter") data [])).
  change (Computed.WaterAnalytics.bySubCategory (Computed.WaterAnalytics.analytics N data))
    with (values (fold_left (Computed.WaterAnalytics.groupStep N "subCategory") data [])).
  change (Computed.WaterAnalytics.byPlant (Computed.WaterAnalytics.analytics N data))
    with (values (fold_left (Computed.WaterAnalytics.groupStep N "plant") data [])).
  change (Computed.WaterAnalytics.monthlyTrend (Computed.WaterAnalytics.analytics N data))
    with (values (fold_left (Computed.WaterAnalytics.monthlyStep N) data [])).
  rewrite !water_group_counts.
  split; [apply water_groups|]. split; [apply water_groups|].
  split; [apply water_groups|]. split; [apply water_months|].
  repeat split.
Qed.

(** ** Scope3Analytics: the groups and the efficiency ratios *)

(** X4.  Each grouping of Scope3Analytics (by sub-category, by financial
    year, by department) has one group for each distinct key, in the
    order the keys are first seen, "Unknown" standing for a missing or
    empty sub-category and "NA" for a missing or empty year or department.
    A group holds the three totals of its records (quantity, EF fuel,
    value), each added from the left in the order of the records,
    starting from 0; it has no count.  No group is without records. *)
Theorem X4_scope3_groups_sum_their_records :
  forall (N : Numbers) (data : list Item),
    let a := Computed.Scope3Analytics.analytics N data in
    Computed.Scope3Analytics.bySubCategory a
      = groupedBy _ scope3SubKey (scope3Group N) data
    /\ Computed.Scope3Analytics.byYear a
       = groupedBy _ scope3YearKey (scope3Group N) data
    /\ Computed.Scope3Analytics.byDept a
       = groupedBy _ scope3DeptKey (scope3Group N) data
    /\ (forall keyOf g,
          In g (groupedBy _ keyOf (scope3Group N) data) ->
          membersOf keyOf (Computed.Scope3Analytics.category g) data <> []
          /\ g = scope3Group N (Computed.Scope3Analytics.category g)
                   (membersOf keyOf (Computed.Scope3Analytics.category g) data)).
Proof.
  intros N data a.
  destruct (scope3_analytics_fields N data) as (Hs & Hy & Hd & _).
  destruct (scope3_maps N data) as (M1 & M2 & M3).
  cbv zeta in Hs, Hy, Hd, M1, M2, M3. fold a in Hs, Hy, Hd.
  rewrite Hs, Hy, Hd, M1, M2, M3.
  split; [apply scope3_groups_of|]. split; [apply scope3_groups_of|].
  split; [apply scope3_groups_of|].
  intros keyOf g Hin.
  destruct (grouped_members keyOf _ (scope3Group N) data g Hin) as [k (_ & Hne & ->)].
  simpl. split; trivial.
Qed.

(** X5.  The efficiency list of Scope3Analytics has one entry for each
    sub-category, in the order of the groups by sub-category.  Its value
    per EF fuel is the total value of the records of the sub-category
    divided by their total EF fuel when that is greater than 0, and 0
    otherwise; its EF fuel per quantity is the total EF fuel divided by
    the total quantity when that is greater than 0, and 0 otherwise.  The
    totals are those of the group, added in the order of the records. *)
Theorem X5_scope3_efficiency_ratios :
  forall (N : Numbers) (data : list Item),
    let a := Computed.Scope3Analytics.analytics N data in
    Computed.Scope3Analytics.efficiency a
      = groupedBy _ scope3SubKey (scope3Efficiency N) data
    /\ List.map Computed.Scope3Analytics.eff_subCategory
         (Computed.Scope3Analytics.efficiency a)
       = List.map Computed.Scope3Analytics.category
           (Computed.Scope3Analytics.bySubCategory a)
    /\ Forall2 (fun e g =>
                  Computed.Scope3Analytics.valuePerEFFuel e
                  = ratioOrZero N (Computed.Scope3Analytics.totalValue g)
                      (Computed.Scope3Analytics.totalEFFuel g)
                  /\ Computed.Scope3Analytics.effuelPerQuantity e
                     = ratioOrZero N (Computed.Scope3Analytics.totalEFFuel g)
                         (Computed.Scope3Analytics.totalQuantity g))
         (Computed.Scope3Analytics.efficiency a)
         (Computed.Scope3Analytics.bySubCategory a).
Proof.
  intros N data a.
  assert (E : Computed.Scope3Analytics.efficiency a
              = List.map (fun s =>
                  Computed.Scope3Analytics.mkEfficiency N
                    (Computed.Scope3Analytics.category s)
                    (ratioOrZero N (Computed.Scope3Analytics.totalValue s)
                       (Computed.Scope3Analytics.totalEFFuel s))
                    (ratioOrZero N (Computed.Scope3Analytics.totalEFFuel s)
                       (Computed.Scope3Analytics.totalQuantity s)))
                  (Computed.Scope3Analytics.bySubCategory a)).
  { subst a. destruct data; reflexivity. }
  rewrite E.
  destruct (scope3_analytics_fields N data) as (Hs & _).
  destruct (scope3_maps N data) as (M1 & _).
  cbv zeta in Hs, M1. fold a in Hs. rewrite Hs, M1, scope3_groups_of.
  split; [now rewrite groupedBy_map|].
  split; [now rewrite map_map|].
  induction (groupedBy _ scope3SubKey (scope3Group N) data) as [|g l IH]; simpl;
    constructor; trivial. split; reflexivity.
Qed.

(** ** ElectricityDataAnalytics: totals, groupings and emissions *)

Section ElectricityOver.
Variable N : Numbers.

Lemma electricity_fold_group (r : list Item) (k : JsVal) (a b : number N) (n : nat) :
  fold_left (fun v d => Computed.ElectricityDataAnalytics.addTo N d v) r
    (Computed.ElectricityDataAnalytics.mkGroup N k a b n)
  = Computed.ElectricityDataAnalytics.mkGroup N k
      (fold_left (fun s d => add N s (measureIn N "quantity" d)) r a)
      (fold_left (fun s d => add N s (Computed.ElectricityDataAnalytics.co2OrZero N d)) r b)
      (n + List.length r).
Proof.
  revert a b n. induction r as [|d r IH]; intros a b n; simpl.
  - now rewrite Nat.add_0_r.
  - unfold Computed.ElectricityDataAnalytics.addTo at 2. simpl. rewrite IH.
    f_equal. lia.
Qed.

Lemma electricity_fold_month (r : list Item) (k : JsVal) (a b : number N) :
  fold_left (fun v d => Computed.ElectricityDataAnalytics.addToMonth N d v) r
    (Computed.ElectricityDataAnalytics.mkMonthGroup N k a b)
  = Computed.ElectricityDataAnalytics.mkMonthGroup N k
      (fold_left (fun s d => add N s (measureIn N "quantity" d)) r a)
      (fold_left (fun s d => add N s (Computed.ElectricityDataAnalytics.co2OrZero N d)) r b).
Proof.
  revert a b. induction r as [|d r IH]; intros a b; simpl; trivial.
  unfold Computed.ElectricityDataAnalytics.addToMonth at 2. simpl. now rewrite IH.
Qed.

Lemma electricity_aggregateStep_gstep (key : string) :
  Computed.ElectricityDataAnalytics.aggregateStep N key
  = gstep _ (keyOr key Unknown) (Computed.ElectricityDataAnalytics.emptyGroup N)
      (Computed.ElectricityDataAnalytics.addTo N).
Proof. reflexivity. Qed.

Lemma electricity_groups (key : string) (data : list Item) :
  Computed.ElectricityDataAnalytics.aggregateBy N key data
  = groupedBy _ (keyOr key Unknown) (electricityGroup N) data.
Proof.
  unfold Computed.ElectricityDataAnalytics.aggregateBy.
  rewrite electricity_aggregateStep_gstep. apply grouped_in_order_key.
  intros k d0 r. unfold electricityGroup, sumIn, Computed.ElectricityDataAnalytics.emptyGroup.
  unfold Computed.ElectricityDataAnalytics.addTo at 2. simpl.
  now rewrite electricity_fold_group.
Qed.

Lemma electricity_months (data : list Item) :
  values (fold_left (Computed.ElectricityDataAnalytics.monthStep N) data [])
  = groupedBy _ (keyOr "month" (VStr (js "N/A"))) (electricityMonth N) data.
Proof.
  change (Computed.ElectricityDataAnalytics.monthStep N)
    with (gstep _ (keyOr "month" (VStr (js "N/A")))
            (Computed.ElectricityDataAnalytics.emptyMonth N)
            (Computed.ElectricityDataAnalytics.addToMonth N)).
  apply grouped_in_order_key.
  intros k d0 r. unfold electricityMonth, sumIn, Computed.ElectricityDataAnalytics.emptyMonth.
  unfold Computed.ElectricityDataAnalytics.addToMonth at 2. simpl.
  now rewrite electricity_fold_month.
Qed.

Lemma electricity_group_counts (key : string) (data : list Item) :
  sumN (List.map Computed.ElectricityDataAnalytics.count
          (Computed.ElectricityDataAnalytics.aggregateBy N key data))
  = List.length data.
Proof.
  unfold Computed.ElectricityDataAnalytics.aggregateBy.
  rewrite electricity_aggregateStep_gstep.
  rewrite totalN_fold with (c := fun _ => 1%nat); try reflexivity.
  apply sumN_ones.
Qed.

Lemma electricity_analytics_fields (data : list Item) :
  let a := Computed.ElectricityDataAnalytics.analytics N data in
  Computed.ElectricityDataAnalytics.totalQuantity
    (Computed.ElectricityDataAnalytics.totals a)
  = Computed.ElectricityDataAnalytics.sumQuantity N data
  /\ Computed.ElectricityDataAnalytics.totalCO2
       (Computed.ElectricityDataAnalytics.totals a)
     = Computed.ElectricityDataAnalytics.sumCO2 N data
  /\ Computed.ElectricityDataAnalytics.plant
       (Computed.ElectricityDataAnalytics.byCategory a)
     = Computed.ElectricityDataAnalytics.aggregateBy N "plant" data
  /\ Computed.ElectricityDataAnalytics.department
       (Computed.ElectricityDataAnalytics.byCategory a)
     = Computed.ElectricityDataAnalytics.aggregateBy N "department" data
  /\ Computed.ElectricityDataAnalytics.subCategory
       (Computed.ElectricityDataAnalytics.byCategory a)
     = Computed.ElectricityDataAnalytics.aggregateBy N "subCategory" data
  /\ Computed.ElectricityDataAnalytics.type
       (Computed.ElectricityDataAnalytics.byCategory a)
     = Computed.ElectricityDataAnalytics.aggregateBy N "type" data
  /\ Computed.ElectricityDataAnalytics.byMonth a
     = values (fold_left (Computed.ElectricityDataAnalytics.monthStep N) data []).
Proof. destruct data; repeat split; reflexivity. Qed.

End ElectricityOver.

(** X2.  The totals of ElectricityDataAnalytics are the sum of the
    quantities and the sum of the emissions over all records, the
    emissions of a record being its quantity times its conversion factor
    (0 standing for a missing figure), each added from the left in the
    order of the records; the averages are the totals divided by the
    number of records.  Each of the four groupings (plant, department,
    sub-category, type) has one group for each distinct key, "Unknown"
    standing for a missing or empty field, in the order the keys are
    first seen, with the quantities and emissions of its records added in
    their order and their number; the counts of a grouping add up to the
    number of records.  The months, with "N/A" for a missing month, hold
    the same two sums. *)
Theorem X2_electricity_totals_and_groupings :
  forall (N : Numbers) (data : list Item),
    let a := Computed.ElectricityDataAnalytics.analytics N data in
    let t := Computed.ElectricityDataAnalytics.totals a in
    let c := Computed.ElectricityDataAnalytics.byCategory a in
    Computed.ElectricityDataAnalytics.totalQuantity t
      = sumIn N (measureIn N "quantity") data
    /\ Computed.ElectricityDataAnalytics.totalCO2 t
       = sumIn N (Computed.ElectricityDataAnalytics.co2OrZero N) data
    /\ (forall d, Computed.ElectricityDataAnalytics.co2OrZero N d
                  = orZeroOf N (mul N (measureIn N "quantity" d)
                                  (measureIn N "convFactor" d)))
    /\ (data <> [] ->
        Computed.ElectricityDataAnalytics.avgQuantity t
          = div N (Computed.ElectricityDataAnalytics.totalQuantity t)
              (ofNat N (List.length data))
        /\ Computed.ElectricityDataAnalytics.avgCO2 t
           = div N (Computed.ElectricityDataAnalytics.totalCO2 t)
               (ofNat N (List.length data)))
    /\ (data = [] ->
        Computed.ElectricityDataAnalytics.avgQuantity t = zero N
        /\ Computed.ElectricityDataAnalytics.avgCO2 t = zero N)
    /\ Computed.ElectricityDataAnalytics.plant c
       = groupedBy _ (keyOr "plant" Unknown) (electricityGroup N) data
    /\ Computed.ElectricityDataAnalytics.department c
       = groupedBy _ (keyOr "department" Unknown) (electricityGroup N) data
    /\ Computed.ElectricityDataAnalytics.subCategory c
       = groupedBy _ (keyOr "subCategory" Unknown) (electricityGroup N) data
    /\ Computed.ElectricityDataAnalytics.type c
       = groupedBy _ (keyOr "type" Unknown) (electricityGroup N) data
    /\ Computed.ElectricityDataAnalytics.byMonth a
       = groupedBy _ (keyOr "month" (VStr (js "N/A"))) (electricityMonth N) data
    /\ (forall groups,
          In groups [Computed.ElectricityDataAnalytics.plant c;
                     Computed.ElectricityDataAnalytics.department c;
                     Computed.ElectricityDataAnalytics.subCategory c;
                     Computed.ElectricityDataAnalytics.type c] ->
          sumN (List.map Computed.ElectricityDataAnalytics.count groups)
          = List.length data).
Proof.
  intros N data a t c. subst c t a.
  destruct (electricity_analytics_fields N data) as (F1 & F2 & F3 & F4 & F5 & F6 & F7).
  rewrite F1, F2, F3, F4, F5, F6, F7.
  split; [reflexivity|]. split; [reflexivity|]. split; [reflexivity|].
  split; [intro Hne; destruct data; [now destruct Hne | split; reflexivity]|].
  split; [intros ->; split; reflexivity|].
  split; [apply electricity_groups|]. split; [apply electricity_groups|].
  split; [apply electricity_groups|]. split; [apply electricity_groups|].
  split; [apply electricity_months|].
  intros groups Hin. simpl in Hin.
  destruct Hin as [<- | [<- | [<- | [<- | []]]]]; apply electricity_group_counts.
Qed.

(** ** FossilFuelAnalytics: totals and breakdowns *)

Section FossilOver.
Variable N : Numbers.

Lemma fossil_fold_type (r : list Item) (k : JsVal) (a b c : number N) :
  fold_left (fun v d => Computed.FossilFuelAnalytics.addToType N d v) r
    (Computed.FossilFuelAnalytics.mkTypeEntry N k a b c)
  = Computed.FossilFuelAnalytics.mkTypeEntry N k
      (fold_left (fun s d => add N s (measureIn N "quantity" d)) r a)
      (fold_left (fun s d => add N s (measureIn N "value" d)) r b)
      (fold_left (fun s d => add N s (measureIn N "convFactor" d)) r c).
Proof.
  revert a b c. induction r as [|d r IH]; intros a b c; simpl; trivial.
  unfold Computed.FossilFuelAnalytics.addToType at 2. simpl. now rewrite IH.
Qed.

Lemma fossil_fold_dept (r : list Item) (k : JsVal) (a : number N) :
  fold_left (fun v d => Computed.FossilFuelAnalytics.addToDept N d v) r
    (Computed.FossilFuelAnalytics.mkDeptEntry N k a)
  = Computed.FossilFuelAnalytics.mkDeptEntry N k
      (fold_left (fun s d => add N s (measureIn N "value" d)) r a).
Proof.
  revert a. induction r as [|d r IH]; intro a; simpl; trivial.
  unfold Computed.FossilFuelAnalytics.addToDept at 2. simpl. now rewrite IH.
Qed.

Lemma fossil_fold_plant (r : list Item) (k : JsVal) (a : number N) :
  fold_left (fun v d => Computed.FossilFuelAnalytics.addToPlant N d v) r
    (Computed.FossilFuelAnalytics.mkPlantEntry N k a)
  = Computed.FossilFuelAnalytics.mkPlantEntry N k
      (fold_left (fun s d => add N s (measureIn N "quantity" d)) r a).
Proof.
  revert a. induction r as [|d r IH]; intro a; simpl; trivial.
  unfold Computed.FossilFuelAnalytics.addToPlant at 2. simpl. now rewrite IH.
Qed.

Lemma fossil_run (data : list Item) :
  let st := Computed.FossilFuelAnalytics.run N data in
  values (Computed.FossilFuelAnalytics.typeMap st)
    = groupedBy _ (keyOr "type" Unknown) (fossilType N) data
  /\ values (Computed.FossilFuelAnalytics.deptMap st)
     = groupedBy _ (keyOr "department" Unknown) (fossilDept N) data
  /\ values (Computed.FossilFuelAnalytics.plantMap st)
     = groupedBy _ (keyOr "plant" Unknown) (fossilPlant N) data
  /\ Computed.FossilFuelAnalytics.totalQty st = sumIn N (measureIn N "quantity") data
  /\ Computed.FossilFuelAnalytics.totalValue st = sumIn N (measureIn N "value") data
  /\ Computed.FossilFuelAnalytics.convSum st = sumIn N (measureIn N "convFactor") data.
Proof.
  unfold Computed.FossilFuelAnalytics.run, sumIn. cbv zeta.
  split; [|split; [|split; [|split; [|split]]]].
  - rewrite (fold_left_proj (Computed.FossilFuelAnalytics.step N)
               (gstep _ (keyOr "type" Unknown) (Computed.FossilFuelAnalytics.emptyType N)
                  (Computed.FossilFuelAnalytics.addToType N))
               Computed.FossilFuelAnalytics.typeMap) by reflexivity.
    apply grouped_in_order_key. intros k d0 r.
    unfold fossilType, sumIn, Computed.FossilFuelAnalytics.emptyType.
    unfold Computed.FossilFuelAnalytics.addToType at 2. simpl.
    now rewrite fossil_fold_type.
  - rewrite (fold_left_proj (Computed.FossilFuelAnalytics.step N)
               (gstep _ (keyOr "department" Unknown)
                  (Computed.FossilFuelAnalytics.emptyDept N)
                  (Computed.FossilFuelAnalytics.addToDept N))
               Computed.FossilFuelAnalytics.deptMap) by reflexivity.
    apply grouped_in_order_key. intros k d0 r.
    unfold fossilDept, sumIn, Computed.FossilFuelAnalytics.emptyDept.
    unfold Computed.FossilFuelAnalytics.addToDept at 2. simpl.
    now rewrite fossil_fold_dept.
  - rewrite (fold_left_proj (Computed.FossilFuelAnalytics.step N)
               (gstep _ (keyOr "plant" Unknown)
                  (Computed.FossilFuelAnalytics.emptyPlant N)
                  (Computed.FossilFuelAnalytics.addToPlant N))
               Computed.FossilFuelAnalytics.plantMap) by reflexivity.
    apply grouped_in_order_key. intros k d0 r.
    unfold fossilPlant, sumIn, Computed.FossilFuelAnalytics.emptyPlant.
    unfold Computed.FossilFuelAnalytics.addToPlant at 2. simpl.
    now rewrite fossil_fold_plant.
  - apply (fold_left_proj (Computed.FossilFuelAnalytics.step N) _
             Computed.FossilFuelAnalytics.totalQty). reflexivity.
  - apply (fold_left_proj (Computed.FossilFuelAnalytics.step N) _
             Computed.FossilFuelAnalytics.totalValue). reflexivity.
  - apply (fold_left_proj (Computed.FossilFuelAnalytics.step N) _
             Computed.FossilFuelAnalytics.convSum). reflexivity.
Qed.

Lemma fossil_analytics_fields (data : list Item) :
  let a := Computed.FossilFuelAnalytics.analytics N data in
  let st := Computed.FossilFuelAnalytics.run N data in
  Computed.FossilFuelAnalytics.byType a
  = List.map (fun t =>
      Computed.FossilFuelAnalytics.mkTypeSummary N
        (Computed.FossilFuelAnalytics.e_type t)
        (Computed.FossilFuelAnalytics.e_totalQty t)
        (Computed.FossilFuelAnalytics.e_totalValue t)
        (if gtb N (Computed.FossilFuelAnalytics.e_totalQty t) (zero N)
         then div N (Computed.FossilFuelAnalytics.e_avgConv t) (ofNat N (List.length data))
         else zero N))
      (values (Computed.FossilFuelAnalytics.typeMap st))
  /\ Computed.FossilFuelAnalytics.byDepartment a
     = values (Computed.FossilFuelAnalytics.deptMap st)
  /\ Computed.FossilFuelAnalytics.byPlant a
     = values (Computed.FossilFuelAnalytics.plantMap st)
  /\ Computed.FossilFuelAnalytics.t_totalQty (Computed.FossilFuelAnalytics.totals a)
     = Computed.FossilFuelAnalytics.totalQty st
  /\ Computed.FossilFuelAnalytics.t_totalValue (Computed.FossilFuelAnalytics.totals a)
     = Computed.FossilFuelAnalytics.totalValue st
  /\ Computed.FossilFuelAnalytics.avgConv (Computed.FossilFuelAnalytics.totals a)
     = meanOrZero N (Computed.FossilFuelAnalytics.convSum st) (List.length data).
Proof. destruct data; repeat split; reflexivity. Qed.

End FossilOver.

(** X3.  FossilFuelAnalytics makes, in one pass, a breakdown by type, by
    department and by plant and three running sums.  Each breakdown has
    one entry for each distinct key, "Unknown" standing for a missing or
    empty field, in the order the keys are first seen.  An entry by type
    holds the quantity and the value of its records, an entry by
    department their value, an entry by plant their quantity, each added
    from the left in the order of the records.  The totals hold the
    quantity and the value of all records, added in the same way, and the
    sum of the conversion factors divided by the number of records. *)
Theorem X3_fossil_fuel_totals_and_breakdowns :
  forall (N : Numbers) (data : list Item),
    let a := Computed.FossilFuelAnalytics.analytics N data in
    let t := Computed.FossilFuelAnalytics.totals a in
    List.map (fun s => (Computed.FossilFuelAnalytics.type s,
                        Computed.FossilFuelAnalytics.s_totalQty s,
                        Computed.FossilFuelAnalytics.s_totalValue s))
      (Computed.FossilFuelAnalytics.byType a)
    = groupedBy _ (keyOr "type" Unknown)
        (fun k members => (k, sumIn N (measureIn N "quantity") members,
                              sumIn N (measureIn N "value") members)) data
    /\ Computed.FossilFuelAnalytics.byDepartment a
       = groupedBy _ (keyOr "department" Unknown) (fossilDept N) data
    /\ Computed.FossilFuelAnalytics.byPlant a
       = groupedBy _ (keyOr "plant" Unknown) (fossilPlant N) data
    /\ Computed.FossilFuelAnalytics.t_totalQty t = sumIn N (measureIn N "quantity") data
    /\ Computed.FossilFuelAnalytics.t_totalValue t = sumIn N (measureIn N "value") data
    /\ Computed.FossilFuelAnalytics.avgConv t
       = meanOrZero N (sumIn N (measureIn N "convFactor") data) (List.length data).
Proof.
  intros N data a t. subst t a.
  destruct (fossil_analytics_fields N data) as (F1 & F2 & F3 & F4 & F5 & F6).
  destruct (fossil_run N data) as (HT & HD & HP & H1 & H2 & H3). cbv zeta in *.
  rewrite F1, F2, F3, F4, F5, F6, HT, HD, HP, H1, H2, H3.
  split; [|repeat split].
  rewrite map_map, groupedBy_map. reflexivity.
Qed.

(** ** Maps of numbers: entries in order *)

Lemma combine_fst_snd {A B : Type} (l : list (A * B)) :
  combine (List.map fst l) (List.map snd l) = l.
Proof. induction l as [|[a b] l IH]; simpl; congruence. Qed.

Lemma combine_map_r {A B : Type} (f : A -> B) (l : list A) :
  combine l (List.map f l) = List.map (fun x => (x, f x)) l.
Proof. induction l as [|a l IH]; simpl; congruence. Qed.

(** the entries of the map the loop leaves: each distinct key, in
    first-seen order, with what its records built *)
Lemma entries_in_order (V : Type) (keyOf : Item -> JsVal) (init : JsVal -> V)
  (upd : Item -> V -> V) (build : JsVal -> list Item -> V) :
  (forall k d0 r, build k (d0 :: r)
                  = fold_left (fun v d => upd d v) r (upd d0 (init k))) ->
  forall data,
    entries (fold_left (gstep V keyOf init upd) data [])
    = groupedBy _ keyOf (fun k members => (k, build k members)) data.
Proof.
  intros Hbuild data. unfold entries.
  rewrite <- (combine_fst_snd (fold_left (gstep V keyOf init upd) data [])).
  fold (keys (fold_left (gstep V keyOf init upd) data [])).
  fold (values (fold_left (gstep V keyOf init upd) data [])).
  rewrite keys_fold_firstSeen, (grouped_in_order_key V keyOf init upd build Hbuild).
  unfold groupedBy. apply combine_map_r.
Qed.

Lemma upsert_absent (V : Type) (m : Map V) (k : JsVal) (init : V) (f : V -> V) :
  has m k = false -> upsert m k init f = m ++ [(k, f init)].
Proof.
  intro H. unfold upsert. rewrite H. simpl. rewrite set_absent by exact H.
  induction m as [|[k0 v0] m IH]; simpl in *.
  - now rewrite sameValueZero_refl.
  - destruct (sameValueZero k0 k); [discriminate|]. simpl in H. now rewrite IH.
Qed.

(** ** FugitiveAnalytics: groupings, monthly trends and overview cards *)

Section FugitiveOver.
Variable N : Numbers.
Variable numberToString : Q -> jstring.

Lemma fugitive_fold_entry (r : list Item) (k : JsVal) (a b c e f : number N) (n : nat) :
  fold_left (fun v d => Computed.FugitiveAnalytics.addTo N d v) r
    (Computed.FugitiveAnalytics.mkEntry N k a b c e f n)
  = Computed.FugitiveAnalytics.mkEntry N k
      (fold_left (fun s d => add N s (measureIn N "quantity" d)) r a)
      (fold_left (fun s d => add N s (measureIn N "value" d)) r b)
      (fold_left (fun s d => add N s (measureIn N "convFactor" d)) r c)
      (fold_left (fun s d => add N s (measureIn N "rIntensity" d)) r e)
      (fold_left (fun s d => add N s (measureIn N "pppIntensity" d)) r f)
      (n + List.length r).
Proof.
  revert a b c e f n. induction r as [|d r IH]; intros a b c e f n; simpl.
  - now rewrite Nat.add_0_r.
  - unfold Computed.FugitiveAnalytics.addTo at 2. simpl. rewrite IH.
    f_equal. lia.
Qed.

Lemma fugitive_fold_trend (r : list Item) (k mo y t : JsVal) (a b : number N) :
  fold_left (fun v d => Computed.FugitiveAnalytics.addToTrend N d v) r
    (Computed.FugitiveAnalytics.mkTrend N k mo y t a b)
  = Computed.FugitiveAnalytics.mkTrend N k mo y t
      (fold_left (fun s d => add N s (measureIn N "quantity" d)) r a)
      (fold_left (fun s d => add N s (measureIn N "value" d)) r b).
Proof.
  revert a b. induction r as [|d r IH]; intros a b; simpl; trivial.
  unfold Computed.FugitiveAnalytics.addToTrend at 2. simpl. now rewrite IH.
Qed.

Lemma fugitive_aggregate (key : string) (data : list Item) :
  Computed.FugitiveAnalytics.aggregate N key data
  = groupedBy _ (keyOr key Unknown) (fugitiveSummary N) data.
Proof.
  unfold Computed.FugitiveAnalytics.aggregate.
  change (Computed.FugitiveAnalytics.aggregateStep N key)
    with (gstep _ (keyOr key Unknown) (Computed.FugitiveAnalytics.emptyEntry N)
            (Computed.FugitiveAnalytics.addTo N)).
  rewrite (grouped_in_order_key _ (keyOr key Unknown)
             (Computed.FugitiveAnalytics.emptyEntry N)
             (Computed.FugitiveAnalytics.addTo N)
             (fun k members =>
                Computed.FugitiveAnalytics.mkEntry N k
                  (sumIn N (measureIn N "quantity") members)
                  (sumIn N (measureIn N "value") members)
                  (sumIn N (measureIn N "convFactor") members)
                  (sumIn N (measureIn N "rIntensity") members)
                  (sumIn N (measureIn N "pppIntensity") members)
                  (List.length members))).
  - rewrite groupedBy_map. reflexivity.
  - intros k d0 r. unfold sumIn, Computed.FugitiveAnalytics.emptyEntry.
    unfold Computed.FugitiveAnalytics.addTo at 2. simpl.
    now rewrite fugitive_fold_entry.
Qed.

Lemma fugitive_trends (data : list Item) :
  values (fold_left (Computed.FugitiveAnalytics.monthlyStep N numberToString) data [])
  = groupedBy _ (Computed.FugitiveAnalytics.trendKey numberToString) (fugitiveTrend N) data.
Proof.
  change (Computed.FugitiveAnalytics.monthlyStep N numberToString)
    with (gstepFrom _ (Computed.FugitiveAnalytics.trendKey numberToString)
            (Computed.FugitiveAnalytics.newTrend N numberToString)
            (Computed.FugitiveAnalytics.addToTrend N)).
  apply grouped_in_order.
  intros d0 r. unfold fugitiveTrend, sumIn, Computed.FugitiveAnalytics.newTrend.
  unfold Computed.FugitiveAnalytics.addToTrend at 2. simpl.
  now rewrite fugitive_fold_trend.
Qed.

Lemma fugitive_analytics_fields (data : list Item) :
  let a := Computed.FugitiveAnalytics.analytics N numberToString data in
  Computed.FugitiveAnalytics.byType a
    = Computed.FugitiveAnalytics.aggregate N "type" data
  /\ Computed.FugitiveAnalytics.byAttribute a
     = Computed.FugitiveAnalytics.aggregate N "attribute" data
  /\ Computed.FugitiveAnalytics.byParameter a
     = Computed.FugitiveAnalytics.aggregate N "parameter" data
  /\ Computed.FugitiveAnalytics.bySubCategory a
     = Computed.FugitiveAnalytics.aggregate N "subCategory" data
  /\ Computed.FugitiveAnalytics.monthlyTrends a
     = values (fold_left (Computed.FugitiveAnalytics.monthlyStep N numberToString) data []).
Proof. destruct data; repeat split; reflexivity. Qed.

End FugitiveOver.

(** X14.  Each of the four groupings of FugitiveAnalytics (type,
    attribute, parameter, sub-category) has one summary for each distinct
    key, "Unknown" standing for a missing or empty field, in the order
    the keys are first seen.  A summary holds the quantity and the value
    of its records, added from the left in the order of the records, and
    three averages (conversion factor, R intensity, PPP intensity), each
    the sum over its records divided by their number.  The monthly trends
    have one entry for each distinct month, year and type, in first-seen
    order, with the quantity and value of its records added in their
    order; the month, year and type of an entry are those of the first
    record of its key as that record has them, so a missing one stays
    undefined where the key reads "Unknown".  The overview cards show the
    sums over all records and, for the three factors, the sums divided by
    the number of records. *)
Theorem X14_fugitive_groupings_trends_and_cards :
  forall (N : Numbers) (numberToString : Q -> jstring) (data : list Item),
    let a := Computed.FugitiveAnalytics.analytics N numberToString data in
    Computed.FugitiveAnalytics.byType a
      = groupedBy _ (keyOr "type" Unknown) (fugitiveSummary N) data
    /\ Computed.FugitiveAnalytics.byAttribute a
       = groupedBy _ (keyOr "attribute" Unknown) (fugitiveSummary N) data
    /\ Computed.FugitiveAnalytics.byParameter a
       = groupedBy _ (keyOr "parameter" Unknown) (fugitiveSummary N) data
    /\ Computed.FugitiveAnalytics.bySubCategory a
       = groupedBy _ (keyOr "subCategory" Unknown) (fugitiveSummary N) data
    /\ Computed.FugitiveAnalytics.monthlyTrends a
       = groupedBy _ (Computed.FugitiveAnalytics.trendKey numberToString)
           (fugitiveTrend N) data
    /\ (forall t, In t (Computed.FugitiveAnalytics.monthlyTrends a) ->
          exists d r,
            membersOf (Computed.FugitiveAnalytics.trendKey numberToString)
              (Computed.FugitiveAnalytics.monthYearType t) data = d :: r
            /\ Computed.FugitiveAnalytics.trendKey numberToString d
               = Computed.FugitiveAnalytics.monthYearType t
            /\ Computed.FugitiveAnalytics.month t = prop d "month"
            /\ Computed.FugitiveAnalytics.year t = prop d "financialYear"
            /\ Computed.FugitiveAnalytics.type t = prop d "type")
    /\ (forall field,
          Computed.FugitiveAnalytics.cardTotal N field data
            = sumIn N (measureIn N field) data
          /\ Computed.FugitiveAnalytics.cardAverage N field data
             = div N (sumIn N (measureIn N field) data) (ofNat N (List.length data))).
Proof.
  intros N numberToString data a.
  destruct (fugitive_analytics_fields N numberToString data) as (F1 & F2 & F3 & F4 & F5).
  cbv zeta in *. fold a in F1, F2, F3, F4, F5.
  rewrite F1, F2, F3, F4, F5, fugitive_trends.
  split; [apply fugitive_aggregate|]. split; [apply fugitive_aggregate|].
  split; [apply fugitive_aggregate|]. split; [apply fugitive_aggregate|].
  split; [reflexivity|]. split; [|intro field; split; reflexivity].
  intros t Hin.
  destruct (grouped_members (Computed.FugitiveAnalytics.trendKey numberToString) _
              (fugitiveTrend N) data t Hin) as [k (Hk & Hne & ->)].
  cbn [fugitiveTrend Computed.FugitiveAnalytics.monthYearType
       Computed.FugitiveAnalytics.month Computed.FugitiveAnalytics.year
       Computed.FugitiveAnalytics.type].
  destruct (membersOf (Computed.FugitiveAnalytics.trendKey numberToString) k data)
    as [|d r] eqn:Em; [now destruct Hne|].
  exists d, r. repeat split.
  apply (first_member_key (Computed.FugitiveAnalytics.trendKey numberToString)
           data k d r Hk Em).
Qed.

(** ** OpennessAnalytics: KPI totals, compliance rate, monthly trends *)

Section OpennessOver.
Variable N : Numbers.

Lemma openness_fold_month (r : list Item) (k : JsVal) (a b : number N) :
  fold_left (fun v d => Computed.OpennessAnalytics.addToMonth N d v) r
    (Computed.OpennessAnalytics.mkMonth N k a b)
  = Computed.OpennessAnalytics.mkMonth N k
      (fold_left (fun s d => add N s (operandIn N "rptPurchases" d)) r a)
      (fold_left (fun s d => add N s (operandIn N "rptSales" d)) r b).
Proof.
  revert a b. induction r as [|d r IH]; intros a b; simpl; trivial.
  unfold Computed.OpennessAnalytics.addToMonth at 2. simpl. now rewrite IH.
Qed.

Lemma openness_months (data : list Item) :
  values (Computed.OpennessAnalytics.monthlyMap N data)
  = groupedBy _ (fun d => prop d "monthYear") (opennessMonth N) data.
Proof.
  unfold Computed.OpennessAnalytics.monthlyMap.
  change (Computed.OpennessAnalytics.monthlyStep N)
    with (gstep _ (fun d => prop d "monthYear") (Computed.OpennessAnalytics.emptyMonth N)
            (Computed.OpennessAnalytics.addToMonth N)).
  apply grouped_in_order_key.
  intros k d0 r. unfold opennessMonth, sumIn, Computed.OpennessAnalytics.emptyMonth.
  unfold Computed.OpennessAnalytics.addToMonth at 2. simpl.
  now rewrite openness_fold_month.
Qed.

Lemma withGrowth_length (prev : option (Computed.OpennessAnalytics.Month N))
  (months : list (Computed.OpennessAnalytics.Month N)) :
  List.length (Computed.OpennessAnalytics.withGrowth N prev months) = List.length months.
Proof.
  revert prev. induction months as [|d months IH]; intro prev; simpl; trivial.
  now rewrite IH.
Qed.

Lemma withGrowth_first (prev : option (Computed.OpennessAnalytics.Month N))
  (months : list (Computed.OpennessAnalytics.Month N)) :
  nth_error (Computed.OpennessAnalytics.withGrowth N prev months) 0
  = option_map (Computed.OpennessAnalytics.trendOf N prev) (nth_error months 0).
Proof. destruct months; reflexivity. Qed.

Lemma withGrowth_next (prev : option (Computed.OpennessAnalytics.Month N))
  (months : list (Computed.OpennessAnalytics.Month N)) (i : nat)
  (p c : Computed.OpennessAnalytics.Month N) :
  nth_error months i = Some p -> nth_error months (S i) = Some c ->
  nth_error (Computed.OpennessAnalytics.withGrowth N prev months) (S i)
  = Some (Computed.OpennessAnalytics.trendOf N (Some p) c).
Proof.
  revert prev i. induction months as [|d months IH]; intros prev i Hp Hc.
  - destruct i; discriminate.
  - destruct i as [|i].
    + injection Hp as ->. destruct months as [|c' months]; [discriminate|].
      injection Hc as ->. reflexivity.
    + simpl in Hp, Hc. simpl. now apply IH.
Qed.

Lemma openness_dimStep_over (dim field : string) (m : Map (number N)) (d : Item) :
  Computed.OpennessAnalytics.dimStep N dim field m d
  = gstep _ (fun d => prop d dim) (fun _ => zero N)
      (fun d x => add N x (Computed.OpennessAnalytics.parsed N field d)) m d.
Proof.
  unfold Computed.OpennessAnalytics.dimStep, gstep, upsert.
  apply (set_get_mutate _ _ (prop d dim)
           (fun x => add N x (Computed.OpennessAnalytics.parsed N field d)) (nan N)).
  destruct (has m (prop d dim)) eqn:E; simpl; trivial. apply has_set.
Qed.

End OpennessOver.

Lemma fold_left_ext_steps {A B : Type} (f g : A -> B -> A) :
  (forall a b, f a b = g a b) ->
  forall l a, fold_left f l a = fold_left g l a.
Proof.
  intros H l. induction l as [|b l IH]; intro a; simpl; trivial.
  now rewrite H, IH.
Qed.

Lemma fold_keeps_sum (N : Numbers) (c : Item -> number N) (r : list Item) (a : number N) :
  fold_left (fun x d => add N x (c d)) r a = fold_left (fun s d => add N s (c d)) r a.
Proof. reflexivity. Qed.

Lemma openness_dimGroups (N : Numbers) (dim field : string) (data : list Item) :
  Computed.OpennessAnalytics.dimGroups N dim field data
  = groupedBy _ (fun d => prop d dim) (opennessBreakdown N field) data.
Proof.
  unfold Computed.OpennessAnalytics.dimGroups.
  rewrite (fold_left_ext_steps _ _ (openness_dimStep_over N dim field)).
  rewrite (entries_in_order _ (fun d => prop d dim) (fun _ => zero N)
             (fun d x => add N x (Computed.OpennessAnalytics.parsed N field d))
             (fun _ members => sumIn N (Computed.OpennessAnalytics.parsed N field) members)).
  - rewrite groupedBy_map. reflexivity.
  - intros k d0 r. reflexivity.
Qed.

Lemma isY_spec (v : JsVal) :
  Computed.OpennessAnalytics.isY v = true <-> v = VStr (js "Y").
Proof.
  destruct v as [| | | |s]; simpl; try (split; discriminate).
  unfold jstring_eqb. destruct (list_eq_dec N.eq_dec s (js "Y")) as [->|Hn].
  - split; reflexivity.
  - split; [discriminate|]. intros [= E]. now destruct Hn.
Qed.


(** X13.  The monthly trends of OpennessAnalytics have one entry for each
    distinct [monthYear] as the records have it, in the order the values
    are first seen; an entry holds the purchases and the sales of the
    records of its month, added from the left in the order of the
    records, with no default for a missing figure.  The growth figures of
    the first entry are 0; those of every later entry are computed from
    the totals of the entry before it: 0 when that total is zero or NaN,
    and otherwise the difference of the two totals divided by the earlier
    one, times 100. *)
Theorem X13_openness_monthly_trends_and_growth :
  forall (N : Numbers) (data : list Item),
    let months := groupedBy _ (fun d => prop d "monthYear") (opennessMonth N) data in
    let trends := Computed.OpennessAnalytics.monthlyTrends N data in
    values (Computed.OpennessAnalytics.monthlyMap N data) = months
    /\ List.map Computed.OpennessAnalytics.t_monthYear trends
       = firstSeen (List.map (fun d => prop d "monthYear") data)
    /\ List.length trends = List.length months
    /\ nth_error trends 0
       = option_map (fun m =>
           Computed.OpennessAnalytics.mkTrend N
             (Computed.OpennessAnalytics.monthYear m)
             (Computed.OpennessAnalytics.rptPurchases m)
             (Computed.OpennessAnalytics.rptSales m) (zero N) (zero N))
           (nth_error months 0)
    /\ (forall i p c,
          nth_error months i = Some p -> nth_error months (S i) = Some c ->
          nth_error trends (S i)
          = Some (Computed.OpennessAnalytics.mkTrend N
                    (Computed.OpennessAnalytics.monthYear c)
                    (Computed.OpennessAnalytics.rptPurchases c)
                    (Computed.OpennessAnalytics.rptSales c)
                    (Computed.OpennessAnalytics.growth N
                       (Computed.OpennessAnalytics.rptPurchases p)
                       (Computed.OpennessAnalytics.rptPurchases c))
                    (Computed.OpennessAnalytics.growth N
                       (Computed.OpennessAnalytics.rptSales p)
                       (Computed.OpennessAnalytics.rptSales c))))
    /\ (forall prev cur,
          Computed.OpennessAnalytics.growth N prev cur
          = if isFalsy N prev then zero N
            else mul N (div N (sub N cur prev) prev) (hundred N)).
Proof.
  intros N data months trends. subst trends months.
  unfold Computed.OpennessAnalytics.monthlyTrends. rewrite openness_months.
  set (months := groupedBy _ (fun d => prop d "monthYear") (opennessMonth N) data).
  split; [reflexivity|]. split.
  { transitivity (List.map Computed.OpennessAnalytics.monthYear months).
    - generalize (@None (Computed.OpennessAnalytics.Month N)).
      induction months as [|m l IH]; intro prev; simpl; trivial.
      rewrite IH. f_equal. destruct prev; reflexivity.
    - unfold months. rewrite groupedBy_map. unfold groupedBy. simpl. apply map_id. }
  split; [apply withGrowth_length|].
  split; [apply withGrowth_first|].
  split; [intros i p c Hp Hc; now apply withGrowth_next | reflexivity].
Qed.

(** X15.  The breakdowns of OpennessAnalytics group the records by
    [dim1] and by [dim2] as the records have them, with no default: a
    record without the dimension goes to the group of [undefined].
    Before they are sorted and cut to 20, the groups are one for each
    distinct value, in the order the values are first seen, and a group
    holds the purchases (for [dim1]; the sales for [dim2]) of its
    records, a missing figure counting as 0, added from the left in the
    order of the records. *)
Theorem X15_openness_breakdowns_group_by_raw_dimension :
  forall (N : Numbers) (data : list Item),
    Computed.OpennessAnalytics.dimGroups N "dim1" "rptPurchases" data
      = groupedBy _ (fun d => prop d "dim1") (opennessBreakdown N "rptPurchases") data
    /\ Computed.OpennessAnalytics.dimGroups N "dim2" "rptSales" data
       = groupedBy _ (fun d => prop d "dim2") (opennessBreakdown N "rptSales") data
    /\ List.length (Computed.OpennessAnalytics.dimGroups N "dim1" "rptPurchases" data)
       = distinctDims "dim1" data
    /\ List.length (Computed.OpennessAnalytics.dimGroups N "dim2" "rptSales" data)
       = distinctDims "dim2" data
    /\ (forall d, In d data -> lookup (props d) "dim1" = None ->
        In VUndefined
          (List.map Computed.OpennessAnalytics.category
             (Computed.OpennessAnalytics.dimGroups N "dim1" "rptPurchases" data)))
    /\ (forall field d,
          Computed.OpennessAnalytics.parsed N field d
          = match read N d field with Some x => x | None => zero N end).
Proof.
  intros N data. rewrite !openness_dimGroups.
  split; [reflexivity|]. split; [reflexivity|].
  split; [unfold groupedBy, distinctDims; now rewrite length_map|].
  split; [unfold groupedBy, distinctDims; now rewrite length_map|].
  split; [|reflexivity].
  intros d Hd Hnone. rewrite groupedBy_map. unfold groupedBy. simpl. rewrite map_id.
  assert (Hin : In VUndefined (List.map (fun d => prop d "dim1") data)).
  { apply in_map_iff. exists d. split; trivial. unfold prop. now rewrite Hnone. }
  assert (Hk : InA eqK VUndefined (firstSeen (List.map (fun d => prop d "dim1") data))).
  { apply firstSeen_InA, InA_alt. exists VUndefined. split; [reflexivity | exact Hin]. }
  apply InA_alt in Hk. destruct Hk as [y [Hy Hy']].
  destruct y; try discriminate. exact Hy'.
Qed.

(** ** DiversityDataAnalytics: overview, trends, compliance, breakdowns *)

Section DiversityOver.
Variable N : Numbers.
Variable numberToString : Q -> jstring.

Local Abbreviation turn :=
  (fun (acc : option (Computed.DiversityDataAnalytics.State N)) (d : Item) =>
     match acc with
     | Some st => Computed.DiversityDataAnalytics.step N numberToString st d
     | None => None
     end).

Lemma diversity_fold_month (r : list Item) (k : JsVal) (a b c e f : number N) (n : nat) :
  fold_left (fun v d => Computed.DiversityDataAnalytics.addToMonth N d v) r
    (Computed.DiversityDataAnalytics.mkMonthData N k a b c e f n)
  = Computed.DiversityDataAnalytics.mkMonthData N k
      (fold_left (fun s d => add N s (operandIn N "wagesFemales" d)) r a)
      (fold_left (fun s d => add N s (operandIn N "wagesMales" d)) r b)
      (fold_left (fun s d => add N s (operandIn N "totalComplaints" d)) r c)
      (fold_left (fun s d => add N s (operandIn N "complaintsByFemale" d)) r e)
      (fold_left (fun s d => add N s (operandIn N "poshUpheld" d)) r f)
      (n + List.length r).
Proof.
  revert a b c e f n. induction r as [|d r IH]; intros a b c e f n; simpl.
  - now rewrite Nat.add_0_r.
  - unfold Computed.DiversityDataAnalytics.addToMonth at 2. simpl. rewrite IH.
    f_equal. lia.
Qed.

Lemma diversity_fold_overview (r : list Item) (a b c e f : number N) (n t : nat) :
  fold_left (fun o d => Computed.DiversityDataAnalytics.addToOverview N d
                          (compliantRecord d) o) r
    (Computed.DiversityDataAnalytics.mkOverview N a b c e f n t)
  = Computed.DiversityDataAnalytics.mkOverview N
      (fold_left (fun s d => add N s (operandIn N "wagesFemales" d)) r a)
      (fold_left (fun s d => add N s (operandIn N "wagesMales" d)) r b)
      (fold_left (fun s d => add N s (operandIn N "totalComplaints" d)) r c)
      (fold_left (fun s d => add N s (operandIn N "complaintsByFemale" d)) r e)
      (fold_left (fun s d => add N s (operandIn N "poshUpheld" d)) r f)
      (n + List.length (filter compliantRecord r))
      (t + List.length r).
Proof.
  revert a b c e f n t. induction r as [|d r IH]; intros a b c e f n t; simpl.
  - now rewrite !Nat.add_0_r.
  - unfold Computed.DiversityDataAnalytics.addToOverview at 2. simpl. rewrite IH.
    destruct (compliantRecord d); simpl; f_equal; lia.
Qed.

Lemma diversity_months (data : list Item) :
  values (fold_left (gstep _ (Computed.DiversityDataAnalytics.monthYearKey numberToString)
                       (Computed.DiversityDataAnalytics.emptyMonth N)
                       (Computed.DiversityDataAnalytics.addToMonth N)) data [])
  = groupedBy _ (Computed.DiversityDataAnalytics.monthYearKey numberToString)
      (diversityMonth N) data.
Proof.
  apply grouped_in_order_key.
  intros k d0 r. unfold diversityMonth, sumIn, Computed.DiversityDataAnalytics.emptyMonth.
  unfold Computed.DiversityDataAnalytics.addToMonth at 2. simpl.
  now rewrite diversity_fold_month.
Qed.

Lemma orZeroOf_zero : orZeroOf N (zero N) = zero N.
Proof. unfold orZeroOf. now destruct (isFalsy N (zero N)). Qed.

Lemma diversity_dimStep_over (dim : string) (m : Map (number N)) (d : Item) :
  truthy (prop d dim) = true ->
  Computed.DiversityDataAnalytics.dimStep N dim m d
  = gstep _ (fun d => prop d dim) (fun _ => zero N)
      (fun d x => add N (orZeroOf N x) (operandIn N "totalComplaints" d)) m d.
Proof.
  intro Ht. unfold Computed.DiversityDataAnalytics.dimStep, gstep. rewrite Ht.
  set (k := prop d dim).
  set (f := fun x => add N (orZeroOf N x) (operandIn N "totalComplaints" d)).
  destruct (has m k) eqn:E.
  - pose proof (set_get_mutate _ m k f (zero N) E) as H.
    unfold upsert. rewrite E. simpl. rewrite <- H.
    rewrite has_get in E. destruct (get m k); [reflexivity | discriminate].
  - rewrite (upsert_absent _ m k (zero N) f E), set_absent by exact E.
    rewrite has_get in E. destruct (get m k); [discriminate|].
    unfold f. now rewrite orZeroOf_zero.
Qed.

Lemma diversity_dim_fold (dim : string) (data : list Item) (m : Map (number N)) :
  fold_left (Computed.DiversityDataAnalytics.dimStep N dim) data m
  = fold_left (gstep _ (fun d => prop d dim) (fun _ => zero N)
                 (fun d x => add N (orZeroOf N x) (operandIn N "totalComplaints" d)))
      (filter (hasDim dim) data) m.
Proof.
  revert m. induction data as [|d data IH]; intro m; simpl; trivial.
  unfold hasDim at 1. destruct (truthy (prop d dim)) eqn:E; simpl.
  - rewrite diversity_dimStep_over by exact E. apply IH.
  - unfold Computed.DiversityDataAnalytics.dimStep at 2. rewrite E. apply IH.
Qed.

(** the complaints by a dimension: one entry for each distinct value
    among the records that have one *)
Lemma diversity_dim_entries (dim : string) (data : list Item) :
  entries (fold_left (Computed.DiversityDataAnalytics.dimStep N dim) data [])
  = groupedBy _ (fun d => prop d dim) (fun k members => (k, complaintsOf N members))
      (filter (hasDim dim) data).
Proof.
  rewrite diversity_dim_fold.
  apply (entries_in_order _ (fun d => prop d dim) (fun _ => zero N)
           (fun d x => add N (orZeroOf N x) (operandIn N "totalComplaints" d))
           (fun _ members => complaintsOf N members)).
  intros k d0 r. reflexivity.
Qed.

Lemma diversity_turn_none (data : list Item) : fold_left turn data None = None.
Proof. induction data as [|d data IH]; simpl; trivial. Qed.

(** the state a pass leaves when no turn has thrown *)
Lemma diversity_run_components (data : list Item)
  (st st' : Computed.DiversityDataAnalytics.State N) :
  fold_left turn data (Some st) = Some st' ->
  indicatorsAreText data
  /\ Computed.DiversityDataAnalytics.overviewMetrics st'
     = fold_left (fun o d => Computed.DiversityDataAnalytics.addToOverview N d
                               (compliantRecord d) o) data
         (Computed.DiversityDataAnalytics.overviewMetrics st)
  /\ Computed.DiversityDataAnalytics.monthYearMap st'
     = fold_left (gstep _ (Computed.DiversityDataAnalytics.monthYearKey numberToString)
                    (Computed.DiversityDataAnalytics.emptyMonth N)
                    (Computed.DiversityDataAnalytics.addToMonth N)) data
         (Computed.DiversityDataAnalytics.monthYearMap st)
  /\ Computed.DiversityDataAnalytics.complaintsByDim1 st'
     = fold_left (Computed.DiversityDataAnalytics.dimStep N "dim1") data
         (Computed.DiversityDataAnalytics.complaintsByDim1 st)
  /\ Computed.DiversityDataAnalytics.complaintsByDim2 st'
     = fold_left (Computed.DiversityDataAnalytics.dimStep N "dim2") data
         (Computed.DiversityDataAnalytics.complaintsByDim2 st).
Proof.
  revert st. induction data as [|d data IH]; intros st H.
  - simpl in H. injection H as <-. repeat split. constructor.
  - simpl in H. unfold Computed.DiversityDataAnalytics.step in H.
    destruct (Computed.DiversityDataAnalytics.isCompliant (prop d "complianceInd"))
      as [yes|] eqn:E.
    + destruct (IH _ H) as (I0 & I1 & I2 & I3 & I4).
      assert (Ey : compliantRecord d = yes) by (unfold compliantRecord; now rewrite E).
      split; [constructor; [now rewrite E | exact I0]|].
      simpl. rewrite Ey. repeat split; assumption.
    + rewrite diversity_turn_none in H. discriminate H.
Qed.

Lemma diversity_run_some (data : list Item) (st : Computed.DiversityDataAnalytics.State N) :
  indicatorsAreText data -> exists st', fold_left turn data (Some st) = Some st'.
Proof.
  intro H. revert st. induction H as [|d data Hd Hdata IH]; intro st.
  - now exists st.
  - simpl. unfold Computed.DiversityDataAnalytics.step.
    destruct (Computed.DiversityDataAnalytics.isCompliant (prop d "complianceInd"));
      [apply IH | now destruct Hd].
Qed.

Lemma diversity_analytics_empty :
  Computed.DiversityDataAnalytics.analytics N numberToString []
  = Some (Computed.DiversityDataAnalytics.mkAnalytics N None [] [] [] (zero N)).
Proof. reflexivity. Qed.

Lemma diversity_analytics_nonempty (data : list Item) :
  data <> [] ->
  Computed.DiversityDataAnalytics.analytics N numberToString data
  = match Computed.DiversityDataAnalytics.run N numberToString data with
    | None => None
    | Some st =>
        let o := Computed.DiversityDataAnalytics.overviewMetrics st in
        Some
          (Computed.DiversityDataAnalytics.mkAnalytics N (Some o)
             (List.map (fun m =>
                Computed.DiversityDataAnalytics.mkWagesTrend N
                  (Computed.DiversityDataAnalytics.monthYear m)
                  (Computed.DiversityDataAnalytics.wagesFemales m)
                  (Computed.DiversityDataAnalytics.wagesMales m))
                (values (Computed.DiversityDataAnalytics.monthYearMap st)))
             (List.map (fun e =>
                Computed.DiversityDataAnalytics.mkBreakdown N (fst e) (snd e))
                (entries (Computed.DiversityDataAnalytics.complaintsByDim1 st)))
             (List.map (fun m =>
                Computed.DiversityDataAnalytics.mkPoshTrend N
                  (Computed.DiversityDataAnalytics.monthYear m)
                  (Computed.DiversityDataAnalytics.poshUpheld m))
                (values (Computed.DiversityDataAnalytics.monthYearMap st)))
             (percentOf N (Computed.DiversityDataAnalytics.complianceCount o)
                (Computed.DiversityDataAnalytics.complianceTotal o)))
    end.
Proof. destruct data; [intro H; now destruct H | reflexivity]. Qed.

(** what [analytics] returns for records, when it returns *)
Lemma diversity_analytics_some (data : list Item)
  (a : Computed.DiversityDataAnalytics.Analytics N) :
  data <> [] ->
  Computed.DiversityDataAnalytics.analytics N numberToString data = Some a ->
  indicatorsAreText data
  /\ Computed.DiversityDataAnalytics.a_overviewMetrics a = Some (diversityOverview N data)
  /\ Computed.DiversityDataAnalytics.wagesTrends a
     = groupedBy _ (Computed.DiversityDataAnalytics.monthYearKey numberToString)
         (diversityWages N) data
  /\ Computed.DiversityDataAnalytics.complaintsBreakdown a
     = groupedBy _ (fun d => prop d "dim1") (diversityBreakdown N)
         (filter (hasDim "dim1") data)
  /\ Computed.DiversityDataAnalytics.poshTrend a
     = groupedBy _ (Computed.DiversityDataAnalytics.monthYearKey numberToString)
         (diversityPosh N) data
  /\ Computed.DiversityDataAnalytics.complianceSummary a
     = percentOf N (List.length (filter compliantRecord data)) (List.length data).
Proof.
  intros Hne H. rewrite (diversity_analytics_nonempty data Hne) in H.
  destruct (Computed.DiversityDataAnalytics.run N numberToString data) as [st|] eqn:R;
    [|discriminate].
  unfold Computed.DiversityDataAnalytics.run in R.
  destruct (diversity_run_components data _ st R) as (I0 & I1 & I2 & I3 & _).
  assert (Ho : Computed.DiversityDataAnalytics.overviewMetrics st
               = diversityOverview N data).
  { rewrite I1. unfold Computed.DiversityDataAnalytics.initial.
    cbn [Computed.DiversityDataAnalytics.overviewMetrics].
    now rewrite diversity_fold_overview. }
  assert (Hm : values (Computed.DiversityDataAnalytics.monthYearMap st)
               = groupedBy _ (Computed.DiversityDataAnalytics.monthYearKey numberToString)
                   (diversityMonth N) data).
  { rewrite I2. apply diversity_months. }
  assert (Hd : entries (Computed.DiversityDataAnalytics.complaintsByDim1 st)
               = groupedBy _ (fun d => prop d "dim1")
                   (fun k members => (k, complaintsOf N members))
                   (filter (hasDim "dim1") data)).
  { rewrite I3. apply diversity_dim_entries. }
  cbv zeta in H. rewrite Ho, Hm, Hd in H. injection H as <-.
  cbn [Computed.DiversityDataAnalytics.a_overviewMetrics
       Computed.DiversityDataAnalytics.wagesTrends
       Computed.DiversityDataAnalytics.complaintsBreakdown
       Computed.DiversityDataAnalytics.poshTrend
       Computed.DiversityDataAnalytics.complianceSummary].
  split; [exact I0|]. split; [reflexivity|].
  rewrite !groupedBy_map.
  split; [reflexivity|]. split; [reflexivity|]. split; reflexivity.
Qed.

Lemma diversity_analytics_returns (data : list Item) :
  indicatorsAreText data ->
  exists a, Computed.DiversityDataAnalytics.analytics N numberToString data = Some a.
Proof.
  intro H. destruct data as [|d0 l]; [rewrite diversity_analytics_empty; eauto|].
  rewrite diversity_analytics_nonempty by discriminate.
  destruct (diversity_run_some (d0 :: l) (Computed.DiversityDataAnalytics.initial N) H)
    as [st R].
  unfold Computed.DiversityDataAnalytics.run. rewrite R. eauto.
Qed.

End DiversityOver.

Lemma firstSeen_In (k : JsVal) (ks : list JsVal) : In k (firstSeen ks) -> In k ks.
Proof.
  induction ks as [|x ks IH]; simpl; trivial.
  intros [-> | H]; [now left | right].
  apply IH. apply filter_In in H. apply H.
Qed.

Lemma isCompliant_spec (d : Item) :
  compliantRecord d = true
  <-> prop d "complianceInd" = VStr (js "y") \/ prop d "complianceInd" = VStr (js "Y").
Proof.
  unfold compliantRecord.
  destruct (prop d "complianceInd") as [| |b|q|s]; simpl;
    try (split; [discriminate | intros [H | H]; discriminate H]).
  unfold jstring_eqb.
  destruct (list_eq_dec N.eq_dec s (js "y")) as [Ey|Hy];
    destruct (list_eq_dec N.eq_dec s (js "Y")) as [EY|HY]; simpl.
  - subst s. split; auto.
  - subst s. split; auto.
  - subst s. split; auto.
  - split; [discriminate|]. intros [[= E] | [= E]]; contradiction.
Qed.

(** X10.  DiversityDataAnalytics returns nothing for no records.  For
    records whose compliance indicator is a string or is missing, it
    returns: the overview, with the five sums (wages of females and of
    males, complaints, complaints by females, POSH upheld) over all
    records, the number of records, and the number of records whose
    indicator is "y" or "Y"; the wages trends and the POSH trend, with
    one entry for each distinct month and financial year ("Unknown" for a
    missing or empty one), in first-seen order, holding the sums over the
    records of the key; and the compliance summary, the compliant count
    divided by the record count, times 100.  Every sum is added from the
    left in the order of the records, with no default for a missing
    figure.  When the indicator of a record is a number or a boolean the
    pass throws and nothing is returned. *)
Theorem X10_diversity_overview_and_trends :
  forall (N : Numbers) (numberToString : Q -> jstring) (data : list Item),
    indicatorsAreText data ->
    exists a,
      Computed.DiversityDataAnalytics.analytics N numberToString data = Some a
      /\ Computed.DiversityDataAnalytics.a_overviewMetrics a
         = match data with
           | [] => None
           | _ => Some (diversityOverview N data)
           end
      /\ Computed.DiversityDataAnalytics.wagesTrends a
         = groupedBy _ (Computed.DiversityDataAnalytics.monthYearKey numberToString)
             (diversityWages N) data
      /\ Computed.DiversityDataAnalytics.poshTrend a
         = groupedBy _ (Computed.DiversityDataAnalytics.monthYearKey numberToString)
             (diversityPosh N) data
      /\ Computed.DiversityDataAnalytics.complianceSummary a
         = percentOf N (List.length (filter compliantRecord data)) (List.length data)
      /\ (forall d, compliantRecord d = true
                    <-> prop d "complianceInd" = VStr (js "y")
                        \/ prop d "complianceInd" = VStr (js "Y"))
      /\ (forall data', ~ indicatorsAreText data' ->
            Computed.DiversityDataAnalytics.analytics N numberToString data' = None).
Proof.
  intros N numberToString data Htext.
  destruct (diversity_analytics_returns N numberToString data Htext) as [a Ha].
  exists a. split; [exact Ha|].
  assert (Hrest : forall data', ~ indicatorsAreText data' ->
            Computed.DiversityDataAnalytics.analytics N numberToString data' = None).
  { intros data' Hn.
    destruct (Computed.DiversityDataAnalytics.analytics N numberToString data')
      as [a'|] eqn:E; trivial.
    exfalso. apply Hn. destruct data' as [|d0 l]; [constructor|].
    apply (diversity_analytics_some N numberToString (d0 :: l) a'); [discriminate | exact E]. }
  destruct data as [|d0 l].
  - injection Ha as <-. repeat split; trivial; apply isCompliant_spec.
  - destruct (diversity_analytics_some N numberToString (d0 :: l) a) as (_ & A1 & A2 & _ & A4 & A5);
      [discriminate | exact Ha |].
    repeat split; trivial; apply isCompliant_spec.
Qed.

Lemma X10_witness :
  exists a,
    Computed.DiversityDataAnalytics.analytics doubles (fun _ => js "0") diversitySample
    = Some a
    /\ Computed.DiversityDataAnalytics.a_overviewMetrics a
       = Some (diversityOverview doubles diversitySample)
    /\ Computed.DiversityDataAnalytics.complianceSummary a
       = percentOf doubles 2 3.
Proof.
  assert (Htext : indicatorsAreText diversitySample).
  { repeat constructor; discriminate. }
  destruct (X10_diversity_overview_and_trends doubles (fun _ => js "0")
              diversitySample Htext) as [a (H1 & H2 & _ & _ & H5 & _)].
  exists a. repeat split; assumption.
Defined.

(** X11.  The complaints breakdown of DiversityDataAnalytics by a
    dimension takes in the records whose dimension is neither missing nor
    empty, and has one entry for each distinct value among them, in the
    order the values are first seen.  The entry of a value holds the
    complaints of its records, each added to the sum so far, which is
    first replaced by 0 when it is zero or NaN; the sum starts from 0.
    The object [analytics] returns holds the breakdown by [dim1]; the
    breakdown by [dim2] is computed in the same pass. *)
Theorem X11_diversity_breakdown_sums_records_with_dim :
  forall (N : Numbers) (numberToString : Q -> jstring) (data : list Item)
         (a : Computed.DiversityDataAnalytics.Analytics N),
    Computed.DiversityDataAnalytics.analytics N numberToString data = Some a ->
    Computed.DiversityDataAnalytics.complaintsBreakdown a
      = groupedBy _ (fun d => prop d "dim1") (diversityBreakdown N)
          (filter (hasDim "dim1") data)
    /\ (forall st,
          Computed.DiversityDataAnalytics.run N numberToString data = Some st ->
          entries (Computed.DiversityDataAnalytics.complaintsByDim2 st)
          = groupedBy _ (fun d => prop d "dim2")
              (fun k members => (k, complaintsOf N members))
              (filter (hasDim "dim2") data))
    /\ (forall b, In b (Computed.DiversityDataAnalytics.complaintsBreakdown a) ->
          truthy (Computed.DiversityDataAnalytics.category b) = true)
    /\ complaintsOf N [] = zero N
    /\ (forall members d,
          complaintsOf N (members ++ [d])
          = add N (orZeroOf N (complaintsOf N members)) (operandIn N "totalComplaints" d)).
Proof.
  intros N numberToString data a Ha.
  assert (A : Computed.DiversityDataAnalytics.complaintsBreakdown a
              = groupedBy _ (fun d => prop d "dim1") (diversityBreakdown N)
                  (filter (hasDim "dim1") data)).
  { destruct data as [|d0 l]; [injection Ha as <-; reflexivity|].
    apply (diversity_analytics_some N numberToString (d0 :: l) a); [discriminate | exact Ha]. }
  split; [exact A|]. split; [|split; [|split]].
  - intros st R. unfold Computed.DiversityDataAnalytics.run in R.
    destruct (diversity_run_components N numberToString data _ st R) as (_ & _ & _ & _ & I4).
    rewrite I4. apply diversity_dim_entries.
  - intros b Hb. rewrite A in Hb.
    destruct (grouped_members (fun d => prop d "dim1") _ (diversityBreakdown N)
                (filter (hasDim "dim1") data) b Hb) as [k (Hk & _ & ->)].
    simpl. apply firstSeen_In in Hk. apply in_map_iff in Hk.
    destruct Hk as [d [<- Hd]]. apply filter_In in Hd. apply Hd.
  - reflexivity.
  - intros members d. unfold complaintsOf. now rewrite fold_left_app.
Qed.

Lemma X11_witness :
  exists a,
    Computed.DiversityDataAnalytics.analytics doubles (fun _ => js "0") diversitySample
    = Some a
    /\ Computed.DiversityDataAnalytics.complaintsBreakdown a
       = [Computed.DiversityDataAnalytics.mkBreakdown doubles (VStr (js "North"))
            (doubleOfQ 7)].
Proof.
  eexists. split; [reflexivity|].
  destruct (X11_diversity_breakdown_sums_records_with_dim doubles (fun _ => js "0")
              diversitySample _ eq_refl) as (H & _).
  rewrite H. reflexivity.
Defined.

(** ** Worked examples on doubles *)

(** two compliant records of three: (2 / 3) * 100 is 66.66666666666666,
    the double below the one nearest to 200/3 *)
Example doubles_compliance_summary :
  percentOf doubles 2 3 = PrimFloat.next_down (doubleOfQ (200 # 3))
  /\ PrimFloat.ltb (percentOf doubles 2 3) (doubleOfQ (200 # 3)) = true.
Proof. split; vm_compute; reflexivity. Qed.

(** a mean times the count need not give the sum back: (1 / 49) * 49 is
    0.9999999999999999 *)
Example doubles_mean_times_count :
  mul doubles (meanOrZero doubles (ofNat doubles 1) 49) (ofNat doubles 49)
  = PrimFloat.next_down (ofNat doubles 1).
Proof. vm_compute. reflexivity. Qed.

(** a record without a sales figure makes the total of the sales and the
    growth of its month NaN; the purchases of the second month, 300
    against 200, have grown by 50 per cent *)
Example openness_missing_figure :
  PrimFloat.is_nan (Computed.OpennessAnalytics.totalOf doubles "rptSales" opennessSample)
  = true
  /\ Computed.OpennessAnalytics.totalOf doubles "rptPurchases" opennessSample
     = ofNat doubles 500
  /\ List.map Computed.OpennessAnalytics.momPurchases
       (Computed.OpennessAnalytics.monthlyTrends doubles opennessSample)
     = [ofNat doubles 0; ofNat doubles 50]
  /\ List.map (fun t : Computed.OpennessAnalytics.Trend doubles =>
                 PrimFloat.is_nan (Computed.OpennessAnalytics.momSales t))
       (Computed.OpennessAnalytics.monthlyTrends doubles opennessSample)
     = [false; true]
  /\ Computed.OpennessAnalytics.complianceRate doubles opennessSample = ofNat doubles 50.
Proof. repeat split; vm_compute; reflexivity. Qed.
